(** * Forecasting and shift-optimisation core of the workforce scheduler

    A shallow embedding of [services/ForecastService.js] (the classes
    [ForecastService] and [ScheduleOptimizer]) together with the
    properties its specification states about it.

    Numbers.  A JavaScript number is modelled by [num]: a finite value
    carried as an exact rational, the two infinities and NaN.  Finite
    arithmetic is exact (binary64 rounding is not modelled); division by
    zero, NaN propagation, [Math.max]/[Math.min] on NaN and the
    truthiness test behind [x || d] follow the language.  A zero divisor
    is taken to be +0, the only zero the modelled code can divide by.
    The machine's rounding shows where an exact value is a whole number
    or two exact values tie: 50 * (1 + 0.10) is 55.00000000000001 in
    binary64, with ceiling 56, and 4.1 + 0.8 + 0.1 is below 4.2 + 0.7 + 0.1.
    The properties of staffing counts and of the order of agents are
    therefore stated as bounds, orderings and monotonicity, which hold of
    both arithmetics, and fix no ceiling of a product and no order among
    agents whose exact scores tie.

    Dates and times.  A calendar date ['YYYY-MM-DD'] is a day number and a
    time of day ['HH:mm'] its minutes after midnight; a [moment] value is
    known through the accessors the code calls.

    Storage.  The Sequelize models are collaborators: a call runs against
    an environment that says what a lookup finds and which reads or
    writes fail, and threads the table it writes to.  The hooks that the
    models of this repository attach to [create] are part of the
    embedding, and so is what [create] keeps of the values it is given:
    the attributes of the model.  The models define no [channel_id],
    [skill_id], [agent_id] or [schedule_id] (the associations declare the
    keys as [ChannelId], [SkillId], [AgentId] and [ScheduleId]), so these
    are dropped on [create] and undefined on the rows read back. *)

From Stdlib Require Import ZArith QArith Qround List Bool Lia Lqa.
From Stdlib Require Import Sorted Permutation.
From Stdlib Require String.
Import ListNotations.
Open Scope Q_scope.

(* ================================================================== *)
(** ** JavaScript numbers *)
(* ================================================================== *)

Inductive num : Type :=
| Fin (q : Q)
| PInf
| NInf
| NaN.

Definition inf_of (c : comparison) : num :=
  match c with Gt => PInf | Lt => NInf | Eq => NaN end.

Definition sgn (a : num) : comparison :=
  match a with
  | Fin q => q ?= 0
  | PInf => Gt
  | NInf => Lt
  | NaN => Eq
  end.

Definition sgn_mul (c d : comparison) : comparison :=
  match c, d with
  | Eq, _ | _, Eq => Eq
  | Gt, Gt | Lt, Lt => Gt
  | _, _ => Lt
  end.

(** [a + b] *)
Definition nadd (a b : num) : num :=
  match a, b with
  | NaN, _ | _, NaN => NaN
  | Fin x, Fin y => Fin (x + y)
  | PInf, NInf | NInf, PInf => NaN
  | PInf, _ | _, PInf => PInf
  | NInf, _ | _, NInf => NInf
  end.

(** [a - b] *)
Definition nsub (a b : num) : num :=
  match a, b with
  | NaN, _ | _, NaN => NaN
  | Fin x, Fin y => Fin (x - y)
  | PInf, PInf | NInf, NInf => NaN
  | PInf, _ | _, NInf => PInf
  | NInf, _ | _, PInf => NInf
  end.

(** [a * b] *)
Definition nmul (a b : num) : num :=
  match a, b with
  | NaN, _ | _, NaN => NaN
  | Fin x, Fin y => Fin (x * y)
  | _, _ => inf_of (sgn_mul (sgn a) (sgn b))
  end.

(** [a / b]; a finite value over zero is an infinity of its sign, 0/0 is NaN. *)
Definition ndiv (a b : num) : num :=
  match a, b with
  | NaN, _ | _, NaN => NaN
  | Fin x, Fin y => if Qeq_bool y 0 then inf_of (x ?= 0) else Fin (x / y)
  | Fin _, _ => Fin 0
  | _, Fin y => inf_of (sgn_mul (sgn a) (if Qeq_bool y 0 then Gt else y ?= 0))
  | _, _ => NaN
  end.

(** Comparison; [None] when an operand is NaN (every relational test is then false). *)
Definition ncmp (a b : num) : option comparison :=
  match a, b with
  | NaN, _ | _, NaN => None
  | Fin x, Fin y => Some (x ?= y)
  | PInf, PInf | NInf, NInf => Some Eq
  | PInf, _ | _, NInf => Some Gt
  | NInf, _ | _, PInf => Some Lt
  end.

Definition nlt (a b : num) : bool :=
  match ncmp a b with Some Lt => true | _ => false end.
Definition nle (a b : num) : bool :=
  match ncmp a b with Some Lt | Some Eq => true | _ => false end.
Definition ngt (a b : num) : bool :=
  match ncmp a b with Some Gt => true | _ => false end.
Definition nge (a b : num) : bool :=
  match ncmp a b with Some Gt | Some Eq => true | _ => false end.

(** [Math.max(a, b)] and [Math.min(a, b)]: NaN as soon as an argument is NaN. *)
Definition nmax (a b : num) : num :=
  match ncmp a b with
  | None => NaN
  | Some Lt => b
  | Some _ => a
  end.

Definition nmin (a b : num) : num :=
  match ncmp a b with
  | None => NaN
  | Some Gt => b
  | Some _ => a
  end.

Definition lift_round (f : Q -> Z) (a : num) : num :=
  match a with
  | Fin q => Fin (inject_Z (f q))
  | other => other
  end.

(** [Math.floor], [Math.ceil] and [Math.round] (halves go up). *)
Definition nfloor : num -> num := lift_round Qfloor.
Definition nceil : num -> num := lift_round Qceiling.
Definition nround : num -> num := lift_round (fun q => Qfloor (q + (1 # 2))).

(** [Math.pow(a, 2)] *)
Definition npow2 (a : num) : num := nmul a a.

(** Truthiness of a number: 0 and NaN are falsy. *)
Definition truthy (a : num) : bool :=
  match a with
  | Fin q => negb (Qeq_bool q 0)
  | NaN => false
  | _ => true
  end.

(** [x || d] on a numeric field that may be null or undefined ([None]). *)
Definition or_default (x : option num) (d : num) : num :=
  match x with
  | Some v => if truthy v then v else d
  | None => d
  end.

(** [arr.length] as a number. *)
Definition js_length {A : Type} (l : list A) : num :=
  Fin (inject_Z (Z.of_nat (length l))).

(** Two numbers denote the same value. *)
Definition num_eq (a b : num) : Prop :=
  match a, b with
  | Fin x, Fin y => x == y
  | PInf, PInf | NInf, NInf | NaN, NaN => True
  | _, _ => False
  end.

Definition finite (a : num) : Prop := exists q, a = Fin q.

(* ================================================================== *)
(** ** ForecastService: demand prediction and staffing *)
(* ================================================================== *)

(** One element of the array returned by [getHistoricalData]:
    [{ date, volume, hour }]. *)
Record HistoricalDatum : Type := {
  s_date : Z;
  s_volume : num;
  s_hour : Z
}.

(** [{ seasonal, trend }] *)
Record SeasonalFactors : Type := {
  seasonal : num;
  trend : num
}.

(** [{ holidayFactor, weather, specialEvent }] *)
Record ExternalFactors : Type := {
  holidayFactor : num;
  weather : num;
  specialEvent : num
}.

(** [{ volume, confidence, minVolume, maxVolume }] *)
Record PredictedVolume : Type := {
  volume : num;
  confidence : num;
  minVolume : num;
  maxVolume : num
}.

(** [values.reduce((sum, val) => sum + val, 0)] *)
Definition reduce_sum (values : list num) : num :=
  fold_left (fun sum val => nadd sum val) values (Fin 0).

Definition calculateVariance (values : list num) : num :=
  if (length values <? 2)%nat then Fin 0
  else
    let mean := ndiv (reduce_sum values) (js_length values) in
    let squaredDiffs := map (fun val => npow2 (nsub val mean)) values in
    ndiv (reduce_sum squaredDiffs) (js_length values).

Definition calculatePredictedVolume
  (historicalData : list HistoricalDatum)
  (seasonalFactors : SeasonalFactors)
  (externalFactors : ExternalFactors) : PredictedVolume :=
  match historicalData with
  | [] =>
      {| volume := Fin 10;
         confidence := Fin (30 # 100);
         minVolume := Fin 5;
         maxVolume := Fin 20 |}
  | _ :: _ =>
      let baseVolume :=
        ndiv (fold_left (fun sum data => nadd sum (s_volume data))
                        historicalData (Fin 0))
             (js_length historicalData) in
      let seasonallyAdjusted :=
        nmul (nmul baseVolume (seasonal seasonalFactors))
             (trend seasonalFactors) in
      let finalVolume :=
        nround (nmul (nmul (nmul seasonallyAdjusted
                                 (specialEvent externalFactors))
                           (weather externalFactors))
                     (holidayFactor externalFactors)) in
      let variance := calculateVariance (map s_volume historicalData) in
      let confidence :=
        nmax (Fin (40 # 100))
             (nmin (Fin (95 # 100)) (nsub (Fin 1) (ndiv variance baseVolume))) in
      let variabilityFactor := nsub (Fin 1) confidence in
      let minVolume :=
        nmax (Fin 0) (nfloor (nmul finalVolume (nsub (Fin 1) variabilityFactor))) in
      let maxVolume :=
        nceil (nmul finalVolume (nadd (Fin 1) variabilityFactor)) in
      {| volume := finalVolume;
         confidence := confidence;
         minVolume := minVolume;
         maxVolume := maxVolume |}
  end.

(** The columns of a Channel row that the service reads.  A column may be
    null; times of day are kept as the hour and minute of ['HH:mm:ss']. *)
Record Channel : Type := {
  channel_id : Z;
  average_handle_time : option num;
  wrap_up_time : option num;
  service_level_target : option num;
  service_level_threshold : option num;
  shrinkage_factor : option num;
  min_staffing_level : option num;
  preferred_staffing_buffer : option num;
  operating_hours_start : Z * Z;
  operating_hours_end : Z * Z
}.

(** [{ required, optimal, minimum, predictedServiceLevel, predictedWaitTime }] *)
Record RequiredAgents : Type := {
  required : num;
  optimal : num;
  minimum : num;
  predictedServiceLevel : num;
  predictedWaitTime : num
}.

Definition calculateServiceLevelBuffer (serviceLevel targetAnswerTime : num) : num :=
  nadd (Fin 1) (nmul (nsub serviceLevel (Fin (5 # 10))) (Fin (5 # 10))).

Definition predictServiceLevel (agents workload targetSeconds : num) : num :=
  let utilization := ndiv workload agents in
  if nge utilization (Fin 1) then Fin (1 # 10)
  else nmax (Fin (1 # 10)) (nmin (Fin (99 # 100)) (nsub (Fin 1) utilization)).

Definition predictAverageWaitTime (agents workload : num) : num :=
  let utilization := ndiv workload agents in
  if nge utilization (Fin 1) then Fin 300
  else nmax (Fin 0) (nmul utilization (Fin 60)).

Definition calculateRequiredAgents
  (predictedVolume : PredictedVolume) (channel : Channel)
  (skillId : option Z) : RequiredAgents :=
  let volume := volume predictedVolume in
  let aht := or_default (average_handle_time channel) (Fin 5) in
  let wrapUpTime := or_default (wrap_up_time channel) (Fin 2) in
  let serviceLevel := or_default (service_level_target channel) (Fin (80 # 100)) in
  let targetAnswerTime := or_default (service_level_threshold channel) (Fin 20) in
  let shrinkage := or_default (shrinkage_factor channel) (Fin (25 # 100)) in
  let totalHandleTime := nadd aht wrapUpTime in
  let workloadErlangs := ndiv (nmul volume totalHandleTime) (Fin 60) in
  let adjustedWorkload := ndiv workloadErlangs (nsub (Fin 1) shrinkage) in
  let baseAgents := nceil adjustedWorkload in
  let bufferFactor := calculateServiceLevelBuffer serviceLevel targetAnswerTime in
  let requiredAgents :=
    nmax (or_default (min_staffing_level channel) (Fin 1))
         (nceil (nmul baseAgents bufferFactor)) in
  let optimalAgents :=
    nceil (nmul requiredAgents
                (nadd (Fin 1)
                      (or_default (preferred_staffing_buffer channel)
                                  (Fin (10 # 100))))) in
  let minimumAgents := or_default (min_staffing_level channel) (Fin 1) in
  let predictedServiceLevel :=
    predictServiceLevel requiredAgents workloadErlangs targetAnswerTime in
  let predictedWaitTime := predictAverageWaitTime requiredAgents workloadErlangs in
  {| required := requiredAgents;
     optimal := optimalAgents;
     minimum := minimumAgents;
     predictedServiceLevel := predictedServiceLevel;
     predictedWaitTime := predictedWaitTime |}.

(** A [moment] value, through the accessors the service calls:
    [format('YYYY-MM-DD')] (kept as a day number, which orders like the
    string), [day()], [month()] (0 = January) and [date()]. *)
Record Moment : Type := {
  ymd : Z;
  day : Z;
  month : Z;
  date : Z
}.

(** [table[i]]: undefined (NaN in arithmetic) outside the table. *)
Definition index (table : list num) (i : Z) : num :=
  if (i <? 0)%Z then NaN else nth (Z.to_nat i) table NaN.

Definition dayOfWeekFactors : list num :=
  map Fin [6 # 10; 11 # 10; 1; 1; 12 # 10; 11 # 10; 7 # 10].

Definition hourFactors : list num :=
  map Fin
    [1 # 10; 1 # 10; 1 # 10; 1 # 10; 2 # 10; 3 # 10; 5 # 10; 7 # 10;
     1; 12 # 10; 11 # 10; 1; 9 # 10; 11 # 10; 12 # 10; 11 # 10;
     1; 8 # 10; 6 # 10; 4 # 10; 3 # 10; 2 # 10; 1 # 10; 1 # 10].

Definition monthlyFactors : list num :=
  map Fin
    [11 # 10; 1; 1; 1; 9 # 10; 9 # 10; 8 # 10; 8 # 10;
     1; 11 # 10; 12 # 10; 13 # 10].

Definition getSeasonalFactors (momentDate : Moment) (hour : Z) : SeasonalFactors :=
  let dayOfWeek := day momentDate in
  let month := month momentDate in
  let seasonal := index dayOfWeekFactors dayOfWeek in
  let hourlyFactor := index hourFactors hour in
  let monthlyFactor := index monthlyFactors month in
  let trend := Fin (102 # 100) in
  {| seasonal := nmul (nmul seasonal hourlyFactor) monthlyFactor;
     trend := trend |}.

(** The [holidays] table of [getHolidayFactor]: (month, date) pairs. *)
Definition holidays : list (Z * Z) := [(0, 1); (6, 4); (11, 25)]%Z.

Fixpoint holiday_loop (hs : list (Z * Z)) (month date : Z) : num :=
  match hs with
  | [] => Fin 1
  | (hm, hd) :: rest =>
      if ((month =? hm) && (date =? hd))%Z then Fin (3 # 10)
      else holiday_loop rest month date
  end.

Definition getHolidayFactor (momentDate : Moment) : num :=
  holiday_loop holidays (month momentDate) (date momentDate).

Definition getExternalFactors (momentDate : Moment) (hour : Z) : ExternalFactors :=
  let holidayFactor := getHolidayFactor momentDate in
  let weatherFactor := Fin 1 in
  let specialEvent := Fin 1 in
  {| holidayFactor := holidayFactor;
     weather := weatherFactor;
     specialEvent := specialEvent |}.

(** [parseInt(t.split(':')[0])] on a time of day. *)
Definition hour_of (t : Z * Z) : Z := fst t.

Definition isOperatingHour (hour : Z) (channel : Channel) : bool :=
  let startHour := hour_of (operating_hours_start channel) in
  let endHour := hour_of (operating_hours_end channel) in
  ((startHour <=? hour) && (hour <? endHour))%Z.

(* ------------------------------------------------------------------ *)
(** *** Forecast rows and the storage collaborator *)
(* ------------------------------------------------------------------ *)

Inductive ForecastStatus : Type :=
| draft | generated | reviewed | approved | published | archived.

(** A row of the Forecast table: the columns written by
    [generateHourlyForecasts] and read by [getHistoricalData].  The
    constant columns ([forecast_type], [forecast_method],
    [model_version], [created_by]) and the generated ones ([id],
    timestamps) carry no computed value and are left out.  The record
    also stands for the object of values handed to [Forecast.create].

    The columns [channel_id] and [skill_id] belong to the associations
    [Forecast.belongsTo(Channel)] and [Forecast.belongsTo(Skill)], which
    declare the keys as the attributes [ChannelId] and [SkillId]; both
    columns can be NULL ([None]). *)
Record Forecast : Type := {
  f_channel_id : option Z;
  f_skill_id : option Z;
  forecast_date : Z;
  forecast_hour : Z;
  predicted_volume : num;
  confidence_level : num;
  min_volume : num;
  max_volume : num;
  required_agents : num;
  optimal_agents : num;
  minimum_agents : num;
  predicted_service_level : num;
  predicted_average_wait_time : num;
  seasonal_factor : num;
  trend_factor : num;
  special_event_factor : num;
  weather_factor : num;
  external_factors : ExternalFactors;
  status : ForecastStatus;
  actual_volume : option num
}.

Inductive Error : Type :=
| ChannelNotFound          (* new Error('Channel not found') *)
| UniqueConstraintError    (* the storage rejects a second row for unique_forecast_period *)
| ValidationError          (* thrown by a model hook *)
| DatabaseError.           (* any other failure raised by the storage *)

(** What the storage and the clock contribute to one call. *)
Record Env : Type := {
  today : Z;                        (* moment(), as a day number *)
  enforce_unique : bool;            (* the index unique_forecast_period is enforced *)
  findAll_fails : Z -> bool;        (* Forecast.findAll throws on the query for this hour *)
  create_fails : Forecast -> bool   (* Forecast.create throws on this record *)
}.

Record Storage : Type := {
  channel_table : list Channel;
  forecast_table : list Forecast
}.

(** [Channel.findByPk(channelId)] *)
Definition findByPk (channels : list Channel) (channelId : Z) : option Channel :=
  find (fun c => (channel_id c =? channelId)%Z) channels.

(** The [beforeValidate] hook of the Forecast model. *)
Definition beforeValidate (forecast : Forecast) : Forecast :=
  let pv := predicted_volume forecast in
  let min_volume' :=
    if truthy pv && negb (truthy (min_volume forecast))
    then nmax (Fin 0) (nfloor (nmul pv (Fin (7 # 10))))
    else min_volume forecast in
  let max_volume' :=
    if truthy pv && negb (truthy (max_volume forecast))
    then nceil (nmul pv (Fin (13 # 10)))
    else max_volume forecast in
  let confidence_level' :=
    if negb (truthy (confidence_level forecast))
    then Fin (80 # 100)     (* forecast_method is 'seasonal_decomposition' *)
    else confidence_level forecast in
  {| f_channel_id := f_channel_id forecast;
     f_skill_id := f_skill_id forecast;
     forecast_date := forecast_date forecast;
     forecast_hour := forecast_hour forecast;
     predicted_volume := pv;
     confidence_level := confidence_level';
     min_volume := min_volume';
     max_volume := max_volume';
     required_agents := required_agents forecast;
     optimal_agents := optimal_agents forecast;
     minimum_agents := minimum_agents forecast;
     predicted_service_level := predicted_service_level forecast;
     predicted_average_wait_time := predicted_average_wait_time forecast;
     seasonal_factor := seasonal_factor forecast;
     trend_factor := trend_factor forecast;
     special_event_factor := special_event_factor forecast;
     weather_factor := weather_factor forecast;
     external_factors := external_factors forecast;
     status := status forecast;
     actual_volume := actual_volume forecast |}.

(** Two values of a key column are equal for a unique index; NULL is
    distinct from every value, NULL included (PostgreSQL and SQLite, the
    two dialects the application configures). *)
Definition same_key (a b : option Z) : bool :=
  match a, b with
  | Some x, Some y => (x =? y)%Z
  | _, _ => false
  end.

(** Two rows collide in the index on
    [(channel_id, skill_id, forecast_date, forecast_hour)]. *)
Definition same_period (a b : Forecast) : bool :=
  (same_key (f_channel_id a) (f_channel_id b)
   && same_key (f_skill_id a) (f_skill_id b)
   && (forecast_date a =? forecast_date b)%Z
   && (forecast_hour a =? forecast_hour b)%Z)%bool.

(** [Forecast.build(values)]: the instance keeps the attributes of the
    model only.  [channel_id] and [skill_id] are not among them (the
    attributes are [ChannelId] and [SkillId]), so both keys of the values
    are dropped and the row has neither. *)
Definition Forecast_build (values : Forecast) : Forecast :=
  {| f_channel_id := None;
     f_skill_id := None;
     forecast_date := forecast_date values;
     forecast_hour := forecast_hour values;
     predicted_volume := predicted_volume values;
     confidence_level := confidence_level values;
     min_volume := min_volume values;
     max_volume := max_volume values;
     required_agents := required_agents values;
     optimal_agents := optimal_agents values;
     minimum_agents := minimum_agents values;
     predicted_service_level := predicted_service_level values;
     predicted_average_wait_time := predicted_average_wait_time values;
     seasonal_factor := seasonal_factor values;
     trend_factor := trend_factor values;
     special_event_factor := special_event_factor values;
     weather_factor := weather_factor values;
     external_factors := external_factors values;
     status := status values;
     actual_volume := actual_volume values |}.

(** [Forecast.create(values)]: the stored row, which is also the instance
    returned, and the new table, or the error the storage raises. *)
Definition Forecast_create (env : Env) (table : list Forecast) (values : Forecast)
  : Error + (Forecast * list Forecast) :=
  let row := beforeValidate (Forecast_build values) in
  if create_fails env row then inl DatabaseError
  else if enforce_unique env && existsb (same_period row) table
  then inl UniqueConstraintError
  else inr (row, table ++ [row]).

(** [order: [['forecast_date', 'DESC']]] *)
Fixpoint insert_by_date_desc (f : Forecast) (sorted : list Forecast) : list Forecast :=
  match sorted with
  | [] => [f]
  | g :: rest =>
      if (forecast_date g <=? forecast_date f)%Z then f :: g :: rest
      else g :: insert_by_date_desc f rest
  end.

Definition order_by_date_desc (rows : list Forecast) : list Forecast :=
  fold_right insert_by_date_desc [] rows.

Definition is_some {A : Type} (x : option A) : bool :=
  match x with Some _ => true | None => false end.

(** The [where] clause built by [getHistoricalData]. *)
Definition history_where (channelId hour : Z) (skillId : option Z)
  (startDate endDate : Z) (f : Forecast) : bool :=
  (match f_channel_id f with Some c => (c =? channelId)%Z | None => false end
   && (forecast_hour f =? hour)%Z
   && ((startDate <=? forecast_date f)%Z && (forecast_date f <=? endDate)%Z)
   && is_some (actual_volume f)
   && match skillId with
      | Some s => match f_skill_id f with Some s' => (s' =? s)%Z | None => false end
      | None => true
      end)%bool.

(** [getHistoricalData(channelId, hour, skillId, lookbackDays = 28)]; a
    failing query is caught and answered by the empty array. *)
Definition getHistoricalData (env : Env) (table : list Forecast)
  (channelId hour : Z) (skillId : option Z) : list HistoricalDatum :=
  let lookbackDays := 28%Z in
  let endDate := today env in
  let startDate := (today env - lookbackDays)%Z in
  if findAll_fails env hour then []
  else
    let historicalForecasts :=
      order_by_date_desc
        (filter (history_where channelId hour skillId startDate endDate) table) in
    map (fun f => {| s_date := forecast_date f;
                     s_volume := match actual_volume f with
                                 | Some v => v
                                 | None => Fin 0
                                 end;
                     s_hour := forecast_hour f |})
        historicalForecasts.

(** The values handed to [Forecast.create] for one operating hour. *)
Definition hourly_values (env : Env) (table : list Forecast) (channel : Channel)
  (channelId : Z) (momentDate : Moment) (skillId : option Z) (hour : Z) : Forecast :=
  let historicalData := getHistoricalData env table channelId hour skillId in
  let seasonalFactors := getSeasonalFactors momentDate hour in
  let externalFactors := getExternalFactors momentDate hour in
  let predictedVolume :=
    calculatePredictedVolume historicalData seasonalFactors externalFactors in
  let requiredAgents := calculateRequiredAgents predictedVolume channel skillId in
  {| f_channel_id := Some channelId;
     f_skill_id := skillId;
     forecast_date := ymd momentDate;
     forecast_hour := hour;
     predicted_volume := volume predictedVolume;
     confidence_level := confidence predictedVolume;
     min_volume := minVolume predictedVolume;
     max_volume := maxVolume predictedVolume;
     required_agents := required requiredAgents;
     optimal_agents := optimal requiredAgents;
     minimum_agents := minimum requiredAgents;
     predicted_service_level := predictedServiceLevel requiredAgents;
     predicted_average_wait_time := predictedWaitTime requiredAgents;
     seasonal_factor := seasonal seasonalFactors;
     trend_factor := trend seasonalFactors;
     special_event_factor := specialEvent externalFactors;
     weather_factor := weather externalFactors;
     external_factors := externalFactors;
     status := generated;
     actual_volume := None |}.

(** The body of [for (let hour = 0; hour < 24; hour++)], over the hours
    still to visit; an exception leaves the loop with the rows already
    written still in the table. *)
Fixpoint hourly_loop (env : Env) (channel : Channel) (channelId : Z)
  (momentDate : Moment) (skillId : option Z) (hours : list Z)
  (table : list Forecast) (forecasts : list Forecast)
  : (Error + list Forecast) * list Forecast :=
  match hours with
  | [] => (inr forecasts, table)
  | hour :: rest =>
      if negb (isOperatingHour hour channel)
      then hourly_loop env channel channelId momentDate skillId rest table forecasts
      else
        match Forecast_create env table
                (hourly_values env table channel channelId momentDate skillId hour) with
        | inl e => (inl e, table)
        | inr (forecast, table') =>
            hourly_loop env channel channelId momentDate skillId rest table'
                        (forecasts ++ [forecast])
        end
  end.

Definition hours_of_day : list Z := map Z.of_nat (seq 0 24).

(** [generateHourlyForecasts(channelId, date, skillId = null)]: the array
    returned or the error rethrown, and the storage afterwards. *)
Definition generateHourlyForecasts (env : Env) (st : Storage)
  (channelId : Z) (momentDate : Moment) (skillId : option Z)
  : (Error + list Forecast) * Storage :=
  match findByPk (channel_table st) channelId with
  | None => (inl ChannelNotFound, st)
  | Some channel =>
      let (outcome, table) :=
        hourly_loop env channel channelId momentDate skillId hours_of_day
                    (forecast_table st) [] in
      (outcome, {| channel_table := channel_table st; forecast_table := table |})
  end.

(* ================================================================== *)
(** ** ScheduleOptimizer: shift patterns, assignment, breaks, metrics *)
(* ================================================================== *)

(** A time of day ['HH:mm'] is kept as its minutes after midnight. *)
Definition hhmm (h m : Z) : Z := (60 * h + m)%Z.

(** [moment(`2000-01-01T${t}`)] and [moment(`2000-01-02T${t}`)], as minutes
    after 2000-01-01T00:00; an instant is a rational because [add] takes
    fractional hours and minutes. *)
Definition on_2000_01_01 (t : Z) : Q := inject_Z t.
Definition on_2000_01_02 (t : Z) : Q := inject_Z (1440 + t).

(** [m.add(n, 'hours')], [m.add(n, 'minutes')], [a.diff(b, 'hours', true)]
    and [m.format('HH:mm')], which drops the day and the seconds. *)
Definition add_hours (m n : Q) : Q := m + n * 60.
Definition add_minutes (m n : Q) : Q := m + n.
Definition diff_hours (a b : Q) : Q := (a - b) / 60.
Definition format_HHmm (m : Q) : Z := (Qfloor m mod 1440)%Z.

(** [parseInt(t.split(':')[0])] *)
Definition hour_part (t : Z) : Z := (t / 60)%Z.

Definition Qltb (x y : Q) : bool :=
  match x ?= y with Lt => true | _ => false end.

(** [x || d] on a field of the constraint object. *)
Definition or_defaultQ (x : option Q) (d : Q) : Q :=
  match x with
  | Some v => if Qeq_bool v 0 then d else v
  | None => d
  end.

(** [a > c] and [a < c] against a field that may be undefined (then false). *)
Definition gt_field (a : Q) (c : option Q) : bool :=
  match c with Some v => Qltb v a | None => false end.
Definition lt_field (a : Q) (c : option Q) : bool :=
  match c with Some v => Qltb a v | None => false end.

(** The constraint object of a schedule; a key may be absent. *)
Record Constraints : Type := {
  max_consecutive_days : option Q;
  min_days_off_per_week : option Q;
  max_hours_per_day : option Q;
  max_hours_per_week : option Q;
  min_break_duration : option Q;
  lunch_break_duration : option Q;
  min_time_between_shifts : option Q
}.

Definition getDefaultConstraints : Constraints :=
  {| max_consecutive_days := Some 5;
     min_days_off_per_week := Some 2;
     max_hours_per_day := Some 8;
     max_hours_per_week := Some 40;
     min_break_duration := Some 30;
     lunch_break_duration := Some 60;
     min_time_between_shifts := Some 8 |}.

Definition spread {A : Type} (default given : option A) : option A :=
  match given with Some v => Some v | None => default end.

(** [{ ...this.getDefaultConstraints(), ...constraints }] *)
Definition merge_constraints (given : Constraints) : Constraints :=
  let d := getDefaultConstraints in
  {| max_consecutive_days := spread (max_consecutive_days d) (max_consecutive_days given);
     min_days_off_per_week := spread (min_days_off_per_week d) (min_days_off_per_week given);
     max_hours_per_day := spread (max_hours_per_day d) (max_hours_per_day given);
     max_hours_per_week := spread (max_hours_per_week d) (max_hours_per_week given);
     min_break_duration := spread (min_break_duration d) (min_break_duration given);
     lunch_break_duration := spread (lunch_break_duration d) (lunch_break_duration given);
     min_time_between_shifts :=
       spread (min_time_between_shifts d) (min_time_between_shifts given) |}.

Record Preferences : Type := {
  prioritize_agent_preferences : option bool;
  minimize_overtime : option bool;
  balance_workload : option bool;
  optimize_for_service_level : option bool;
  allow_split_shifts : option bool
}.

Definition getDefaultOptimizationPreferences : Preferences :=
  {| prioritize_agent_preferences := Some true;
     minimize_overtime := Some true;
     balance_workload := Some true;
     optimize_for_service_level := Some true;
     allow_split_shifts := Some false |}.

Definition merge_preferences (given : Preferences) : Preferences :=
  let d := getDefaultOptimizationPreferences in
  {| prioritize_agent_preferences :=
       spread (prioritize_agent_preferences d) (prioritize_agent_preferences given);
     minimize_overtime := spread (minimize_overtime d) (minimize_overtime given);
     balance_workload := spread (balance_workload d) (balance_workload given);
     optimize_for_service_level :=
       spread (optimize_for_service_level d) (optimize_for_service_level given);
     allow_split_shifts := spread (allow_split_shifts d) (allow_split_shifts given) |}.

Definition calculateShiftHours (startTime endTime : Z) : Q :=
  let start := on_2000_01_01 startTime in
  let end_ := on_2000_01_01 endTime in
  diff_hours end_ start.

Definition calculateTimeBetween (endTime startTime : Z) : Q :=
  let end_ := on_2000_01_01 endTime in
  let start := on_2000_01_02 startTime in
  diff_hours start end_.

(* ------------------------------------------------------------------ *)
(** *** Breaks and lunch *)
(* ------------------------------------------------------------------ *)

Inductive BreakType : Type := type_break | type_lunch.

(** [{ start_time, end_time, type, duration }] *)
Record Break : Type := {
  start_time : Z;
  end_time : Z;
  type : BreakType;
  duration : Q
}.

Definition generateBreaks (startTime endTime : Z) (constraints : Constraints)
  : list Break :=
  let shiftHours := calculateShiftHours startTime endTime in
  if Qle_bool 4 shiftHours then
    let breakDuration := or_defaultQ (min_break_duration constraints) 15 in
    let numBreaks := Qfloor (shiftHours / 4) in
    map (fun i =>
           let breakTime :=
             format_HHmm (add_hours (on_2000_01_01 startTime) (inject_Z (i * 4))) in
           {| start_time := breakTime;
              end_time := format_HHmm (add_minutes (on_2000_01_01 breakTime) breakDuration);
              type := type_break;
              duration := breakDuration |})
        (map Z.of_nat (seq 1 (Z.to_nat numBreaks)))
  else [].

Definition generateLunchBreak (startTime endTime : Z) (constraints : Constraints)
  : option Break :=
  let shiftHours := calculateShiftHours startTime endTime in
  if Qle_bool 6 shiftHours then
    let lunchDuration := or_defaultQ (lunch_break_duration constraints) 60 in
    let midShift :=
      format_HHmm (add_hours (on_2000_01_01 startTime) (shiftHours / 2)) in
    Some {| start_time := midShift;
            end_time := format_HHmm (add_minutes (on_2000_01_01 midShift) lunchDuration);
            type := type_lunch;
            duration := lunchDuration |}
  else None.

(* ------------------------------------------------------------------ *)
(** *** Shift patterns *)
(* ------------------------------------------------------------------ *)

(** [arr.sort(compareFn)], a stable sort: [after x y] says that
    [compareFn(x, y) > 0], so that [y] goes before [x]. *)
Fixpoint insert_stable {A : Type} (after : A -> A -> bool) (x : A) (l : list A)
  : list A :=
  match l with
  | [] => [x]
  | y :: rest => if after x y then y :: insert_stable after x rest else x :: y :: rest
  end.

Definition js_sort {A : Type} (after : A -> A -> bool) (l : list A) : list A :=
  fold_right (insert_stable after) [] l.

(** [requirements[hour]]: [{ totalAgents, channels, totalVolume }]; the
    per-channel detail is never read back and is left out. *)
Record HourRequirement : Type := {
  totalAgents : num;
  totalVolume : num
}.

(** The [requirements] object: integer keys, enumerated in ascending order. *)
Fixpoint add_requirement (hour : Z) (agents volume : num)
  (requirements : list (Z * HourRequirement)) : list (Z * HourRequirement) :=
  match requirements with
  | [] => [(hour, {| totalAgents := nadd (Fin 0) agents;
                     totalVolume := nadd (Fin 0) volume |})]
  | (h, r) :: rest =>
      if (hour =? h)%Z then
        (h, {| totalAgents := nadd (totalAgents r) agents;
               totalVolume := nadd (totalVolume r) volume |}) :: rest
      else if (hour <? h)%Z then
        (hour, {| totalAgents := nadd (Fin 0) agents;
                  totalVolume := nadd (Fin 0) volume |}) :: (h, r) :: rest
      else (h, r) :: add_requirement hour agents volume rest
  end.

Definition calculateHourlyRequirements (forecasts : list Forecast)
  : list (Z * HourRequirement) :=
  fold_left
    (fun requirements forecast =>
       add_requirement (forecast_hour forecast)
         (or_default (Some (required_agents forecast)) (Fin 0))
         (or_default (Some (predicted_volume forecast)) (Fin 0))
         requirements)
    forecasts [].

Definition findPeakHours (hourlyRequirements : list (Z * HourRequirement)) : list Z :=
  let hours := hourlyRequirements in
  let sorted :=
    js_sort (fun a b => ngt (nsub (totalAgents (snd b)) (totalAgents (snd a))) (Fin 0))
            hours in
  map fst
      (firstn (Z.to_nat (Qceiling (inject_Z (Z.of_nat (length hours)) * (3 # 10))))
              sorted).

Inductive PatternType : Type :=
| type_morning | type_day | type_afternoon | type_evening | type_part_time.

(** [{ start, end, type, priority }] *)
Record Pattern : Type := {
  p_start : Z;
  p_end : Z;
  p_type : PatternType;
  priority : Z
}.

Definition calculateShiftPriority (pattern : Pattern) (peakHours : list Z) : Z :=
  let shiftStart := hour_part (p_start pattern) in
  let shiftEnd := hour_part (p_end pattern) in
  let overlapHours :=
    length (filter (fun hour => ((shiftStart <=? hour) && (hour <? shiftEnd))%Z)
                   peakHours) in
  Z.of_nat overlapHours.

Definition template (s e : Z) (t : PatternType) : Pattern :=
  {| p_start := s; p_end := e; p_type := t; priority := 0 |}.

Definition standardShifts : list Pattern :=
  [ template (hhmm 8 0) (hhmm 16 0) type_morning;
    template (hhmm 9 0) (hhmm 17 0) type_day;
    template (hhmm 10 0) (hhmm 18 0) type_day;
    template (hhmm 12 0) (hhmm 20 0) type_afternoon;
    template (hhmm 14 0) (hhmm 22 0) type_evening ].

Definition partTimeShifts : list Pattern :=
  [ template (hhmm 8 0) (hhmm 12 0) type_part_time;
    template (hhmm 13 0) (hhmm 17 0) type_part_time;
    template (hhmm 18 0) (hhmm 22 0) type_part_time ].

Definition generateShiftPatterns (hourlyRequirements : list (Z * HourRequirement))
  (constraints : Constraints) : list Pattern :=
  let peakHours := findPeakHours hourlyRequirements in
  let patterns := standardShifts ++ partTimeShifts in
  js_sort (fun a b => (0 <? priority b - priority a)%Z)
          (map (fun pattern =>
                  {| p_start := p_start pattern;
                     p_end := p_end pattern;
                     p_type := p_type pattern;
                     priority := calculateShiftPriority pattern peakHours |})
               patterns).

(* ------------------------------------------------------------------ *)
(** *** Assignment of agents *)
(* ------------------------------------------------------------------ *)

Record Agent : Type := {
  a_id : Z;
  customer_satisfaction_score : option Q;
  first_call_resolution_rate : option Q;
  can_work_weekends : bool;
  overtime_eligible : bool
}.

(** The entries of the [agentWorkload] map. *)
Record Workload : Type := {
  hoursAssigned : Q;
  shiftsAssigned : Z;
  lastShiftEnd : option Z
}.

Fixpoint map_get (m : list (Z * Workload)) (k : Z) : option Workload :=
  match m with
  | [] => None
  | (k', v) :: rest => if (k =? k')%Z then Some v else map_get rest k
  end.

Fixpoint map_set (m : list (Z * Workload)) (k : Z) (v : Workload)
  : list (Z * Workload) :=
  match m with
  | [] => [(k, v)]
  | (k', v') :: rest =>
      if (k =? k')%Z then (k', v) :: rest else (k', v') :: map_set rest k v
  end.

(** The score [aScore] of the comparator, as an exact sum. *)
Definition suitability (a : Agent) : Q :=
  or_defaultQ (customer_satisfaction_score a) 3
  + or_defaultQ (first_call_resolution_rate a) (5 # 10)
  + (if can_work_weekends a then 2 # 10 else 0)
  + (if overtime_eligible a then 1 # 10 else 0).

Definition sortAgentsBySuitability (agents : list Agent) : list Agent :=
  js_sort (fun a b =>
             let aScore := suitability a in
             let bScore := suitability b in
             Qltb 0 (bScore - aScore))
          agents.

(** An agent whose workload entry were missing would raise a TypeError;
    every agent passed in has an entry, so that case is answered [false]. *)
Definition findSuitableAgents (agents : list Agent) (pattern : Pattern)
  (agentWorkload : list (Z * Workload)) (constraints : Constraints) : list Agent :=
  filter
    (fun agent =>
       match map_get agentWorkload (a_id agent) with
       | None => false
       | Some workload =>
           let shiftHours := calculateShiftHours (p_start pattern) (p_end pattern) in
           if gt_field (hoursAssigned workload + shiftHours)
                       (max_hours_per_week constraints)
           then false
           else
             match lastShiftEnd workload with
             | Some lastEnd =>
                 let timeBetween := calculateTimeBetween lastEnd (p_start pattern) in
                 if lt_field timeBetween (min_time_between_shifts constraints)
                 then false
                 else true
             | None => true
             end
       end)
    agents.

Inductive ShiftType : Type := regular | overtime.

(** [{ agentId, startTime, endTime, shiftType, primaryChannelId,
       secondaryChannels, requiredSkills, expectedVolume }] *)
Record Assignment : Type := {
  agentId : Z;
  startTime : Z;
  endTime : Z;
  shiftType : ShiftType;
  primaryChannelId : option Z;
  secondaryChannels : list Z;
  requiredSkills : list Z;
  expectedVolume : Q
}.

Definition selectPrimaryChannel (agent : Agent) (pattern : Pattern) : option Z := None.
Definition selectSecondaryChannels (agent : Agent) (pattern : Pattern) : list Z := [].
Definition getRequiredSkills (agent : Agent) (pattern : Pattern) : list Z := [].
Definition calculateExpectedVolume (pattern : Pattern) : Q := 0.

Definition initial_workload (availableAgents : list Agent) : list (Z * Workload) :=
  fold_left
    (fun agentWorkload agent =>
       map_set agentWorkload (a_id agent)
               {| hoursAssigned := 0; shiftsAssigned := 0; lastShiftEnd := None |})
    availableAgents [].

(** The loop [for (const pattern of shiftPatterns)]. *)
Fixpoint assign_loop (sortedAgents : list Agent) (constraints : Constraints)
  (shiftPatterns : list Pattern) (agentWorkload : list (Z * Workload))
  (assignments : list Assignment) : list Assignment * list (Z * Workload) :=
  match shiftPatterns with
  | [] => (assignments, agentWorkload)
  | pattern :: rest =>
      match findSuitableAgents sortedAgents pattern agentWorkload constraints with
      | [] => assign_loop sortedAgents constraints rest agentWorkload assignments
      | selectedAgent :: _ =>
          let workload :=
            match map_get agentWorkload (a_id selectedAgent) with
            | Some w => w
            | None => {| hoursAssigned := 0; shiftsAssigned := 0; lastShiftEnd := None |}
            end in
          let shiftHours := calculateShiftHours (p_start pattern) (p_end pattern) in
          let assignment :=
            {| agentId := a_id selectedAgent;
               startTime := p_start pattern;
               endTime := p_end pattern;
               shiftType := if Qltb 8 shiftHours then overtime else regular;
               primaryChannelId := selectPrimaryChannel selectedAgent pattern;
               secondaryChannels := selectSecondaryChannels selectedAgent pattern;
               requiredSkills := getRequiredSkills selectedAgent pattern;
               expectedVolume := calculateExpectedVolume pattern |} in
          let workload' :=
            {| hoursAssigned := hoursAssigned workload + shiftHours;
               shiftsAssigned := shiftsAssigned workload + 1;
               lastShiftEnd := Some (p_end pattern) |} in
          assign_loop sortedAgents constraints rest
                      (map_set agentWorkload (a_id selectedAgent) workload')
                      (assignments ++ [assignment])
      end
  end.

Definition assignAgentsToShifts (shiftPatterns : list Pattern)
  (availableAgents : list Agent) (constraints : Constraints) : list Assignment :=
  let agentWorkload := initial_workload availableAgents in
  let sortedAgents := sortAgentsBySuitability availableAgents in
  fst (assign_loop sortedAgents constraints shiftPatterns agentWorkload []).

(* ------------------------------------------------------------------ *)
(** *** Daily shifts *)
(* ------------------------------------------------------------------ *)

Inductive TimeOffStatus : Type :=
| to_draft | to_submitted | to_pending_approval | to_approved
| to_rejected | to_cancelled | to_completed.

(** A row of the TimeOff table as [TimeOff.findAll] returns it.  The
    agent of the row is the attribute [AgentId], declared by the
    association [TimeOff.belongsTo(Agent)]. *)
Record TimeOff : Type := {
  AgentId : option Z;
  t_start_date : Z;
  t_end_date : Z;
  t_status : TimeOffStatus
}.

(** [t.agent_id]: the TimeOff model defines no attribute of that name, so
    the property is undefined ([None]) on every row. *)
Definition t_agent_id (t : TimeOff) : option Z := None.

(** [set.has(id)] on a set of values that may hold [undefined]. *)
Definition set_has (set : list (option Z)) (id : Z) : bool :=
  existsb (fun member => match member with
                         | Some x => (x =? id)%Z
                         | None => false
                         end) set.

Definition is_approved (s : TimeOffStatus) : bool :=
  match s with to_approved => true | _ => false end.

(** The shift object built by [generateDailyShifts], and, once saved, the
    Shift instance ([hourly_rate] and [total_cost] are attributes that the
    generated object leaves unset; [agent_id] and [schedule_id] are
    properties of the generated object and of the values handed to
    [Shift.create], undefined ([None]) on an instance, see [Shift_build]). *)
Record Shift : Type := {
  agent_id : option Z;
  shift_date : Z;
  shift_start_time : Z;
  shift_end_time : Z;
  primary_channel_id : option Z;
  secondary_channels : list Z;
  required_skills : list Z;
  expected_volume : Q;
  shift_type : ShiftType;
  breaks : list Break;
  lunch_break : option Break;
  schedule_id : option Z;
  hourly_rate : option num;
  total_cost : option num
}.

Definition generateDailyShifts (dateString : Z) (agents : list Agent)
  (forecasts : list Forecast) (timeOffRequests : list TimeOff)
  (constraints : Constraints) : list Shift :=
  let unavailableAgents :=
    map t_agent_id (filter (fun t => is_approved (t_status t)) timeOffRequests) in
  let availableAgents :=
    filter (fun agent => negb (set_has unavailableAgents (a_id agent))) agents in
  match availableAgents with
  | [] => []
  | _ :: _ =>
      let hourlyRequirements := calculateHourlyRequirements forecasts in
      let shiftPatterns := generateShiftPatterns hourlyRequirements constraints in
      let assignments := assignAgentsToShifts shiftPatterns availableAgents constraints in
      map (fun assignment =>
             {| agent_id := Some (agentId assignment);
                shift_date := dateString;
                shift_start_time := startTime assignment;
                shift_end_time := endTime assignment;
                primary_channel_id := primaryChannelId assignment;
                secondary_channels := secondaryChannels assignment;
                required_skills := requiredSkills assignment;
                expected_volume :=
                  if Qeq_bool (expectedVolume assignment) 0 then 0
                  else expectedVolume assignment;
                shift_type := shiftType assignment;
                breaks := generateBreaks (startTime assignment) (endTime assignment)
                                         constraints;
                lunch_break := generateLunchBreak (startTime assignment)
                                                  (endTime assignment) constraints;
                schedule_id := None;
                hourly_rate := None;
                total_cost := None |})
          assignments
  end.

(* ------------------------------------------------------------------ *)
(** *** Orchestration: [generateOptimizedSchedule] *)
(* ------------------------------------------------------------------ *)

Inductive ScheduleType : Type := monthly | weekly | daily | adhoc.

(** The status strings the optimizer writes are 'draft' and 'generated'. *)
Inductive ScheduleStatus : Type :=
| sch_draft | sch_generated | sch_published | sch_active | sch_completed | sch_cancelled.

Record Schedule : Type := {
  sch_id : Z;
  sch_type : ScheduleType;
  start_date : Z;
  end_date : Z;
  constraints : Constraints;
  optimization_preferences : Preferences;
  sch_status : ScheduleStatus;
  service_level_achieved : option num;
  coverage_percentage : option num;
  total_labor_cost : option num
}.

(** [{ serviceLevel, coverage, totalCost, efficiency }] *)
Record Metrics : Type := {
  serviceLevel : num;
  coverage : num;
  totalCost : num;
  efficiency : num
}.

Definition calculateScheduleMetrics (schedule : Schedule) (shifts : list Shift)
  : Metrics :=
  let totalCost :=
    fold_left (fun sum shift => nadd sum (or_default (total_cost shift) (Fin 0)))
              shifts (Fin 0) in
  {| serviceLevel := Fin (85 # 100);
     coverage := Fin (90 # 100);
     totalCost := totalCost;
     efficiency := Fin (88 # 100) |}.

(** The argument of [generateOptimizedSchedule]. *)
Record ScheduleData : Type := {
  sd_type : ScheduleType;
  startDate : Z;
  endDate : Z;
  agentIds : list Z;
  channelIds : list Z;
  sd_constraints : Constraints;
  optimizationPreferences : Preferences
}.

(** What the storage answers during one call: the id given to the new
    Schedule row, the rows found by the three queries (their [where]
    clauses are evaluated by the storage and not modelled), and whether a
    write is rejected. *)
Record ScheduleEnv : Type := {
  created_schedule_id : Error + Z;
  found_agents : Error + list Agent;
  found_forecasts : Error + list Forecast;
  found_time_off : Error + list TimeOff;
  shift_create_fails : Shift -> bool;
  schedule_update_fails : bool
}.

(** [Shift.prototype.getDurationInHours], for a row with both times set. *)
Definition getDurationInHours (shift : Shift) : Q :=
  let start := inject_Z (shift_start_time shift) in
  let end_ := inject_Z (shift_end_time shift) in
  let end' := if Qltb end_ start then end_ + 1440 else end_ in
  (end' - start) / 60.

(** [Shift.build(values)]: the instance keeps the attributes of the model
    only.  [agent_id] and [schedule_id] are not among them (the
    associations [Shift.belongsTo(Agent)] and [Shift.belongsTo(Schedule)]
    declare [AgentId] and [ScheduleId]), so both are dropped. *)
Definition Shift_build (values : Shift) : Shift :=
  {| agent_id := None;
     shift_date := shift_date values;
     shift_start_time := shift_start_time values;
     shift_end_time := shift_end_time values;
     primary_channel_id := primary_channel_id values;
     secondary_channels := secondary_channels values;
     required_skills := required_skills values;
     expected_volume := expected_volume values;
     shift_type := shift_type values;
     breaks := breaks values;
     lunch_break := lunch_break values;
     schedule_id := None;
     hourly_rate := hourly_rate values;
     total_cost := total_cost values |}.

(** [Shift.create(values)]: the instance is built, the [beforeValidate]
    hook of the Shift model runs on it, then the write. *)
Definition Shift_create (env : ScheduleEnv) (values : Shift) : Error + Shift :=
  let instance := Shift_build values in
  if (shift_end_time instance <=? shift_start_time instance)%Z then inl ValidationError
  else
    let shift :=
      match hourly_rate instance with
      | Some rate =>
          if truthy rate then
            {| agent_id := agent_id instance;
               shift_date := shift_date instance;
               shift_start_time := shift_start_time instance;
               shift_end_time := shift_end_time instance;
               primary_channel_id := primary_channel_id instance;
               secondary_channels := secondary_channels instance;
               required_skills := required_skills instance;
               expected_volume := expected_volume instance;
               shift_type := shift_type instance;
               breaks := breaks instance;
               lunch_break := lunch_break instance;
               schedule_id := schedule_id instance;
               hourly_rate := hourly_rate instance;
               total_cost := Some (nmul (Fin (getDurationInHours instance)) rate) |}
          else instance
      | None => instance
      end in
    if shift_create_fails env shift then inl DatabaseError else inr shift.

(** [{ ...shiftData, schedule_id: schedule.id }], the values handed to
    [Shift.create]. *)
Definition with_schedule (shiftData : Shift) (id : Z) : Shift :=
  {| agent_id := agent_id shiftData;
     shift_date := shift_date shiftData;
     shift_start_time := shift_start_time shiftData;
     shift_end_time := shift_end_time shiftData;
     primary_channel_id := primary_channel_id shiftData;
     secondary_channels := secondary_channels shiftData;
     required_skills := required_skills shiftData;
     expected_volume := expected_volume shiftData;
     shift_type := shift_type shiftData;
     breaks := breaks shiftData;
     lunch_break := lunch_break shiftData;
     schedule_id := Some id;
     hourly_rate := hourly_rate shiftData;
     total_cost := total_cost shiftData |}.

Definition balanceWorkload (shifts : list Shift) : list Shift := shifts.
Definition minimizeOvertime (shifts : list Shift) : list Shift := shifts.
Definition optimizeForAgentPreferences (shifts : list Shift) : list Shift := shifts.
Definition optimizeForServiceLevel (shifts : list Shift) : list Shift := shifts.

Definition enabled (flag : option bool) : bool :=
  match flag with Some b => b | None => false end.

Definition optimizeSchedule (shifts : list Shift) (schedule : Schedule) : list Shift :=
  let preferences := optimization_preferences schedule in
  let optimizedShifts := shifts in
  let optimizedShifts :=
    if enabled (balance_workload preferences)
    then balanceWorkload optimizedShifts else optimizedShifts in
  let optimizedShifts :=
    if enabled (minimize_overtime preferences)
    then minimizeOvertime optimizedShifts else optimizedShifts in
  let optimizedShifts :=
    if enabled (prioritize_agent_preferences preferences)
    then optimizeForAgentPreferences optimizedShifts else optimizedShifts in
  let optimizedShifts :=
    if enabled (optimize_for_service_level preferences)
    then optimizeForServiceLevel optimizedShifts else optimizedShifts in
  optimizedShifts.

(** [while (currentDate.isSameOrBefore(endMoment))], one day per step;
    [days] bounds the number of days left. *)
Fixpoint daily_loop (days : nat) (currentDate endMoment : Z) (agents : list Agent)
  (forecasts : list Forecast) (timeOffRequests : list TimeOff)
  (constraints : Constraints) (allShifts : list Shift) : list Shift :=
  match days with
  | O => allShifts
  | S days' =>
      if (currentDate <=? endMoment)%Z then
        let dateString := currentDate in
        let dailyShifts :=
          generateDailyShifts dateString agents
            (filter (fun f => (forecast_date f =? dateString)%Z) forecasts)
            (filter (fun t => ((t_start_date t <=? dateString)
                               && (dateString <=? t_end_date t))%Z)
                    timeOffRequests)
            constraints in
        daily_loop days' (currentDate + 1)%Z endMoment agents forecasts
                   timeOffRequests constraints (allShifts ++ dailyShifts)
      else allShifts
  end.

(** [for (const shiftData of optimizedShifts)] with [Shift.create]. *)
Fixpoint save_loop (env : ScheduleEnv) (id : Z) (optimizedShifts savedShifts : list Shift)
  : Error + list Shift :=
  match optimizedShifts with
  | [] => inr savedShifts
  | shiftData :: rest =>
      match Shift_create env (with_schedule shiftData id) with
      | inl e => inl e
      | inr shift => save_loop env id rest (savedShifts ++ [shift])
      end
  end.

(** [Schedule.create(values)]: the [beforeValidate] hook of the Schedule
    model, which rejects an end date that is not after the start date (it
    also names the schedule), then the write. *)
Definition Schedule_create (env : ScheduleEnv) (startDate endDate : Z) : Error + Z :=
  if (endDate <=? startDate)%Z then inl ValidationError
  else created_schedule_id env.

Definition generateOptimizedSchedule (env : ScheduleEnv) (scheduleData : ScheduleData)
  : Error + (Schedule * list Shift * Metrics) :=
  match Schedule_create env (startDate scheduleData) (endDate scheduleData) with
  | inl e => inl e
  | inr id =>
      let schedule :=
        {| sch_id := id;
           sch_type := sd_type scheduleData;
           start_date := startDate scheduleData;
           end_date := endDate scheduleData;
           constraints := merge_constraints (sd_constraints scheduleData);
           optimization_preferences :=
             merge_preferences (optimizationPreferences scheduleData);
           sch_status := sch_draft;
           service_level_achieved := None;
           coverage_percentage := None;
           total_labor_cost := None |} in
      match found_agents env with
      | inl e => inl e
      | inr agents =>
      match found_forecasts env with
      | inl e => inl e
      | inr forecasts =>
      match found_time_off env with
      | inl e => inl e
      | inr timeOffRequests =>
          let allShifts :=
            daily_loop (Z.to_nat (endDate scheduleData - startDate scheduleData + 1))
                       (startDate scheduleData) (endDate scheduleData)
                       agents forecasts timeOffRequests (constraints schedule) [] in
          let optimizedShifts := optimizeSchedule allShifts schedule in
          match save_loop env (sch_id schedule) optimizedShifts [] with
          | inl e => inl e
          | inr savedShifts =>
              let metrics := calculateScheduleMetrics schedule savedShifts in
              if schedule_update_fails env then inl DatabaseError
              else
                inr ({| sch_id := sch_id schedule;
                        sch_type := sch_type schedule;
                        start_date := start_date schedule;
                        end_date := end_date schedule;
                        constraints := constraints schedule;
                        optimization_preferences := optimization_preferences schedule;
                        sch_status := sch_generated;
                        service_level_achieved := Some (serviceLevel metrics);
                        coverage_percentage := Some (coverage metrics);
                        total_labor_cost := Some (totalCost metrics) |},
                     savedShifts, metrics)
          end
      end end end
  end.

(* ================================================================== *)
(** ** The periodic refresh and the methods of the Forecast model *)
(* ================================================================== *)

(** The body of [for (const channel of channels)] in
    [updateHourlyForecasts]: today's forecasts, then tomorrow's; an
    exception leaves the loop. *)
Fixpoint refresh_loop (env : Env) (channels : list Channel)
  (todayDate tomorrowDate : Moment) (st : Storage) : (Error + unit) * Storage :=
  match channels with
  | [] => (inr tt, st)
  | channel :: rest =>
      match generateHourlyForecasts env st (channel_id channel) todayDate None with
      | (inl e, st1) => (inl e, st1)
      | (inr _, st1) =>
          match generateHourlyForecasts env st1 (channel_id channel) tomorrowDate None with
          | (inl e, st2) => (inl e, st2)
          | (inr _, st2) => refresh_loop env rest todayDate tomorrowDate st2
          end
      end
  end.

(** [updateHourlyForecasts()]: [active] is what
    [Channel.findAll({ where: { is_active: true } })] answers, the two
    dates are [moment()] and [moment().add(1, 'day')].  Every exception is
    caught and logged; the storage afterwards is all there is to observe. *)
Definition updateHourlyForecasts (env : Env) (active : Error + list Channel)
  (todayDate tomorrowDate : Moment) (st : Storage) : Storage :=
  match active with
  | inl _ => st
  | inr channels => snd (refresh_loop env channels todayDate tomorrowDate st)
  end.

(** [Math.abs] *)
Definition nabs (a : num) : num :=
  match a with
  | Fin q => Fin (if Qltb q 0 then - q else q)
  | PInf | NInf => PInf
  | NaN => NaN
  end.

(** Truthiness of a nullable numeric column. *)
Definition truthy_opt (x : option num) : bool :=
  match x with Some v => truthy v | None => false end.

(** The columns set by the [beforeUpdate] hook of the Forecast model. *)
Record AccuracyMetrics : Type := {
  forecast_accuracy : num;
  mean_absolute_error : num;
  mean_squared_error : num
}.

(** The [beforeUpdate] hook: the accuracy columns it sets, [None] when it
    leaves them alone. *)
Definition beforeUpdate (forecast : Forecast) : option AccuracyMetrics :=
  match actual_volume forecast with
  | Some actual =>
      if truthy actual && truthy (predicted_volume forecast) then
        let error := nabs (nsub actual (predicted_volume forecast)) in
        Some {| forecast_accuracy :=
                  nsub (Fin 1)
                       (ndiv error (nmax actual (predicted_volume forecast)));
                mean_absolute_error := error;
                mean_squared_error := nmul error error |}
      else None
  | None => None
  end.

(** [Forecast.prototype.isAccurate(threshold = 0.80)] on the accuracy
    column; a null column compares as 0. *)
Definition isAccurate (accuracy : option num) (threshold : num) : bool :=
  match accuracy with
  | Some a => nge a threshold
  | None => nge (Fin 0) threshold
  end.

(** [Forecast.prototype.getErrorPercentage()], [None] for [null]. *)
Definition getErrorPercentage (forecast : Forecast) : option num :=
  match actual_volume forecast with
  | Some actual =>
      if truthy actual && truthy (predicted_volume forecast) then
        let error := nabs (nsub actual (predicted_volume forecast)) in
        Some (nmul (ndiv error actual) (Fin 100))
      else None
  | None => None
  end.

(** [Forecast.prototype.isWithinRange()], [None] for [null]. *)
Definition isWithinRange (forecast : Forecast) : option bool :=
  match actual_volume forecast with
  | Some actual =>
      if truthy actual
      then Some (nge actual (min_volume forecast) && nle actual (max_volume forecast))
      else None
  | None => None
  end.

(** [Forecast.prototype.adjustForSpecialEvent(factor, reason)]: the values
    it sets on the instance before [save()], with the override flag and
    reason, which are columns outside [Forecast]. *)
Definition adjustForSpecialEvent (forecast : Forecast) (factor : num)
  (reason : String.string) : Forecast * (bool * String.string) :=
  ({| f_channel_id := f_channel_id forecast;
      f_skill_id := f_skill_id forecast;
      forecast_date := forecast_date forecast;
      forecast_hour := forecast_hour forecast;
      predicted_volume := nround (nmul (predicted_volume forecast) factor);
      confidence_level := confidence_level forecast;
      min_volume := nround (nmul (min_volume forecast) factor);
      max_volume := nround (nmul (max_volume forecast) factor);
      required_agents := required_agents forecast;
      optimal_agents := optimal_agents forecast;
      minimum_agents := minimum_agents forecast;
      predicted_service_level := predicted_service_level forecast;
      predicted_average_wait_time := predicted_average_wait_time forecast;
      seasonal_factor := seasonal_factor forecast;
      trend_factor := trend_factor forecast;
      special_event_factor := factor;
      weather_factor := weather_factor forecast;
      external_factors := external_factors forecast;
      status := status forecast;
      actual_volume := actual_volume forecast |},
   (true, reason)).

(** [Forecast.prototype.getAdjustedVolume()] *)
Definition getAdjustedVolume (forecast : Forecast) : num :=
  nround (nmul (nmul (nmul (nmul (predicted_volume forecast)
                                 (seasonal_factor forecast))
                           (trend_factor forecast))
                     (special_event_factor forecast))
               (weather_factor forecast)).

(* ================================================================== *)
(** ** Notions used by the specification *)
(* ================================================================== *)

(** [clamp(x, lo, hi)]: [x] brought back into the interval [lo, hi]. *)
Definition clamp (x lo hi : num) : num :=
  if nlt x lo then lo else if ngt x hi then hi else x.

(** Arithmetic mean and population variance of a list of volumes. *)
Definition sumQ (vs : list Q) : Q := fold_right Qplus 0 vs.

Definition lengthQ {A : Type} (l : list A) : Q := inject_Z (Z.of_nat (length l)).

Definition mean (vs : list Q) : Q := sumQ vs / lengthQ vs.

Definition population_variance (vs : list Q) : Q :=
  sumQ (map (fun v => (v - mean vs) * (v - mean vs)) vs) / lengthQ vs.

(** The finite value of a number (0 for the others). *)
Definition value_of (a : num) : Q :=
  match a with Fin q => q | _ => 0 end.

Definition volumes (historicalData : list HistoricalDatum) : list Q :=
  map (fun d => value_of (s_volume d)) historicalData.

(** A stored forecast carrying the empty-history fallback. *)
Definition is_fallback (f : Forecast) : Prop :=
  predicted_volume f = Fin 10 /\ confidence_level f = Fin (30 # 100) /\
  min_volume f = Fin 5 /\ max_volume f = Fin 20.

(** The hours of [hours] inside the channel's operating window. *)
Definition operating_hours (channel : Channel) (hours : list Z) : list Z :=
  filter (fun hour => isOperatingHour hour channel) hours.

(** The rows that carry an observed volume: all that [getHistoricalData]
    can see. *)
Definition observed (table : list Forecast) : list Forecast :=
  filter (fun f => is_some (actual_volume f)) table.

(** A nullable numeric column holds no infinity and no NaN. *)
Definition finite_opt (x : option num) : Prop :=
  match x with Some v => finite v | None => True end.

Definition finite_channel (c : Channel) : Prop :=
  finite_opt (average_handle_time c) /\ finite_opt (wrap_up_time c) /\
  finite_opt (service_level_target c) /\ finite_opt (service_level_threshold c) /\
  finite_opt (shrinkage_factor c) /\ finite_opt (min_staffing_level c) /\
  finite_opt (preferred_staffing_buffer c).

Definition at_least (lo : Q) (x : option num) : Prop :=
  forall q, x = Some (Fin q) -> lo <= q.

Definition below (x : option num) (hi : Q) : Prop :=
  forall q, x = Some (Fin q) -> q < hi.


(** A prediction whose volume is [v]. *)
Definition predicted (v : Q) : PredictedVolume :=
  {| volume := Fin v; confidence := Fin (30 # 100);
     minVolume := Fin v; maxVolume := Fin v |}.


(** The channel of the end-to-end scenario, open 08:00 to 20:00, with a
    given minimum staffing level and preferred staffing buffer. *)
Definition scenario_channel (minStaffing buffer : Q) : Channel :=
  {| channel_id := 1;
     average_handle_time := Some (Fin (65 # 10));
     wrap_up_time := Some (Fin 2);
     service_level_target := Some (Fin (80 # 100));
     service_level_threshold := Some (Fin 20);
     shrinkage_factor := Some (Fin (25 # 100));
     min_staffing_level := Some (Fin minStaffing);
     preferred_staffing_buffer := Some (Fin buffer);
     operating_hours_start := (8, 0)%Z;
     operating_hours_end := (20, 0)%Z |}.

(** The cost a shift contributes: its [total_cost], 0 when missing. *)
Definition cost_or_zero (shift : Shift) : num := or_default (total_cost shift) (Fin 0).

Definition sum_of_costs (shifts : list Shift) : num :=
  fold_right (fun shift rest => nadd (cost_or_zero shift) rest) (Fin 0) shifts.

(** Hours given to agent [id] by a list of assignments. *)
Definition hours_of (id : Z) (assignments : list Assignment) : Q :=
  sumQ (map (fun a => calculateShiftHours (startTime a) (endTime a))
            (filter (fun a => (agentId a =? id)%Z) assignments)).

(** The workload map records the hours given so far. *)
Definition tracked (wl : list (Z * Workload)) (asg : list Assignment) : Prop :=
  forall id w, map_get wl id = Some w -> hoursAssigned w == hours_of id asg.

(** Counted up to and including any one assignment, the hours of its agent
    are at most [M]. *)
Definition within_limit (M : Q) (asg : list Assignment) : Prop :=
  forall pre a post, asg = pre ++ a :: post -> hours_of (agentId a) (pre ++ [a]) <= M.

Definition placed (a : Assignment) : Z * Z * Z := (agentId a, startTime a, endTime a).

(** Concrete inputs for the examples below. *)
Definition sample (v : Q) : HistoricalDatum :=
  {| s_date := 0; s_volume := Fin v; s_hour := 10 |}.

Definition no_adjustment : SeasonalFactors :=
  {| seasonal := Fin 1; trend := Fin 1 |}.

Definition no_external : ExternalFactors :=
  {| holidayFactor := Fin 1; weather := Fin 1; specialEvent := Fin 1 |}.

(** A past row of the scenario channel with its observed volume. *)
Definition observed_row (dateNumber hour : Z) (actual : Q) : Forecast :=
  {| f_channel_id := Some 1%Z; f_skill_id := None;
     forecast_date := dateNumber; forecast_hour := hour;
     predicted_volume := Fin 20; confidence_level := Fin (80 # 100);
     min_volume := Fin 16; max_volume := Fin 24;
     required_agents := Fin 5; optimal_agents := Fin 6; minimum_agents := Fin 2;
     predicted_service_level := Fin (43 # 100);
     predicted_average_wait_time := Fin 34;
     seasonal_factor := Fin 1; trend_factor := Fin 1;
     special_event_factor := Fin 1; weather_factor := Fin 1;
     external_factors := no_external;
     status := published;
     actual_volume := Some (Fin actual) |}.

Definition scenario_storage : Storage :=
  {| channel_table := [scenario_channel 2 (10 # 100)];
     forecast_table := [observed_row 19720 10 18; observed_row 19725 10 22] |}.

(** Monday 8 January, the day after [today] below. *)
Definition a_monday : Moment := {| ymd := 19730; day := 1; month := 0; date := 8 |}.

Definition reliable (unique : bool) : Env :=
  {| today := 19729; enforce_unique := unique;
     findAll_fails := fun _ => false; create_fails := fun _ => false |}.

Definition read_fails_at (h : Z) : Env :=
  {| today := 19729; enforce_unique := false;
     findAll_fails := fun hour => (hour =? h)%Z; create_fails := fun _ => false |}.

Definition write_fails_at (h : Z) : Env :=
  {| today := 19729; enforce_unique := false;
     findAll_fails := fun _ => false;
     create_fails := fun row => (forecast_hour row =? h)%Z |}.

Definition agent (id : Z) (score : Q) : Agent :=
  {| a_id := id; customer_satisfaction_score := Some score;
     first_call_resolution_rate := Some (8 # 10);
     can_work_weekends := false; overtime_eligible := true |}.

Definition two_days : ScheduleData :=
  {| sd_type := weekly; startDate := 19730; endDate := 19731;
     agentIds := []; channelIds := [];
     sd_constraints :=
       {| max_consecutive_days := None; min_days_off_per_week := None;
          max_hours_per_day := None; max_hours_per_week := None;
          min_break_duration := None; lunch_break_duration := None;
          min_time_between_shifts := None |};
     optimizationPreferences :=
       {| prioritize_agent_preferences := None; minimize_overtime := None;
          balance_workload := None; optimize_for_service_level := None;
          allow_split_shifts := None |} |}.

Definition accepting_store : ScheduleEnv :=
  {| created_schedule_id := inr 1%Z;
     found_agents := inr [agent 1 4; agent 2 3];
     found_forecasts := inr [];
     found_time_off := inr [];
     shift_create_fails := fun _ => false;
     schedule_update_fails := false |}.

(* ================================================================== *)
(** ** Notions used by the further properties *)
(* ================================================================== *)

(** The day of the week, the hour and the month index their tables. *)
Definition in_tables (momentDate : Moment) (hour : Z) : Prop :=
  (0 <= day momentDate <= 6 /\ 0 <= hour <= 23 /\ 0 <= month momentDate <= 11)%Z.

Definition seasonal_product (d h m : Z) : num :=
  nmul (nmul (index dayOfWeekFactors d) (index hourFactors h)) (index monthlyFactors m).

Definition seasonal_in_bounds (d h m : Z) : bool :=
  match seasonal_product d h m with
  | Fin q => Qle_bool (48 # 1000) q && Qle_bool q (1872 # 1000)
  | _ => false
  end.

Definition upto (n : nat) : list Z := map Z.of_nat (seq 0 n).

(** The value the code uses for a channel parameter: the column, or the
    default when the column is zero or missing. *)
Definition param (x : option num) (d : Q) : Q := value_of (or_default x (Fin d)).

(** A row as [generateHourlyForecasts] stores it for a date: neither
    channel nor skill key, status 'generated', no observed volume. *)
Definition written_for (dateString : Z) (f : Forecast) : Prop :=
  f_channel_id f = None /\ f_skill_id f = None /\
  forecast_date f = dateString /\ status f = generated /\ actual_volume f = None.

(** The bounds of a row are finite and in order around its prediction. *)
Definition ordered_bounds (f : Forecast) : Prop :=
  exists a b c,
    min_volume f = Fin a /\ predicted_volume f = Fin b /\ max_volume f = Fin c /\
    0 <= a /\ a <= b /\ b <= c.

(** A catalog template with the priority [generateShiftPatterns] gives it. *)
Definition with_priority (peakHours : list Z) (pattern : Pattern) : Pattern :=
  {| p_start := p_start pattern;
     p_end := p_end pattern;
     p_type := p_type pattern;
     priority := calculateShiftPriority pattern peakHours |}.

(** The eligibility test of [findSuitableAgents] for an agent and a
    template under a workload map. *)
Definition eligible (pattern : Pattern) (agentWorkload : list (Z * Workload))
  (constraints : Constraints) (a : Agent) : Prop :=
  In a (findSuitableAgents [a] pattern agentWorkload constraints).

(** The sum that [calculateHourlyRequirements] accumulates for one hour
    over a column of the forecasts, in the order of the forecasts. *)
Definition hour_total (column : Forecast -> num) (hour : Z) (forecasts : list Forecast)
  : num :=
  fold_left (fun sum f => nadd sum (or_default (Some (column f)) (Fin 0)))
            (filter (fun f => (forecast_hour f =? hour)%Z) forecasts) (Fin 0).

(** [l1] is [l2] with some elements left out, the order kept. *)
Inductive subsequence {A : Type} : list A -> list A -> Prop :=
| subsequence_nil : subsequence [] []
| subsequence_skip (y : A) (l1 l2 : list A) :
    subsequence l1 l2 -> subsequence l1 (y :: l2)
| subsequence_take (x : A) (l1 l2 : list A) :
    subsequence l1 l2 -> subsequence (x :: l1) (x :: l2).

(** The start and end times of the catalog of shift templates. *)
Definition catalog_times : list (Z * Z) :=
  map (fun pattern => (p_start pattern, p_end pattern)) (standardShifts ++ partTimeShifts).

(** Concrete inputs for the examples of the further properties: a row
    that carries a prediction only, and an approved leave of one day. *)
Definition bare_row (dateNumber hour : Z) (predictedVolume : Q) : Forecast :=
  {| f_channel_id := Some 1%Z; f_skill_id := None;
     forecast_date := dateNumber; forecast_hour := hour;
     predicted_volume := Fin predictedVolume; confidence_level := Fin 0;
     min_volume := Fin 0; max_volume := Fin 0;
     required_agents := Fin 0; optimal_agents := Fin 0; minimum_agents := Fin 0;
     predicted_service_level := Fin 0;
     predicted_average_wait_time := Fin 0;
     seasonal_factor := Fin 1; trend_factor := Fin 1;
     special_event_factor := Fin 1; weather_factor := Fin 1;
     external_factors := no_external;
     status := draft;
     actual_volume := None |}.

Definition approved_leave (agentId dateNumber : Z) : TimeOff :=
  {| AgentId := Some agentId; t_start_date := dateNumber; t_end_date := dateNumber;
     t_status := to_approved |}.

(* ================================================================== *)
(** * Properties *)
(* ================================================================== *)

(* ------------------------------------------------------------------ *)
(** ** Facts about [num] *)
(* ------------------------------------------------------------------ *)

Lemma num_eq_refl (a : num) : num_eq a a.
Proof. destruct a; simpl; auto. reflexivity. Qed.

Lemma num_eq_sym (a b : num) : num_eq a b -> num_eq b a.
Proof. destruct a, b; simpl; auto. intros H; symmetry; exact H. Qed.

Lemma num_eq_trans (a b c : num) : num_eq a b -> num_eq b c -> num_eq a c.
Proof.
  destruct a, b, c; simpl; auto; try contradiction.
  intros H1 H2. rewrite H1. exact H2.
Qed.

Ltac by_compare x y :=
  simpl; destruct (Qcompare_spec x y); split; intros;
  first [ lra | reflexivity | discriminate ].

Lemma nle_Fin (x y : Q) : nle (Fin x) (Fin y) = true <-> x <= y.
Proof. unfold nle. by_compare x y. Qed.

Lemma nlt_Fin (x y : Q) : nlt (Fin x) (Fin y) = true <-> x < y.
Proof. unfold nlt. by_compare x y. Qed.

Lemma ngt_Fin (x y : Q) : ngt (Fin x) (Fin y) = true <-> y < x.
Proof. unfold ngt. by_compare x y. Qed.

Lemma nge_Fin (x y : Q) : nge (Fin x) (Fin y) = true <-> y <= x.
Proof. unfold nge. by_compare x y. Qed.

Lemma nlt_Fin_false (x y : Q) : nlt (Fin x) (Fin y) = false <-> y <= x.
Proof. unfold nlt. by_compare x y. Qed.

Lemma ngt_Fin_false (x y : Q) : ngt (Fin x) (Fin y) = false <-> x <= y.
Proof. unfold ngt. by_compare x y. Qed.

Lemma nmax_Fin_cases (x y : Q) :
  (x < y /\ nmax (Fin x) (Fin y) = Fin y) \/ (y <= x /\ nmax (Fin x) (Fin y) = Fin x).
Proof.
  unfold nmax; simpl.
  destruct (Qcompare_spec x y) as [H | H | H]; [right | left | right]; split; auto; lra.
Qed.

Lemma nmin_Fin_cases (x y : Q) :
  (y < x /\ nmin (Fin x) (Fin y) = Fin y) \/ (x <= y /\ nmin (Fin x) (Fin y) = Fin x).
Proof.
  unfold nmin; simpl.
  destruct (Qcompare_spec x y) as [H | H | H]; [right | right | left]; split; auto; lra.
Qed.

Lemma Qeq_bool_false_iff (x y : Q) : Qeq_bool x y = false <-> ~ x == y.
Proof.
  split.
  - intros H E. apply Qeq_bool_iff in E. congruence.
  - intros H. destruct (Qeq_bool x y) eqn:E; auto. apply Qeq_bool_iff in E. contradiction.
Qed.

Lemma ndiv_Fin (x y : Q) : ~ y == 0 -> ndiv (Fin x) (Fin y) = Fin (x / y).
Proof. intros H. simpl. apply Qeq_bool_false_iff in H. rewrite H. reflexivity. Qed.

(** The code's [Math.max(lo, Math.min(hi, x))] is the clamp of [x] to [lo, hi]. *)
Lemma max_min_is_clamp (x : num) (lo hi : Q) :
  lo <= hi -> num_eq (nmax (Fin lo) (nmin (Fin hi) x)) (clamp x (Fin lo) (Fin hi)).
Proof.
  intros Hlh. destruct x as [q | | |]; unfold clamp.
  - destruct (nlt (Fin q) (Fin lo)) eqn:E1.
    + apply nlt_Fin in E1.
      destruct (nmin_Fin_cases hi q) as [[H1 ->] | [H1 ->]].
      * destruct (nmax_Fin_cases lo q) as [[H4 ->] | [H4 ->]]; simpl; lra.
      * destruct (nmax_Fin_cases lo hi) as [[H4 ->] | [H4 ->]]; simpl; lra.
    + apply nlt_Fin_false in E1.
      destruct (ngt (Fin q) (Fin hi)) eqn:E2.
      * apply ngt_Fin in E2.
        destruct (nmin_Fin_cases hi q) as [[H1 ->] | [H1 ->]]; try lra.
        destruct (nmax_Fin_cases lo hi) as [[H4 ->] | [H4 ->]]; simpl; lra.
      * apply ngt_Fin_false in E2.
        destruct (nmin_Fin_cases hi q) as [[H1 ->] | [H1 ->]].
        -- destruct (nmax_Fin_cases lo q) as [[H4 ->] | [H4 ->]]; simpl; lra.
        -- destruct (nmax_Fin_cases lo hi) as [[H4 ->] | [H4 ->]]; simpl; lra.
  - unfold nlt, ngt, nmin; simpl.
    destruct (nmax_Fin_cases lo hi) as [[H4 ->] | [H4 ->]]; simpl; lra.
  - unfold nlt, ngt, nmin, nmax; simpl. reflexivity.
  - unfold nlt, ngt, nmin, nmax; simpl. exact I.
Qed.

Lemma clamp_Fin_proper (x y lo hi : Q) :
  x == y -> num_eq (clamp (Fin x) (Fin lo) (Fin hi)) (clamp (Fin y) (Fin lo) (Fin hi)).
Proof.
  intros E. unfold clamp.
  destruct (nlt (Fin x) (Fin lo)) eqn:E1; destruct (nlt (Fin y) (Fin lo)) eqn:E2;
    try apply nlt_Fin in E1; try apply nlt_Fin_false in E1;
    try apply nlt_Fin in E2; try apply nlt_Fin_false in E2; try lra; try reflexivity.
  destruct (ngt (Fin x) (Fin hi)) eqn:E3; destruct (ngt (Fin y) (Fin hi)) eqn:E4;
    try apply ngt_Fin in E3; try apply ngt_Fin_false in E3;
    try apply ngt_Fin in E4; try apply ngt_Fin_false in E4; try lra; simpl; try reflexivity.
  exact E.
Qed.

(* ------------------------------------------------------------------ *)
(** ** Sums, mean and variance computed by the service *)
(* ------------------------------------------------------------------ *)

Lemma fold_left_Qplus (vs : list Q) (a : Q) :
  fold_left Qplus vs a == a + sumQ vs.
Proof.
  revert a. induction vs as [| v vs IH]; intros a; simpl.
  - lra.
  - rewrite IH. lra.
Qed.

Lemma reduce_volumes_Fin (hd : list HistoricalDatum) (a : Q) :
  Forall (fun d => finite (s_volume d)) hd ->
  fold_left (fun sum data => nadd sum (s_volume data)) hd (Fin a)
  = Fin (fold_left Qplus (volumes hd) a).
Proof.
  intros H. revert a. induction H as [| d hd [q Hq] _ IH]; intros a; simpl.
  - reflexivity.
  - rewrite Hq. simpl. apply IH.
Qed.

Lemma reduce_sum_Fin (vs : list Q) (a : Q) :
  fold_left (fun sum val => nadd sum val) (map Fin vs) (Fin a)
  = Fin (fold_left Qplus vs a).
Proof.
  revert a. induction vs as [| v vs IH]; intros a; simpl; auto.
Qed.

Lemma map_s_volume_Fin (hd : list HistoricalDatum) :
  Forall (fun d => finite (s_volume d)) hd ->
  map s_volume hd = map Fin (volumes hd).
Proof.
  induction 1 as [| d hd [q Hq] _ IH]; simpl; auto.
  rewrite Hq, IH. reflexivity.
Qed.

Lemma lengthQ_pos {A : Type} (l : list A) : l <> [] -> 0 < lengthQ l.
Proof.
  intros H. unfold lengthQ. destruct l as [| x l]; [congruence |].
  replace 0 with (inject_Z 0) by reflexivity. rewrite <- Zlt_Qlt. simpl length. lia.
Qed.

Lemma sumQ_proper_map (f g : Q -> Q) (vs : list Q) :
  (forall v, f v == g v) -> sumQ (map f vs) == sumQ (map g vs).
Proof.
  intros H. induction vs as [| v vs IH]; simpl; [reflexivity |].
  rewrite IH, (H v). reflexivity.
Qed.

(** [calculateVariance] returns the population variance of finite values. *)
Lemma calculateVariance_spec (vs : list Q) :
  vs <> [] ->
  exists var, calculateVariance (map Fin vs) = Fin var /\ var == population_variance vs.
Proof.
  intros Hne. unfold calculateVariance. rewrite length_map.
  pose proof (lengthQ_pos vs Hne) as Hlen.
  destruct (Nat.ltb_spec (length vs) 2) as [Hlt | Hge].
  - destruct vs as [| v [| v' vs]]; [congruence | | simpl in Hlt; lia].
    exists 0. split; [reflexivity |].
    unfold population_variance, mean, lengthQ; simpl. field.
  - unfold reduce_sum, js_length. rewrite length_map, reduce_sum_Fin.
    fold (lengthQ vs).
    assert (~ lengthQ vs == 0) as Hnz by lra.
    rewrite (ndiv_Fin _ _ Hnz).
    set (m := fold_left Qplus vs 0 / lengthQ vs).
    assert (m == mean vs) as Hm.
    { unfold m, mean. rewrite fold_left_Qplus. field. exact Hnz. }
    assert (map (fun val => npow2 (nsub val (Fin m))) (map Fin vs)
            = map Fin (map (fun v => (v - m) * (v - m)) vs)) as ->.
    { rewrite !map_map. apply map_ext. intros v. reflexivity. }
    rewrite reduce_sum_Fin, (ndiv_Fin _ _ Hnz).
    eexists. split; [reflexivity |].
    unfold population_variance. rewrite fold_left_Qplus.
    rewrite (sumQ_proper_map (fun v => (v - m) * (v - m))
                             (fun v => (v - mean vs) * (v - mean vs))).
    + field. exact Hnz.
    + intros v. rewrite Hm. reflexivity.
Qed.

(* ------------------------------------------------------------------ *)
(** ** DemandPredictor: [calculatePredictedVolume] *)
(* ------------------------------------------------------------------ *)

Lemma volumes_length hd : lengthQ (volumes hd) = lengthQ hd.
Proof. unfold lengthQ, volumes. rewrite length_map. reflexivity. Qed.

Lemma confidence_Fin (x : Q) :
  exists c, nmax (Fin (40 # 100)) (nmin (Fin (95 # 100)) (Fin x)) = Fin c
            /\ 40 # 100 <= c <= 95 # 100.
Proof.
  destruct (nmin_Fin_cases (95 # 100) x) as [[H1 ->] | [H1 ->]].
  - destruct (nmax_Fin_cases (40 # 100) x) as [[H2 ->] | [H2 ->]]; eexists; split; try reflexivity; lra.
  - destruct (nmax_Fin_cases (40 # 100) (95 # 100)) as [[H2 ->] | [H2 ->]]; eexists; split; try reflexivity; lra.
Qed.

Lemma predicted_volume_finite (hd : list HistoricalDatum) (s t e w h : Q) :
  Forall (fun d => finite (s_volume d)) hd ->
  hd <> [] ->
  ~ mean (volumes hd) == 0 ->
  exists (b : Q) (fv : Z) (c : Q),
    b == mean (volumes hd) /\
    fv = Qfloor (b * s * t * e * w * h + (1 # 2)) /\
    calculatePredictedVolume hd {| seasonal := Fin s; trend := Fin t |}
      {| holidayFactor := Fin h; weather := Fin w; specialEvent := Fin e |}
    = {| volume := Fin (inject_Z fv);
         confidence := Fin c;
         minVolume := nmax (Fin 0) (Fin (inject_Z (Qfloor (inject_Z fv * (1 - (1 - c))))));
         maxVolume := Fin (inject_Z (Qceiling (inject_Z fv * (1 + (1 - c))))) |}
    /\ 40 # 100 <= c <= 95 # 100
    /\ num_eq (Fin c)
         (clamp (Fin (1 - population_variance (volumes hd) / mean (volumes hd)))
                (Fin (40 # 100)) (Fin (95 # 100))).
Proof.
  intros HF Hne Hmean.
  unfold calculatePredictedVolume.
  destruct hd as [| d0 hd0] eqn:Ehd; [congruence |]. rewrite <- Ehd in *.
  cbv beta iota zeta.
  rewrite (reduce_volumes_Fin hd 0 HF), (map_s_volume_Fin hd HF).
  assert (volumes hd <> []) as Hvne.
  { rewrite Ehd. discriminate. }
  destruct (calculateVariance_spec (volumes hd) Hvne) as [var [-> Hvar]].
  unfold js_length. fold (lengthQ hd). rewrite <- volumes_length.
  pose proof (lengthQ_pos (volumes hd) Hvne) as Hlen.
  set (n := lengthQ (volumes hd)) in *.
  assert (~ n == 0) as Hnz by lra.
  rewrite (ndiv_Fin _ _ Hnz).
  set (b := fold_left Qplus (volumes hd) 0 / n).
  assert (b == mean (volumes hd)) as Hb.
  { unfold b, mean. fold n. rewrite fold_left_Qplus. field. exact Hnz. }
  assert (~ b == 0) as Hbnz by (rewrite Hb; exact Hmean).
  rewrite (ndiv_Fin _ _ Hbnz).
  change (nsub (Fin 1) (Fin (var / b))) with (Fin (1 - var / b)).
  destruct (confidence_Fin (1 - var / b)) as [c [Ec Hc]].
  pose proof (max_min_is_clamp (Fin (1 - var / b)) (40 # 100) (95 # 100)) as Hclamp.
  rewrite Ec in *.
  cbn [seasonal trend holidayFactor weather specialEvent nmul nsub nadd nround nfloor nceil lift_round].
  exists b. eexists. exists c. split; [exact Hb |]. split; [reflexivity |].
  split; [reflexivity |]. split; [exact Hc |].
  eapply num_eq_trans; [apply Hclamp; lra |].
  apply clamp_Fin_proper. rewrite Hvar, Hb. reflexivity.
Qed.

(** C1 (amended).  Whenever the samples are finite numbers with a non-zero
    mean and the predicted volume is non-negative, the output satisfies
    minVolume <= volume <= maxVolume and 0.30 <= confidence <= 0.95; the
    confidence is 0.30 for the empty history and otherwise
    clamp(1 - variance/baseVolume, 0.40, 0.95), with the population
    variance and the arithmetic mean of the sample volumes. *)
Theorem predicted_volume_bounds (hd : list HistoricalDatum) (s t e w h : Q) :
  Forall (fun d => finite (s_volume d)) hd ->
  (hd <> [] -> ~ mean (volumes hd) == 0) ->
  let out := calculatePredictedVolume hd {| seasonal := Fin s; trend := Fin t |}
               {| holidayFactor := Fin h; weather := Fin w; specialEvent := Fin e |} in
  nle (Fin 0) (volume out) = true ->
  nle (minVolume out) (volume out) = true /\
  nle (volume out) (maxVolume out) = true /\
  nle (Fin (30 # 100)) (confidence out) = true /\
  nle (confidence out) (Fin (95 # 100)) = true /\
  num_eq (confidence out)
    (match hd with
     | [] => Fin (30 # 100)
     | _ :: _ =>
         clamp (Fin (1 - population_variance (volumes hd) / mean (volumes hd)))
               (Fin (40 # 100)) (Fin (95 # 100))
     end).
Proof.
  intros HF Hmean out Hvol.
  destruct hd as [| d0 hd0].
  - subst out. simpl. repeat split; reflexivity.
  - set (hd := d0 :: hd0) in *.
    assert (hd <> []) as Hne by (unfold hd; discriminate).
    destruct (predicted_volume_finite hd s t e w h HF Hne (Hmean Hne))
      as (b & fv & c & _ & _ & Eout & Hc & Hclamp).
    subst out. rewrite Eout in *. cbn [volume confidence minVolume maxVolume] in *.
    apply nle_Fin in Hvol.
    assert (0 <= fv)%Z as Hfv.
    { rewrite Zle_Qle. exact Hvol. }
    repeat split.
    + assert (Qfloor (inject_Z fv * (1 - (1 - c))) <= fv)%Z as Hfl.
      { rewrite <- (Qfloor_Z fv) at 2. apply Qfloor_resp_le. nra. }
      destruct (nmax_Fin_cases 0 (inject_Z (Qfloor (inject_Z fv * (1 - (1 - c))))))
        as [[H1 ->] | [H1 ->]]; apply nle_Fin.
      * rewrite <- Zle_Qle. exact Hfl.
      * exact Hvol.
    + apply nle_Fin. rewrite <- Zle_Qle.
      rewrite <- (Qceiling_Z fv) at 1. apply Qceiling_resp_le. nra.
    + apply nle_Fin. lra.
    + apply nle_Fin. lra.
    + exact Hclamp.
Qed.

(** Non-negative volumes with a positive mean and non-negative factors give
    a non-negative predicted volume. *)
Lemma nonnegative_inputs_nonnegative_volume (hd : list HistoricalDatum) (s t e w h : Q) :
  Forall (fun d => finite (s_volume d)) hd ->
  hd <> [] -> 0 < mean (volumes hd) ->
  0 <= s -> 0 <= t -> 0 <= e -> 0 <= w -> 0 <= h ->
  nle (Fin 0)
      (volume (calculatePredictedVolume hd {| seasonal := Fin s; trend := Fin t |}
                 {| holidayFactor := Fin h; weather := Fin w; specialEvent := Fin e |}))
  = true.
Proof.
  intros HF Hne Hmean Hs Ht He Hw Hh.
  assert (~ mean (volumes hd) == 0) as Hnz by lra.
  destruct (predicted_volume_finite hd s t e w h HF Hne Hnz)
    as (b & fv & c & Hb & Hfv & Eout & _).
  rewrite Eout. cbn [volume]. apply nle_Fin.
  replace 0 with (inject_Z 0) by reflexivity. rewrite <- Zle_Qle.
  rewrite Hfv, <- (Qfloor_Z 0). apply Qfloor_resp_le.
  assert (0 <= b) as H0 by lra.
  pose proof (Qmult_le_0_compat _ _ H0 Hs) as H1.
  pose proof (Qmult_le_0_compat _ _ H1 Ht) as H2.
  pose proof (Qmult_le_0_compat _ _ H2 He) as H3.
  pose proof (Qmult_le_0_compat _ _ H3 Hw) as H4.
  pose proof (Qmult_le_0_compat _ _ H4 Hh) as H5.
  change (inject_Z 0) with 0. lra.
Qed.

Lemma predicted_volume_bounds_witness :
  Forall (fun d => finite (s_volume d)) [sample 18; sample 22] /\
  ([sample 18; sample 22] <> [] -> ~ mean (volumes [sample 18; sample 22]) == 0) /\
  nle (Fin 0) (volume (calculatePredictedVolume [sample 18; sample 22]
                         no_adjustment no_external)) = true /\
  let out := calculatePredictedVolume [sample 18; sample 22] no_adjustment no_external in
  nle (minVolume out) (volume out) = true /\
  nle (volume out) (maxVolume out) = true /\
  nle (Fin (30 # 100)) (confidence out) = true /\
  nle (confidence out) (Fin (95 # 100)) = true /\
  num_eq (confidence out)
    (clamp (Fin (1 - population_variance (volumes [sample 18; sample 22])
                     / mean (volumes [sample 18; sample 22])))
           (Fin (40 # 100)) (Fin (95 # 100))).
Proof.
  assert (Forall (fun d => finite (s_volume d)) [sample 18; sample 22]) as HF.
  { repeat constructor; eexists; reflexivity. }
  assert ([sample 18; sample 22] <> [] ->
          ~ mean (volumes [sample 18; sample 22]) == 0) as HM.
  { intros _ H. vm_compute in H. discriminate H. }
  split; [exact HF |]. split; [exact HM |]. split; [reflexivity |].
  exact (predicted_volume_bounds [sample 18; sample 22] 1 1 1 1 1 HF HM eq_refl).
Defined.

(** C1 as stated fails.  A negative factor makes the volume negative while
    minVolume is held at 0; samples that are all zero make the mean zero,
    and 0/0 turns the confidence and both bounds into NaN. *)
Lemma predicted_volume_bounds_counterexample :
  (let out := calculatePredictedVolume [sample 10]
                {| seasonal := Fin (-1); trend := Fin 1 |} no_external in
   volume out = Fin (-10) /\ minVolume out = Fin 0 /\
   nle (minVolume out) (volume out) = false)
  /\
  (let out := calculatePredictedVolume [sample 0] no_adjustment no_external in
   confidence out = NaN /\ minVolume out = NaN /\ maxVolume out = NaN /\
   nle (Fin (30 # 100)) (confidence out) = false /\
   nle (minVolume out) (volume out) = false /\
   nle (volume out) (maxVolume out) = false).
Proof. vm_compute. repeat split; reflexivity. Qed.

(** C3.  With an empty history the predictor returns the fixed fallback
    volume 10, confidence 0.30, minVolume 5, maxVolume 20, whatever the
    seasonal, trend and external factors are (NaN or infinite ones
    included); the function is total, so this is a value and not an error. *)
Theorem empty_history_fallback (seasonalFactors : SeasonalFactors)
  (externalFactors : ExternalFactors) :
  calculatePredictedVolume [] seasonalFactors externalFactors
  = {| volume := Fin 10; confidence := Fin (30 # 100);
       minVolume := Fin 5; maxVolume := Fin 20 |}.
Proof. reflexivity. Qed.

(* ------------------------------------------------------------------ *)
(** ** StaffingCalculator: [calculateRequiredAgents] *)
(* ------------------------------------------------------------------ *)

Lemma or_default_cases (x : option num) (d : Q) :
  finite_opt x ->
  (exists q, x = Some (Fin q) /\ ~ q == 0 /\ or_default x (Fin d) = Fin q)
  \/ (or_default x (Fin d) = Fin d /\ forall q, x = Some (Fin q) -> q == 0).
Proof.
  destruct x as [v |]; simpl.
  - intros [q ->]. simpl. destruct (Qeq_bool q 0) eqn:E.
    + right. split; auto. intros q' [= <-]. apply Qeq_bool_iff. exact E.
    + left. exists q. repeat split; auto. apply Qeq_bool_false_iff. exact E.
  - intros _. right. split; auto. discriminate.
Qed.

Lemma or_default_Fin (x : option num) (d : Q) :
  finite_opt x -> exists q, or_default x (Fin d) = Fin q.
Proof.
  intros H. destruct (or_default_cases x d H) as [(q & _ & _ & E) | [E _]]; eauto.
Qed.

Lemma nceil_Fin (q : Q) : nceil (Fin q) = Fin (inject_Z (Qceiling q)).
Proof. reflexivity. Qed.






(** The end-to-end scenario of the specification: volume 20 needs 5 agents. *)
Example scenario_required_agents :
  required (calculateRequiredAgents (predicted 20) (scenario_channel 2 (10 # 100)) None)
  = Fin 5.
Proof. vm_compute. reflexivity. Qed.


(* ------------------------------------------------------------------ *)
(** ** StaffingCalculator: service level and wait time *)
(* ------------------------------------------------------------------ *)

(** C8.  For a non-negative agent count and a non-negative workload, with
    u = workload / agents: when u >= 1 the predicted service level is 0.1
    and the predicted wait 300 seconds; otherwise the service level is
    clamp(1 - u, 0.1, 0.99) and the wait u * 60 seconds.  (Without agents
    u is Infinity under a positive workload, the overloaded case, and NaN
    under a zero workload, where both results are NaN like 1 - u and
    u * 60.) *)
Theorem overload_boundary (agents workload : Q) (targetSeconds : num) :
  0 <= agents -> 0 <= workload ->
  let u := ndiv (Fin workload) (Fin agents) in
  num_eq (predictServiceLevel (Fin agents) (Fin workload) targetSeconds)
         (if nge u (Fin 1) then Fin (1 # 10)
          else clamp (nsub (Fin 1) u) (Fin (1 # 10)) (Fin (99 # 100)))
  /\
  num_eq (predictAverageWaitTime (Fin agents) (Fin workload))
         (if nge u (Fin 1) then Fin 300 else nmul u (Fin 60)).
Proof.
  intros Ha Hw u. unfold predictServiceLevel, predictAverageWaitTime. fold u.
  destruct (nge u (Fin 1)) eqn:Eu.
  - split; apply num_eq_refl.
  - split.
    + apply max_min_is_clamp. lra.
    + destruct (Qeq_bool agents 0) eqn:Ez.
      * subst u. simpl in *. rewrite Ez in *.
        destruct (Qcompare_spec workload 0) as [E | E | E];
          simpl in *; try discriminate; try exact I. lra.
      * apply Qeq_bool_false_iff in Ez.
        subst u. rewrite (ndiv_Fin _ _ Ez) in *.
        cbn [nmul].
        assert (0 <= workload / agents) as Hu.
        { apply Qle_shift_div_l; lra. }
        destruct (nmax_Fin_cases 0 (workload / agents * 60)) as [[H1 ->] | [H1 ->]];
          simpl; lra.
Qed.

Lemma overload_boundary_witness :
  0 <= 5 /\ 0 <= 5 /\
  num_eq (predictServiceLevel (Fin 5) (Fin 5) (Fin 20)) (Fin (1 # 10)) /\
  num_eq (predictAverageWaitTime (Fin 5) (Fin 5)) (Fin 300).
Proof.
  split; [lra |]. split; [lra |].
  exact (overload_boundary 5 5 (Fin 20) ltac:(lra) ltac:(lra)).
Defined.

(* ------------------------------------------------------------------ *)
(** ** SeasonalModel: external factors *)
(* ------------------------------------------------------------------ *)

(** C9 (amended).  The holiday factor is 0.3 exactly on the three dates of
    the holiday table (1 January, 4 July, 25 December; months counted
    from 0) and 1.0 on every other date; the weather and special-event
    factors are always 1.0. *)
Theorem external_factors_holiday_table (momentDate : Moment) (hour : Z) :
  let ef := getExternalFactors momentDate hour in
  let m := month momentDate in
  let d := date momentDate in
  (holidayFactor ef = Fin (3 # 10) <->
   ((m = 0 /\ d = 1) \/ (m = 6 /\ d = 4) \/ (m = 11 /\ d = 25))%Z) /\
  (holidayFactor ef = Fin 1 <->
   ~ ((m = 0 /\ d = 1) \/ (m = 6 /\ d = 4) \/ (m = 11 /\ d = 25))%Z) /\
  weather ef = Fin 1 /\
  specialEvent ef = Fin 1.
Proof.
  intros ef m d. subst ef. unfold getExternalFactors, getHolidayFactor. fold m d.
  cbn [holidayFactor weather specialEvent holidays holiday_loop].
  destruct (Z.eqb_spec m 0); destruct (Z.eqb_spec d 1);
  destruct (Z.eqb_spec m 6); destruct (Z.eqb_spec d 4);
  destruct (Z.eqb_spec m 11); destruct (Z.eqb_spec d 25);
  cbn [andb]; repeat split; intros; try discriminate; try reflexivity; try lia;
  try (intros ?; lia).
Qed.

(** C9 as stated fails: 1 January is not 25 December, and its holiday
    factor is 0.3. *)
Lemma holiday_other_than_christmas :
  let momentDate := {| ymd := 19723; day := 1; month := 0; date := 1 |} in
  (month momentDate, date momentDate) <> (11, 25)%Z /\
  holidayFactor (getExternalFactors momentDate 10) = Fin (3 # 10) /\
  holidayFactor (getExternalFactors momentDate 10) <> Fin 1.
Proof. simpl. repeat split; try discriminate. Qed.

(* ------------------------------------------------------------------ *)
(** ** ForecastEngine: [generateHourlyForecasts] *)
(* ------------------------------------------------------------------ *)

Lemma Forecast_create_inr (env : Env) (table : list Forecast) (values row : Forecast)
  (table' : list Forecast) :
  Forecast_create env table values = inr (row, table') ->
  row = beforeValidate (Forecast_build values) /\ table' = table ++ [row] /\
  create_fails env row = false /\
  (enforce_unique env && existsb (same_period row) table)%bool = false.
Proof.
  unfold Forecast_create. intros H.
  destruct (create_fails env (beforeValidate (Forecast_build values))) eqn:E1;
    [discriminate |].
  destruct (enforce_unique env && _)%bool eqn:E2; [discriminate |].
  injection H as <- <-. auto.
Qed.

Lemma Forecast_create_inl (env : Env) (table : list Forecast) (values : Forecast) (e : Error) :
  Forecast_create env table values = inl e -> e <> ChannelNotFound.
Proof.
  unfold Forecast_create. intros H.
  destruct (create_fails env _); [injection H as <-; discriminate |].
  destruct (_ && _)%bool; [injection H as <-; discriminate | discriminate].
Qed.

Lemma hourly_values_fallback env table channel cid d skill hour :
  findAll_fails env hour = true ->
  is_fallback (beforeValidate (Forecast_build (hourly_values env table channel cid d skill hour))).
Proof.
  intros H. unfold hourly_values, getHistoricalData. rewrite H.
  unfold is_fallback. simpl. auto.
Qed.

Lemma hourly_loop_spec (env : Env) (channel : Channel) (cid : Z) (d : Moment)
  (skill : option Z) (hours : list Z) :
  forall (table acc : list Forecast),
  match hourly_loop env channel cid d skill hours table acc with
  | (inr forecasts, table') =>
      exists new,
        forecasts = acc ++ new /\ table' = table ++ new /\
        map forecast_hour new = operating_hours channel hours /\
        Forall (fun f => findAll_fails env (forecast_hour f) = true -> is_fallback f) new /\
        Forall (fun f => actual_volume f = None) new
  | (inl e, table') =>
      e <> ChannelNotFound /\
      exists done hour later,
        operating_hours channel hours = map forecast_hour done ++ hour :: later /\
        table' = table ++ done /\
        Forecast_create env table'
          (hourly_values env table' channel cid d skill hour) = inl e
  end.
Proof.
  induction hours as [| hour rest IH]; intros table acc; simpl.
  - exists []. rewrite !app_nil_r. repeat split; auto.
  - unfold operating_hours. simpl. fold (operating_hours channel rest).
    destruct (isOperatingHour hour channel) eqn:Eop; simpl.
    + destruct (Forecast_create env table _) as [e | [row table']] eqn:Ec.
      * split; [eapply Forecast_create_inl; eauto |].
        exists [], hour, (operating_hours channel rest). rewrite app_nil_r.
        repeat split; auto.
      * apply Forecast_create_inr in Ec. destruct Ec as (Er & Et & _ & _).
        specialize (IH table' (acc ++ [row])).
        destruct (hourly_loop env channel cid d skill rest table' (acc ++ [row]))
          as [[e | forecasts] table''].
        -- destruct IH as [Hne (done & h & later & Hop & Ht & Hc)].
           split; auto. exists (row :: done), h, later.
           repeat split.
           ++ simpl. rewrite Hop, Er. reflexivity.
           ++ rewrite Ht, Et, <- app_assoc. reflexivity.
           ++ exact Hc.
        -- destruct IH as (new & Hf & Ht & Hh & Hfb & Hna).
           exists (row :: new). repeat split.
           ++ rewrite Hf, <- app_assoc. reflexivity.
           ++ rewrite Ht, Et, <- app_assoc. reflexivity.
           ++ simpl. rewrite Hh, Er. reflexivity.
           ++ constructor; auto. rewrite Er. intros H.
              apply hourly_values_fallback. exact H.
           ++ constructor; auto. rewrite Er. reflexivity.
    + apply IH.
Qed.

(** C4 (amended).  The batch fails with the channel-not-found error, and
    writes nothing, when the channel does not exist.  When it exists, a
    returned batch holds one forecast for every operating hour, in order:
    a failing history read skips nothing, that hour's forecast carries the
    empty-history fallback.  The only other failure is a record write that
    the storage rejects at some operating hour: it aborts the batch with
    the storage's error, and the rows written for the earlier operating
    hours stay stored. *)
Theorem hourly_batch_outcome (env : Env) (st : Storage) (cid : Z) (d : Moment)
  (skill : option Z) :
  let result := generateHourlyForecasts env st cid d skill in
  match findByPk (channel_table st) cid with
  | None => result = (inl ChannelNotFound, st)
  | Some channel =>
      let operating := operating_hours channel hours_of_day in
      match fst result with
      | inr forecasts =>
          map forecast_hour forecasts = operating /\
          Forall (fun f => findAll_fails env (forecast_hour f) = true -> is_fallback f)
                 forecasts /\
          forecast_table (snd result) = forecast_table st ++ forecasts
      | inl e =>
          e <> ChannelNotFound /\
          exists done hour later,
            operating = map forecast_hour done ++ hour :: later /\
            forecast_table (snd result) = forecast_table st ++ done /\
            Forecast_create env (forecast_table (snd result))
              (hourly_values env (forecast_table (snd result)) channel cid d skill hour)
            = inl e
      end
  end.
Proof.
  intros result. subst result. unfold generateHourlyForecasts.
  destruct (findByPk (channel_table st) cid) as [channel |]; [| reflexivity].
  pose proof (hourly_loop_spec env channel cid d skill hours_of_day (forecast_table st) [])
    as H.
  destruct (hourly_loop env channel cid d skill hours_of_day (forecast_table st) [])
    as [[e | forecasts] table]; cbn [fst snd forecast_table].
  - exact H.
  - destruct H as (new & -> & -> & Hh & Hfb & _). cbn [app]. auto.
Qed.

(** X10.  When the channel exists and the storage accepts every write
    (no write fails, no uniqueness constraint), [generateHourlyForecasts]
    returns: it yields a forecast for every operating hour, in order,
    whichever history reads fail. *)
Lemma accepting_storage_returns_every_hour (env : Env) (st : Storage) (cid : Z)
  (d : Moment) (skill : option Z) (channel : Channel) :
  findByPk (channel_table st) cid = Some channel ->
  (forall row, create_fails env row = false) ->
  enforce_unique env = false ->
  exists forecasts,
    fst (generateHourlyForecasts env st cid d skill) = inr forecasts /\
    map forecast_hour forecasts = operating_hours channel hours_of_day.
Proof.
  intros Hch Hcf Hu. unfold generateHourlyForecasts. rewrite Hch.
  pose proof (hourly_loop_spec env channel cid d skill hours_of_day (forecast_table st) [])
    as H.
  destruct (hourly_loop env channel cid d skill hours_of_day (forecast_table st) [])
    as [[e | forecasts] table]; cbn [fst].
  - destruct H as (_ & done & hour & later & _ & _ & Hc).
    unfold Forecast_create in Hc. rewrite Hcf, Hu in Hc. discriminate Hc.
  - destruct H as (new & -> & _ & Hh & _). exists new. split; auto.
Qed.

(** C4 as stated fails.  The channel exists, yet a record write rejected at
    hour 9 aborts the whole batch with the storage's error: only the row of
    hour 8 is stored and the hours 10 to 19 are never reached.  A failing
    history read at hour 10 does not skip that hour: its row is written,
    with the empty-history fallback instead of the volume 27 that the
    history gives. *)
Lemma hourly_batch_counterexample :
  (let result := generateHourlyForecasts (write_fails_at 9) scenario_storage 1 a_monday None in
   findByPk (channel_table scenario_storage) 1 = Some (scenario_channel 2 (10 # 100)) /\
   fst result = inl DatabaseError /\
   map forecast_hour (skipn 2 (forecast_table (snd result))) = [8]%Z)
  /\
  (match fst (generateHourlyForecasts (read_fails_at 10) scenario_storage 1 a_monday None) with
   | inr forecasts =>
       map forecast_hour forecasts = [8; 9; 10; 11; 12; 13; 14; 15; 16; 17; 18; 19]%Z /\
       map predicted_volume (firstn 1 (skipn 2 forecasts)) = [Fin 10]
   | inl _ => False
   end)
  /\
  (match fst (generateHourlyForecasts (reliable false) scenario_storage 1 a_monday None) with
   | inr forecasts => map predicted_volume (firstn 1 (skipn 2 forecasts)) = [Fin 27]
   | inl _ => False
   end).
Proof. vm_compute. repeat split; reflexivity. Qed.

(* ------------------------------------------------------------------ *)
(** ** Regenerating the forecasts of a day *)
(* ------------------------------------------------------------------ *)

Lemma filter_filter_implied {A : Type} (p q : A -> bool) (l : list A) :
  (forall x, p x = true -> q x = true) -> filter p (filter q l) = filter p l.
Proof.
  intros H. induction l as [| x l IH]; simpl; auto.
  destruct (q x) eqn:Eq; simpl.
  - rewrite IH. reflexivity.
  - destruct (p x) eqn:Ep; auto. rewrite (H x Ep) in Eq. discriminate.
Qed.

Lemma history_where_observed (cid hour : Z) (skill : option Z) (a b : Z)
  (table : list Forecast) :
  filter (history_where cid hour skill a b) (observed table)
  = filter (history_where cid hour skill a b) table.
Proof.
  apply filter_filter_implied. intros f. unfold history_where.
  rewrite !andb_true_iff. tauto.
Qed.

Lemma getHistoricalData_observed (env : Env) (T1 T2 : list Forecast) (cid hour : Z)
  (skill : option Z) :
  observed T1 = observed T2 ->
  getHistoricalData env T1 cid hour skill = getHistoricalData env T2 cid hour skill.
Proof.
  intros H. unfold getHistoricalData.
  rewrite <- (history_where_observed _ _ _ _ _ T1), <- (history_where_observed _ _ _ _ _ T2), H.
  reflexivity.
Qed.

Lemma hourly_values_observed (env : Env) (T1 T2 : list Forecast) channel cid d skill hour :
  observed T1 = observed T2 ->
  hourly_values env T1 channel cid d skill hour
  = hourly_values env T2 channel cid d skill hour.
Proof.
  intros H. unfold hourly_values.
  rewrite (getHistoricalData_observed env T1 T2 cid hour skill H). reflexivity.
Qed.

Lemma observed_app (T new : list Forecast) :
  Forall (fun f => actual_volume f = None) new -> observed (T ++ new) = observed T.
Proof.
  intros H. unfold observed. rewrite filter_app.
  assert (filter (fun f => is_some (actual_volume f)) new = []) as ->.
  { induction H as [| f new Hf _ IH]; simpl; auto. rewrite Hf. simpl. exact IH. }
  apply app_nil_r.
Qed.

Lemma observed_snoc_same (T1 T2 : list Forecast) (row : Forecast) :
  observed T1 = observed T2 -> observed (T1 ++ [row]) = observed (T2 ++ [row]).
Proof. intros H. unfold observed in *. rewrite !filter_app, H. reflexivity. Qed.

(** A row built by [Forecast.create] has no channel and no skill key, so
    it collides with no row in the unique index. *)
Lemma built_row_never_collides (values : Forecast) (table : list Forecast) :
  existsb (same_period (beforeValidate (Forecast_build values))) table = false.
Proof.
  induction table as [| x table IH]; simpl; auto.
Qed.

(** A second pass over a table with the same observed rows writes the very
    same rows. *)
Lemma rerun_accepted (env : Env) (channel : Channel) (cid : Z) (d : Moment)
  (skill : option Z) (hours : list Z) :
  forall T1 acc fs T1',
  hourly_loop env channel cid d skill hours T1 acc = (inr fs, T1') ->
  forall T2 acc2, observed T2 = observed T1 ->
  exists new, fs = acc ++ new /\
    hourly_loop env channel cid d skill hours T2 acc2 = (inr (acc2 ++ new), T2 ++ new).
Proof.
  induction hours as [| hour rest IH]; intros T1 acc fs T1' H T2 acc2 Hobs; simpl in *.
  - injection H as <- <-. exists []. rewrite !app_nil_r. auto.
  - destruct (isOperatingHour hour channel); simpl in *; [| eapply IH; eauto].
    destruct (Forecast_create env T1 _) as [e | [row T1x]] eqn:Ec; [discriminate |].
    apply Forecast_create_inr in Ec. destruct Ec as (Er & Et & Hcf & _).
    rewrite (hourly_values_observed env T2 T1 channel cid d skill hour Hobs).
    unfold Forecast_create at 1. rewrite built_row_never_collides, andb_false_r.
    rewrite <- Er, Hcf.
    subst T1x.
    destruct (IH _ _ _ _ H (T2 ++ [row]) (acc2 ++ [row])
                 (observed_snoc_same T2 T1 row Hobs)) as (new & Hf & Hl).
    exists (row :: new). rewrite Hl, Hf, <- !app_assoc. auto.
Qed.

(** C5.  After a call of [generateHourlyForecasts] that returned its
    forecasts, a second call with the same arguments on the resulting
    storage (the historical data unchanged) returns forecasts with the same
    computed values, hour by hour, also when the storage enforces the
    uniqueness index on (channel_id, skill_id, forecast_date,
    forecast_hour): the rows the first call wrote carry no observed volume
    and are invisible to the history query, and they carry no channel and
    no skill key ([Forecast.create] drops both), so that the index, in
    which NULL keys never collide, rejects nothing.  The second call
    stores its rows after those of the first. *)
Theorem regeneration_outcome (env : Env) (st : Storage) (cid : Z) (d : Moment)
  (skill : option Z) (forecasts : list Forecast) (st1 : Storage) :
  generateHourlyForecasts env st cid d skill = (inr forecasts, st1) ->
  let second := generateHourlyForecasts env st1 cid d skill in
  fst second = inr forecasts /\
  forecast_table (snd second) = forecast_table st1 ++ forecasts /\
  forecast_table st1 = forecast_table st ++ forecasts.
Proof.
  unfold generateHourlyForecasts.
  destruct (findByPk (channel_table st) cid) as [channel |] eqn:Ech; [| discriminate].
  pose proof (hourly_loop_spec env channel cid d skill hours_of_day (forecast_table st) [])
    as Hspec.
  generalize dependent hours_of_day. intros hours Hspec.
  destruct (hourly_loop env channel cid d skill hours (forecast_table st) [])
    as [r T1'] eqn:Hrun.
  intros H. injection H as -> <-. cbn [channel_table forecast_table]. rewrite Ech.
  destruct Hspec as (new & Hf & Ht & _ & _ & Hna). simpl in Hf. subst new.
  assert (observed T1' = observed (forecast_table st)) as Hobs.
  { rewrite Ht. apply observed_app. exact Hna. }
  destruct (rerun_accepted env channel cid d skill hours _ _ _ _ Hrun T1' [] Hobs)
    as (new & Hf & Hl).
  simpl in Hf. subst new. rewrite Hl. cbn [fst snd app forecast_table].
  repeat split; auto.
Qed.

Lemma regeneration_outcome_witness :
  exists forecasts st1,
    generateHourlyForecasts (reliable true) scenario_storage 1 a_monday (Some 7%Z)
    = (inr forecasts, st1) /\
    length forecasts = 12%nat /\
    fst (generateHourlyForecasts (reliable true) st1 1 a_monday (Some 7%Z))
    = inr forecasts.
Proof.
  destruct (generateHourlyForecasts (reliable true) scenario_storage 1 a_monday (Some 7%Z))
    as [[e | forecasts] st1] eqn:E.
  - vm_compute in E. discriminate E.
  - exists forecasts, st1. split; [reflexivity |].
    split; [vm_compute in E; injection E as <- _; reflexivity |].
    exact (proj1 (regeneration_outcome (reliable true) scenario_storage 1 a_monday
                    (Some 7%Z) forecasts st1 E)).
Defined.

(* ------------------------------------------------------------------ *)
(** ** AgentAssignmentEngine: breaks and lunch *)
(* ------------------------------------------------------------------ *)

Lemma Qfloor_inject_div (n m : Z) (q : Q) :
  q == inject_Z n / inject_Z m -> Qfloor q = (n / m)%Z.
Proof. intros H. rewrite H. symmetry. apply Zdiv_Qdiv. Qed.

Lemma Qfloor_inject (z : Z) (q : Q) : q == inject_Z z -> Qfloor q = z.
Proof. intros H. rewrite H. apply Qfloor_Z. Qed.

Lemma shift_hours_minutes (startTime endTime : Z) :
  calculateShiftHours startTime endTime == inject_Z (endTime - startTime) / 60.
Proof.
  unfold calculateShiftHours, diff_hours, on_2000_01_01.
  unfold Zminus. rewrite inject_Z_plus, inject_Z_opp. field.
Qed.

Lemma at_least_hours (startTime endTime h : Z) :
  Qle_bool (inject_Z h) (calculateShiftHours startTime endTime)
  = (60 * h <=? endTime - startTime)%Z.
Proof.
  pose proof (shift_hours_minutes startTime endTime) as Hs.
  assert (inject_Z (endTime - startTime) / 60
          == inject_Z (endTime - startTime) * (1 # 60)) as Hd by field.
  assert (inject_Z (60 * h) == 60 * inject_Z h) as Hm.
  { rewrite inject_Z_mult. reflexivity. }
  destruct (Z.leb_spec (60 * h) (endTime - startTime)) as [H | H].
  - apply Qle_bool_iff. rewrite Zle_Qle in H. lra.
  - destruct (Qle_bool _ _) eqn:E; auto. apply Qle_bool_iff in E.
    rewrite Zlt_Qlt in H. lra.
Qed.

(** C6 (amended).  For a same-day shift (whole minutes, end after start):
    the shift receives one break per completed 4-hour block, none under
    4 hours; the i-th break starts 4i hours after the shift start and
    lasts the constraint's break duration (15 minutes when that is zero or
    missing).  A shift of at least 6 hours additionally receives one lunch
    break, which starts at the shift midpoint, strictly inside the shift,
    and lasts the constraint's lunch duration (60 minutes when zero or
    missing); shorter shifts receive none.  A lunch window that is not
    negative and not longer than half the shift ends within the shift. *)
Theorem break_and_lunch_placement (startTime endTime : Z) (constraints : Constraints) :
  (0 <= startTime)%Z -> (startTime < endTime)%Z -> (endTime < 1440)%Z ->
  let minutes := (endTime - startTime)%Z in
  let breakDuration := or_defaultQ (min_break_duration constraints) 15 in
  let lunchDuration := or_defaultQ (lunch_break_duration constraints) 60 in
  let midpoint := (startTime + minutes / 2)%Z in
  generateBreaks startTime endTime constraints
  = map (fun i =>
           {| start_time := startTime + 240 * i;
              end_time := format_HHmm (inject_Z (startTime + 240 * i) + breakDuration);
              type := type_break;
              duration := breakDuration |})
        (map Z.of_nat (seq 1 (Z.to_nat (minutes / 240))))
  /\
  generateLunchBreak startTime endTime constraints
  = (if (360 <=? minutes)%Z
     then Some {| start_time := midpoint;
                  end_time := format_HHmm (inject_Z midpoint + lunchDuration);
                  type := type_lunch;
                  duration := lunchDuration |}
     else None)
  /\
  ((360 <= minutes)%Z -> (startTime < midpoint < endTime)%Z)
  /\
  (0 <= lunchDuration -> lunchDuration <= inject_Z (minutes / 2) ->
   (midpoint <= format_HHmm (inject_Z midpoint + lunchDuration) <= endTime)%Z).
Proof.
  intros H0 Hlt Hend minutes breakDuration lunchDuration midpoint.
  assert (0 < minutes)%Z as Hmin by (unfold minutes; lia).
  split; [| split; [| split]].
  - unfold generateBreaks. fold breakDuration.
    change 4 with (inject_Z 4) at 1. rewrite at_least_hours. fold minutes.
    assert (Qfloor (calculateShiftHours startTime endTime / 4) = (minutes / 240)%Z) as ->.
    { apply Qfloor_inject_div. rewrite shift_hours_minutes. fold minutes.
      change (inject_Z 240) with 240. field. }
    destruct (Z.leb_spec (60 * 4) minutes) as [H4 | H4].
    + apply map_ext_in. intros i Hi.
      apply in_map_iff in Hi. destruct Hi as (k & <- & Hk). apply in_seq in Hk.
      assert (Z.of_nat k <= minutes / 240)%Z as Hk'.
      { assert (0 <= minutes / 240)%Z by (apply Z.div_pos; lia). lia. }
      assert (240 * Z.of_nat k <= minutes)%Z as Hk''.
      { pose proof (Z.mul_div_le minutes 240 ltac:(lia)). nia. }
      assert (format_HHmm (add_hours (on_2000_01_01 startTime)
                                     (inject_Z (Z.of_nat k * 4)))
              = (startTime + 240 * Z.of_nat k)%Z) as ->.
      { unfold format_HHmm, add_hours, on_2000_01_01.
        rewrite (Qfloor_inject (startTime + 240 * Z.of_nat k)).
        - apply Z.mod_small. unfold minutes in Hk''. lia.
        - rewrite inject_Z_plus, !inject_Z_mult. change (inject_Z 240) with 240.
          change (inject_Z 4) with 4. ring. }
      reflexivity.
    + assert (minutes / 240 = 0)%Z as -> by (apply Z.div_small; lia).
      reflexivity.
  - unfold generateLunchBreak. fold lunchDuration.
    change 6 with (inject_Z 6) at 1. rewrite at_least_hours. fold minutes.
    change (60 * 6)%Z with 360%Z.
    destruct (Z.leb_spec 360 minutes) as [H6 | H6]; [| reflexivity].
    assert (format_HHmm (add_hours (on_2000_01_01 startTime)
                                   (calculateShiftHours startTime endTime / 2))
            = midpoint) as ->.
    { unfold format_HHmm, add_hours, on_2000_01_01.
      rewrite (Qfloor_inject_div (2 * startTime + minutes) 2).
      - rewrite Z.mul_comm, Z.div_add_l by lia. apply Z.mod_small.
        unfold midpoint. assert (0 <= minutes / 2 < minutes)%Z.
        { split; [apply Z.div_pos; lia | apply Z.div_lt; lia]. }
        unfold minutes in *. lia.
      - rewrite shift_hours_minutes. fold minutes.
        rewrite inject_Z_plus, inject_Z_mult. change (inject_Z 2) with 2. field. }
    reflexivity.
  - intros H6. unfold midpoint, minutes in *.
    pose proof (Z.mul_div_le (endTime - startTime) 2 ltac:(lia)).
    assert (180 <= (endTime - startTime) / 2)%Z by (apply Z.div_le_lower_bound; lia).
    lia.
  - intros Hd0 Hd1. unfold format_HHmm.
    assert (0 <= minutes / 2)%Z as Hh by (apply Z.div_pos; lia).
    pose proof (Z.mul_div_le minutes 2 ltac:(lia)) as Hh'.
    assert (midpoint <= Qfloor (inject_Z midpoint + lunchDuration))%Z as Hlo.
    { rewrite <- (Qfloor_Z midpoint) at 1. apply Qfloor_resp_le. lra. }
    assert (Qfloor (inject_Z midpoint + lunchDuration) <= midpoint + minutes / 2)%Z as Hhi.
    { rewrite <- (Qfloor_Z (midpoint + minutes / 2)). apply Qfloor_resp_le.
      rewrite inject_Z_plus. lra. }
    rewrite Z.mod_small; unfold midpoint, minutes in *; lia.
Qed.

Lemma break_and_lunch_placement_witness :
  (0 <= hhmm 8 0)%Z /\ (hhmm 8 0 < hhmm 16 0)%Z /\ (hhmm 16 0 < 1440)%Z /\
  map start_time (generateBreaks (hhmm 8 0) (hhmm 16 0) getDefaultConstraints)
  = [hhmm 12 0; hhmm 16 0] /\
  option_map start_time (generateLunchBreak (hhmm 8 0) (hhmm 16 0) getDefaultConstraints)
  = Some (hhmm 12 0) /\
  option_map end_time (generateLunchBreak (hhmm 8 0) (hhmm 16 0) getDefaultConstraints)
  = Some (hhmm 13 0).
Proof.
  assert (0 <= hhmm 8 0)%Z as H0 by (vm_compute; discriminate).
  assert (hhmm 8 0 < hhmm 16 0)%Z as H1 by reflexivity.
  assert (hhmm 16 0 < 1440)%Z as H2 by reflexivity.
  split; [exact H0 |]. split; [exact H1 |]. split; [exact H2 |].
  destruct (break_and_lunch_placement (hhmm 8 0) (hhmm 16 0) getDefaultConstraints H0 H1 H2)
    as (Hb & Hl & _).
  rewrite Hb, Hl. repeat split; reflexivity.
Defined.

(** C6 as stated fails.  The only break of the 08:00-12:00 shift is placed
    at 12:00-12:30: it starts when the shift ends and lies outside it, and
    so does the second break of the 08:00-16:00 shift, 16:00-16:30.  The
    lunch of the 08:00-16:00 shift is 12:00-13:00: it starts at the
    midpoint 12:00, so its centre is 12:30. *)
Lemma break_placement_counterexample :
  generateBreaks (hhmm 8 0) (hhmm 12 0) getDefaultConstraints
  = [ {| start_time := hhmm 12 0; end_time := hhmm 12 30;
         type := type_break; duration := 30 |} ]
  /\
  Forall (fun b => (hhmm 12 0 <= start_time b)%Z /\ (hhmm 12 0 < end_time b)%Z)
         (generateBreaks (hhmm 8 0) (hhmm 12 0) getDefaultConstraints)
  /\
  generateBreaks (hhmm 8 0) (hhmm 16 0) getDefaultConstraints
  = [ {| start_time := hhmm 12 0; end_time := hhmm 12 30;
         type := type_break; duration := 30 |};
      {| start_time := hhmm 16 0; end_time := hhmm 16 30;
         type := type_break; duration := 30 |} ]
  /\
  generateLunchBreak (hhmm 8 0) (hhmm 16 0) getDefaultConstraints
  = Some {| start_time := hhmm 12 0; end_time := hhmm 13 0;
            type := type_lunch; duration := 60 |}
  /\
  (hhmm 8 0 + hhmm 16 0 = 2 * hhmm 12 0)%Z
  /\
  (hhmm 12 0 + hhmm 13 0 = 2 * hhmm 12 30)%Z.
Proof.
  vm_compute. repeat split; try reflexivity.
  repeat constructor; discriminate.
Qed.

(* ------------------------------------------------------------------ *)
(** ** AgentAssignmentEngine: [assignAgentsToShifts] *)
(* ------------------------------------------------------------------ *)

(** C7, at the failing input.  With one agent and the first two catalog
    templates, the agent is given both 08:00-16:00 and 09:00-17:00: the
    check computes 17 hours of rest from 16:00 to 09:00 of the next day,
    while the second shift starts, on the same day, 7 hours before the
    first one ends. *)
Lemma same_day_rest_is_not_checked :
  map placed
      (assignAgentsToShifts
         [template (hhmm 8 0) (hhmm 16 0) type_morning;
          template (hhmm 9 0) (hhmm 17 0) type_day]
         [agent 1 4] getDefaultConstraints)
  = [(1, hhmm 8 0, hhmm 16 0); (1, hhmm 9 0, hhmm 17 0)]%Z
  /\
  calculateTimeBetween (hhmm 16 0) (hhmm 9 0) == 17
  /\
  (hhmm 9 0 - hhmm 16 0 < 0)%Z.
Proof. vm_compute. repeat split; reflexivity. Qed.

(** For a day with a single available agent, the daily generation gives
    that agent the five 8-hour templates of the catalog, all on that day. *)
Example one_agent_five_overlapping_shifts :
  map (fun shift => (agent_id shift, shift_date shift,
                     shift_start_time shift, shift_end_time shift))
      (generateDailyShifts 19730 [agent 1 4] [] [] getDefaultConstraints)
  = [(Some 1, 19730, hhmm 8 0, hhmm 16 0); (Some 1, 19730, hhmm 9 0, hhmm 17 0);
     (Some 1, 19730, hhmm 10 0, hhmm 18 0); (Some 1, 19730, hhmm 12 0, hhmm 20 0);
     (Some 1, 19730, hhmm 14 0, hhmm 22 0)]%Z.
Proof. vm_compute. reflexivity. Qed.

Lemma insert_stable_In {A : Type} (after : A -> A -> bool) (x y : A) (l : list A) :
  In y (insert_stable after x l) <-> y = x \/ In y l.
Proof.
  induction l as [| z l IH]; simpl.
  - intuition.
  - destruct (after x z); simpl; rewrite ?IH; intuition.
Qed.

Lemma js_sort_In {A : Type} (after : A -> A -> bool) (y : A) (l : list A) :
  In y (js_sort after l) <-> In y l.
Proof.
  unfold js_sort. induction l as [| x l IH]; simpl; [tauto |].
  rewrite insert_stable_In, IH. intuition.
Qed.

Lemma findSuitableAgents_In (agents : list Agent) pattern wl constraints (a : Agent) :
  In a (findSuitableAgents agents pattern wl constraints) ->
  In a agents /\
  exists w, map_get wl (a_id a) = Some w /\
            gt_field (hoursAssigned w + calculateShiftHours (p_start pattern) (p_end pattern))
                     (max_hours_per_week constraints) = false.
Proof.
  unfold findSuitableAgents. intros H. apply filter_In in H. destruct H as [Hin H].
  split; auto. destruct (map_get wl (a_id a)) as [w |]; [| discriminate].
  exists w. split; auto. destruct (gt_field _ _); [discriminate | reflexivity].
Qed.

Lemma assign_loop_agents (sortedAgents : list Agent) constraints patterns :
  forall wl asg,
  Forall (fun a => In (agentId a) (map a_id sortedAgents)) asg ->
  Forall (fun a => In (agentId a) (map a_id sortedAgents))
         (fst (assign_loop sortedAgents constraints patterns wl asg)).
Proof.
  induction patterns as [| pattern rest IH]; intros wl asg H; simpl; auto.
  destruct (findSuitableAgents sortedAgents pattern wl constraints) as [| sel others] eqn:E.
  - apply IH. exact H.
  - apply IH. apply Forall_app. split; auto. constructor; auto. simpl.
    apply in_map. 
    assert (In sel (findSuitableAgents sortedAgents pattern wl constraints)) as Hs
      by (rewrite E; left; reflexivity).
    apply findSuitableAgents_In in Hs. tauto.
Qed.

(** Every assignment goes to one of the agents passed in. *)
Lemma assigned_agent_is_available (patterns : list Pattern) (agents : list Agent)
  (constraints : Constraints) (a : Assignment) :
  In a (assignAgentsToShifts patterns agents constraints) ->
  In (agentId a) (map a_id agents).
Proof.
  unfold assignAgentsToShifts. intros H.
  pose proof (assign_loop_agents (sortAgentsBySuitability agents) constraints patterns
                (initial_workload agents) [] (Forall_nil _)) as HF.
  rewrite Forall_forall in HF. specialize (HF a H).
  apply in_map_iff in HF. destruct HF as (ag & <- & Hag).
  apply in_map. unfold sortAgentsBySuitability in Hag. apply js_sort_In in Hag. exact Hag.
Qed.

Lemma set_has_undefined (timeOffRequests : list TimeOff) (id : Z) :
  set_has (map t_agent_id timeOffRequests) id = false.
Proof.
  induction timeOffRequests as [| t rest IH]; simpl; auto.
Qed.

Lemma filter_all {A : Type} (p : A -> bool) (l : list A) :
  (forall x, p x = true) -> filter p l = l.
Proof.
  intros H. induction l as [| x l IH]; simpl; auto. rewrite H, IH. reflexivity.
Qed.

(** X24.  The time-off rows read from the TimeOff model exclude nobody:
    [generateDailyShifts] collects [t.agent_id] of the approved rows, a
    property no row defines (the agent of a row is its [AgentId]), so the
    set of unavailable agents holds no agent, every agent passed in is
    available, and the shifts of the day are those generated without any
    time-off row. *)
Theorem approved_time_off_excludes_nobody (dateString : Z) (agents : list Agent)
  (forecasts : list Forecast) (timeOffRequests : list TimeOff)
  (constraints : Constraints) :
  generateDailyShifts dateString agents forecasts timeOffRequests constraints
  = generateDailyShifts dateString agents forecasts [] constraints.
Proof.
  unfold generateDailyShifts.
  rewrite !filter_all; [reflexivity | |].
  - intros agent. reflexivity.
  - intros agent. rewrite set_has_undefined. reflexivity.
Qed.

(** A template for which no agent is eligible is passed over. *)
Lemma template_without_agent_is_dropped sortedAgents constraints pattern rest wl asg :
  findSuitableAgents sortedAgents pattern wl constraints = [] ->
  assign_loop sortedAgents constraints (pattern :: rest) wl asg
  = assign_loop sortedAgents constraints rest wl asg.
Proof. intros H. simpl. rewrite H. reflexivity. Qed.

Lemma map_get_set (m : list (Z * Workload)) (k id : Z) (v w : Workload) :
  map_get m k = Some w ->
  map_get (map_set m k v) id = if (id =? k)%Z then Some v else map_get m id.
Proof.
  induction m as [| [k' v'] m IH]; simpl; [discriminate |].
  destruct (Z.eqb_spec k k') as [-> | Hk].
  - intros _. simpl. destruct (Z.eqb_spec id k'); reflexivity.
  - intros H. simpl. destruct (Z.eqb_spec id k') as [-> | Hid].
    + destruct (Z.eqb_spec k' k); [congruence | reflexivity].
    + rewrite IH by exact H. reflexivity.
Qed.

Lemma hours_of_snoc (id : Z) (asg : list Assignment) (a : Assignment) :
  hours_of id (asg ++ [a])
  == hours_of id asg
     + (if (agentId a =? id)%Z then calculateShiftHours (startTime a) (endTime a) else 0).
Proof.
  unfold hours_of. rewrite filter_app, map_app. simpl.
  assert (forall l1 l2, sumQ (l1 ++ l2) == sumQ l1 + sumQ l2) as Happ.
  { induction l1 as [| x l1 IH]; intros l2; simpl; [ring | rewrite IH; ring]. }
  rewrite Happ. destruct (agentId a =? id)%Z; simpl; ring.
Qed.

Lemma within_limit_snoc (M : Q) (asg : list Assignment) (x : Assignment) :
  within_limit M asg -> hours_of (agentId x) (asg ++ [x]) <= M ->
  within_limit M (asg ++ [x]).
Proof.
  intros H Hx pre a post E.
  destruct post as [| p post'].
  - apply app_inj_tail in E. destruct E as [-> ->]. exact Hx.
  - destruct (exists_last (l := p :: post')) as (post'' & y & Ep); [discriminate |].
    rewrite Ep in E. 
    change (pre ++ a :: post'' ++ [y]) with (pre ++ (a :: post'') ++ [y]) in E.
    rewrite app_assoc in E. apply app_inj_tail in E. destruct E as [E _].
    apply (H pre a post''). exact E.
Qed.

Lemma assign_loop_within_limit (sortedAgents : list Agent) constraints (M : Q) patterns :
  max_hours_per_week constraints = Some M ->
  forall wl asg, tracked wl asg -> within_limit M asg ->
  within_limit M (fst (assign_loop sortedAgents constraints patterns wl asg)).
Proof.
  intros HM. induction patterns as [| pattern rest IH]; intros wl asg Htr Hw; simpl; auto.
  destruct (findSuitableAgents sortedAgents pattern wl constraints) as [| sel others] eqn:E.
  - apply IH; auto.
  - assert (In sel (findSuitableAgents sortedAgents pattern wl constraints)) as Hs
      by (rewrite E; left; reflexivity).
    apply findSuitableAgents_In in Hs. destruct Hs as (_ & w & Hget & Hchk).
    rewrite Hget. rewrite HM in Hchk. unfold gt_field, Qltb in Hchk.
    set (sh := calculateShiftHours (p_start pattern) (p_end pattern)) in *.
    assert (hoursAssigned w + sh <= M) as Hle.
    { destruct (Qcompare_spec M (hoursAssigned w + sh)); try discriminate; lra. }
    apply IH.
    + intros id w' Hw'. rewrite (map_get_set _ _ _ _ _ Hget) in Hw'.
      rewrite hours_of_snoc. cbn [agentId startTime endTime].
      rewrite (Z.eqb_sym (a_id sel) id).
      destruct (Z.eqb_spec id (a_id sel)) as [-> | Hne].
      * injection Hw' as <-. cbn [hoursAssigned]. rewrite (Htr _ _ Hget). reflexivity.
      * rewrite (Htr _ _ Hw'). ring.
    + apply within_limit_snoc; auto. rewrite hours_of_snoc. cbn [agentId startTime endTime].
      rewrite Z.eqb_refl, <- (Htr _ _ Hget). exact Hle.
Qed.

Lemma map_set_Forall (P : Workload -> Prop) (m : list (Z * Workload)) (k : Z)
  (v : Workload) :
  P v -> Forall (fun kv => P (snd kv)) m -> Forall (fun kv => P (snd kv)) (map_set m k v).
Proof.
  intros Hv H. induction H as [| [k' v'] m Hkv Hm IH]; simpl.
  - constructor; auto.
  - destruct (k =? k')%Z; constructor; simpl; auto.
Qed.

Lemma map_get_Forall (P : Workload -> Prop) (m : list (Z * Workload)) (id : Z)
  (w : Workload) :
  Forall (fun kv => P (snd kv)) m -> map_get m id = Some w -> P w.
Proof.
  induction 1 as [| [k v] m Hkv _ IH]; simpl; [discriminate |].
  destruct (id =? k)%Z; auto. intros [= <-]. exact Hkv.
Qed.

Lemma initial_workload_zero (agents : list Agent) (id : Z) (w : Workload) :
  map_get (initial_workload agents) id = Some w -> hoursAssigned w == 0.
Proof.
  apply (map_get_Forall (fun w => hoursAssigned w == 0)).
  unfold initial_workload.
  assert (forall l m, Forall (fun kv => hoursAssigned (snd kv) == 0) m ->
            Forall (fun kv => hoursAssigned (snd kv) == 0)
              (fold_left (fun wl ag => map_set wl (a_id ag)
                           {| hoursAssigned := 0; shiftsAssigned := 0;
                              lastShiftEnd := None |}) l m)) as H.
  { induction l as [| ag l IH]; intros m Hm; simpl; auto.
    apply IH. apply (map_set_Forall (fun w => hoursAssigned w == 0)); auto. reflexivity. }
  apply H. constructor.
Qed.

(** X23.  Within one call of [assignAgentsToShifts], the hours given to
    an agent, counted up to and including any of the agent's assignments,
    stay within [max_hours_per_week]. *)
Lemma assigned_hours_within_limit (patterns : list Pattern) (agents : list Agent)
  (constraints : Constraints) (M : Q) :
  max_hours_per_week constraints = Some M ->
  within_limit M (assignAgentsToShifts patterns agents constraints).
Proof.
  intros HM. unfold assignAgentsToShifts.
  apply (assign_loop_within_limit _ _ M _ HM).
  - intros id w Hw. rewrite (initial_workload_zero agents id w Hw). reflexivity.
  - intros pre a post E. destruct pre; discriminate.
Qed.

(* ------------------------------------------------------------------ *)
(** ** ScheduleOptimizer: schedule metrics *)
(* ------------------------------------------------------------------ *)

Lemma nadd_assoc_eq (a b c : num) : num_eq (nadd (nadd a b) c) (nadd a (nadd b c)).
Proof. destruct a, b, c; simpl; try exact I. ring. Qed.

Lemma nadd_0_r (a : num) : num_eq (nadd a (Fin 0)) a.
Proof. destruct a; simpl; try exact I. ring. Qed.

Lemma reduce_costs (shifts : list Shift) (a : num) :
  num_eq (fold_left (fun sum shift => nadd sum (or_default (total_cost shift) (Fin 0)))
                    shifts a)
         (nadd a (sum_of_costs shifts)).
Proof.
  revert a. induction shifts as [| s shifts IH]; intros a; simpl.
  - apply num_eq_sym, nadd_0_r.
  - eapply num_eq_trans; [apply IH |]. apply nadd_assoc_eq.
Qed.

Lemma nadd_0_l (a : num) : num_eq (nadd (Fin 0) a) a.
Proof. destruct a; simpl; try exact I. ring. Qed.

(** C10.  Whatever the schedule and the saved shifts, the computed metrics
    have serviceLevel = 0.85 and coverage = 0.90, and totalCost is the sum
    over the shifts of their total_cost, a missing (or zero) one counting
    as 0.  A schedule generation that succeeds returns these metrics for
    its saved shifts and stores them in the schedule, which it marks
    'generated'. *)
Theorem schedule_metrics_are_placeholders :
  (forall (schedule : Schedule) (shifts : list Shift),
     let metrics := calculateScheduleMetrics schedule shifts in
     serviceLevel metrics = Fin (85 # 100) /\
     coverage metrics = Fin (90 # 100) /\
     num_eq (totalCost metrics) (sum_of_costs shifts))
  /\
  (forall (env : ScheduleEnv) (scheduleData : ScheduleData)
          (schedule : Schedule) (shifts : list Shift) (metrics : Metrics),
     generateOptimizedSchedule env scheduleData = inr (schedule, shifts, metrics) ->
     metrics = calculateScheduleMetrics schedule shifts /\
     service_level_achieved schedule = Some (Fin (85 # 100)) /\
     coverage_percentage schedule = Some (Fin (90 # 100)) /\
     total_labor_cost schedule = Some (totalCost metrics) /\
     sch_status schedule = sch_generated).
Proof.
  split.
  - intros schedule shifts metrics. subst metrics. unfold calculateScheduleMetrics.
    cbn [serviceLevel coverage totalCost]. repeat split.
    eapply num_eq_trans; [apply reduce_costs | apply nadd_0_l].
  - intros env scheduleData schedule shifts metrics. unfold generateOptimizedSchedule.
    destruct (Schedule_create env _ _) as [e | id] eqn:Ecreate; [discriminate |].
    destruct (found_agents env) as [e | agents]; [discriminate |].
    destruct (found_forecasts env) as [e | forecasts]; [discriminate |].
    destruct (found_time_off env) as [e | timeOffRequests]; [discriminate |].
    destruct (save_loop env _ _ _) as [e | savedShifts]; [discriminate |].
    destruct (schedule_update_fails env); [discriminate |].
    intros H. injection H as <- <- <-. repeat split.
Qed.

Lemma schedule_metrics_witness :
  exists schedule shifts metrics,
    generateOptimizedSchedule accepting_store two_days = inr (schedule, shifts, metrics) /\
    length shifts = 16%nat /\
    serviceLevel metrics = Fin (85 # 100) /\
    coverage metrics = Fin (90 # 100) /\
    service_level_achieved schedule = Some (Fin (85 # 100)) /\
    coverage_percentage schedule = Some (Fin (90 # 100)) /\
    total_labor_cost schedule = Some (totalCost metrics).
Proof.
  destruct (generateOptimizedSchedule accepting_store two_days)
    as [e | [[schedule shifts] metrics]] eqn:E.
  - vm_compute in E. discriminate E.
  - exists schedule, shifts, metrics.
    destruct schedule_metrics_are_placeholders as [Hm Hg].
    destruct (Hg _ _ _ _ _ E) as (Em & H1 & H2 & H3 & _).
    destruct (Hm schedule shifts) as (H4 & H5 & _). rewrite <- Em in H4, H5.
    repeat split; auto.
    vm_compute in E. injection E as _ <- _. reflexivity.
Defined.


(* The shift objects built by the optimizer carry no rate and no cost, so
   the labour cost of a generated schedule is always 0. *)

Lemma daily_shifts_unpriced (dateString : Z) (agents : list Agent)
  (forecasts : list Forecast) (timeOffRequests : list TimeOff)
  (constraints : Constraints) :
  Forall (fun shift => hourly_rate shift = None /\ total_cost shift = None)
         (generateDailyShifts dateString agents forecasts timeOffRequests constraints).
Proof.
  unfold generateDailyShifts.
  destruct (filter _ agents); [constructor |].
  apply Forall_forall. intros shift H. apply in_map_iff in H.
  destruct H as (asg & <- & _). split; reflexivity.
Qed.

Lemma daily_loop_unpriced (days : nat) :
  forall currentDate endMoment agents forecasts timeOffRequests constraints allShifts,
  Forall (fun shift => hourly_rate shift = None /\ total_cost shift = None) allShifts ->
  Forall (fun shift => hourly_rate shift = None /\ total_cost shift = None)
         (daily_loop days currentDate endMoment agents forecasts timeOffRequests
                     constraints allShifts).
Proof.
  induction days as [| days IH]; intros; simpl; auto.
  destruct (currentDate <=? endMoment)%Z; auto.
  apply IH. apply Forall_app. split; auto. apply daily_shifts_unpriced.
Qed.

Lemma optimizeSchedule_id (shifts : list Shift) (schedule : Schedule) :
  optimizeSchedule shifts schedule = shifts.
Proof.
  unfold optimizeSchedule, balanceWorkload, minimizeOvertime,
    optimizeForAgentPreferences, optimizeForServiceLevel.
  destruct (enabled _), (enabled _), (enabled _), (enabled _); reflexivity.
Qed.

Lemma save_loop_unpriced (env : ScheduleEnv) (id : Z) (optimizedShifts : list Shift) :
  forall savedShifts result,
  Forall (fun shift => hourly_rate shift = None /\ total_cost shift = None)
         optimizedShifts ->
  Forall (fun shift => total_cost shift = None) savedShifts ->
  save_loop env id optimizedShifts savedShifts = inr result ->
  Forall (fun shift => total_cost shift = None) result.
Proof.
  induction optimizedShifts as [| shiftData rest IH]; intros saved result Hd Hs; simpl.
  - intros [= <-]. exact Hs.
  - inversion Hd as [| ? ? [Hr Hc] Hrest]; subst.
    destruct (Shift_create env (with_schedule shiftData id)) as [e | shift] eqn:E;
      [discriminate |].
    apply IH; auto. apply Forall_app. split; auto. constructor; auto.
    unfold Shift_create in E. cbn [Shift_build with_schedule hourly_rate shift_end_time
                                   shift_start_time] in E.
    rewrite Hr in E.
    destruct (_ <=? _)%Z; [discriminate |].
    destruct (shift_create_fails env _); [discriminate |].
    injection E as <-. exact Hc.
Qed.

Lemma unpriced_costs_sum_to_zero (shifts : list Shift) :
  Forall (fun shift => total_cost shift = None) shifts ->
  num_eq (sum_of_costs shifts) (Fin 0).
Proof.
  induction 1 as [| shift shifts Hc _ IH]; simpl; [reflexivity |].
  unfold cost_or_zero. rewrite Hc. simpl.
  destruct (sum_of_costs shifts); simpl in *; try contradiction. lra.
Qed.

(** X27.  Whatever is scheduled, the total cost in the metrics of a
    successful [generateOptimizedSchedule] is 0: the shift objects carry no
    hourly rate, so no saved shift has a cost. *)
Lemma generated_total_cost_is_zero (env : ScheduleEnv) (scheduleData : ScheduleData)
  (schedule : Schedule) (shifts : list Shift) (metrics : Metrics) :
  generateOptimizedSchedule env scheduleData = inr (schedule, shifts, metrics) ->
  num_eq (totalCost metrics) (Fin 0).
Proof.
  unfold generateOptimizedSchedule.
  destruct (Schedule_create env _ _) as [e | id] eqn:Ecreate; [discriminate |].
  destruct (found_agents env) as [e | agents]; [discriminate |].
  destruct (found_forecasts env) as [e | forecasts]; [discriminate |].
  destruct (found_time_off env) as [e | timeOffRequests]; [discriminate |].
  rewrite optimizeSchedule_id.
  destruct (save_loop env _ _ _) as [e | savedShifts] eqn:Es; [discriminate |].
  destruct (schedule_update_fails env); [discriminate |].
  intros H. injection H as _ <- <-.
  apply save_loop_unpriced in Es; [| apply daily_loop_unpriced; constructor | constructor].
  unfold calculateScheduleMetrics. cbn [totalCost].
  eapply num_eq_trans; [apply reduce_costs |].
  eapply num_eq_trans; [apply nadd_0_l |].
  apply unpriced_costs_sum_to_zero. exact Es.
Qed.

(* ================================================================== *)
(** * Further properties of the code *)
(* ================================================================== *)

(* ------------------------------------------------------------------ *)
(** ** SeasonalModel: [getSeasonalFactors] *)
(* ------------------------------------------------------------------ *)

Lemma upto_In (n : nat) (z : Z) : In z (upto n) <-> (0 <= z < Z.of_nat n)%Z.
Proof.
  unfold upto. rewrite in_map_iff. split.
  - intros (k & <- & Hk). apply in_seq in Hk. lia.
  - intros H. exists (Z.to_nat z). split; [lia |]. apply in_seq. lia.
Qed.

Lemma index_finite (qs : list Q) (i : Z) :
  finite (index (map Fin qs) i) <-> (0 <= i < Z.of_nat (length qs))%Z.
Proof.
  unfold index. destruct (Z.ltb_spec i 0) as [Hneg | Hpos].
  - split; [intros [q Hq]; discriminate | lia].
  - destruct (Nat.lt_ge_cases (Z.to_nat i) (length qs)) as [Hlt | Hge].
    + rewrite (nth_indep _ NaN (Fin 0)) by (rewrite length_map; exact Hlt).
      rewrite (map_nth Fin). split; [lia | eexists; reflexivity].
    + rewrite nth_overflow by (rewrite length_map; exact Hge).
      split; [intros [q Hq]; discriminate | lia].
Qed.

Lemma index_Fin_or_NaN (qs : list Q) (i : Z) :
  index (map Fin qs) i = NaN \/ exists q, index (map Fin qs) i = Fin q.
Proof.
  unfold index. destruct (i <? 0)%Z; auto.
  destruct (Nat.lt_ge_cases (Z.to_nat i) (length qs)) as [Hlt | Hge].
  - right. rewrite (nth_indep _ NaN (Fin 0)) by (rewrite length_map; exact Hlt).
    rewrite (map_nth Fin). eexists; reflexivity.
  - left. apply nth_overflow. rewrite length_map. exact Hge.
Qed.

Lemma seasonal_table_check :
  forallb (fun d => forallb (fun h => forallb (seasonal_in_bounds d h) (upto 12))
                            (upto 24))
          (upto 7) = true.
Proof. vm_compute. reflexivity. Qed.

Lemma nmul_finite (a b : num) :
  (a = NaN \/ exists q, a = Fin q) -> (b = NaN \/ exists q, b = Fin q) ->
  (nmul a b = NaN \/ exists q, nmul a b = Fin q) /\
  (finite (nmul a b) <-> finite a /\ finite b).
Proof.
  intros [-> | [qa ->]] [-> | [qb ->]]; simpl; split;
    try (left; reflexivity); try (right; eexists; reflexivity);
    split; try (intros [q Hq]; discriminate);
    try (intros [[q Hq] [q' Hq']]; discriminate).
  - intros _. split; eexists; reflexivity.
  - intros _. eexists; reflexivity.
Qed.

(** X1.  [getSeasonalFactors]: the trend factor is always 1.02.  The
    seasonal factor is a finite number exactly when the day of the week
    (0 to 6), the hour (0 to 23) and the month (0 to 11) index their tables,
    and it then lies between 0.048 and 1.872, the products of the smallest
    and of the largest entries of the three tables.  (Outside the tables a
    lookup is undefined and the product is NaN.) *)
Theorem seasonal_factors_range (momentDate : Moment) (hour : Z) :
  let sf := getSeasonalFactors momentDate hour in
  trend sf = Fin (102 # 100) /\
  (finite (seasonal sf) <-> in_tables momentDate hour) /\
  (in_tables momentDate hour ->
   exists q, seasonal sf = Fin q /\ 48 # 1000 <= q <= 1872 # 1000).
Proof.
  intros sf. subst sf. unfold getSeasonalFactors, in_tables. cbn [seasonal trend].
  fold (seasonal_product (day momentDate) hour (month momentDate)).
  split; [reflexivity |]. split.
  - unfold seasonal_product, dayOfWeekFactors, hourFactors, monthlyFactors.
    set (ds := [6 # 10; 11 # 10; 1; 1; 12 # 10; 11 # 10; 7 # 10]).
    set (hs := [1 # 10; 1 # 10; 1 # 10; 1 # 10; 2 # 10; 3 # 10; 5 # 10; 7 # 10;
                1; 12 # 10; 11 # 10; 1; 9 # 10; 11 # 10; 12 # 10; 11 # 10;
                1; 8 # 10; 6 # 10; 4 # 10; 3 # 10; 2 # 10; 1 # 10; 1 # 10]).
    set (ms := [11 # 10; 1; 1; 1; 9 # 10; 9 # 10; 8 # 10; 8 # 10;
                1; 11 # 10; 12 # 10; 13 # 10]).
    destruct (nmul_finite _ _ (index_Fin_or_NaN ds (day momentDate))
                              (index_Fin_or_NaN hs hour)) as [Hdh Fdh].
    destruct (nmul_finite _ _ Hdh (index_Fin_or_NaN ms (month momentDate))) as [_ F].
    rewrite F, Fdh, !index_finite.
    change (Z.of_nat (length ds)) with 7%Z.
    change (Z.of_nat (length hs)) with 24%Z.
    change (Z.of_nat (length ms)) with 12%Z.
    lia.
  - intros (Hd & Hh & Hm).
    pose proof seasonal_table_check as Hall.
    rewrite forallb_forall in Hall.
    assert (In (day momentDate) (upto 7)) as H1 by (apply upto_In; simpl; lia).
    specialize (Hall _ H1). rewrite forallb_forall in Hall.
    assert (In hour (upto 24)) as H2 by (apply upto_In; simpl; lia).
    specialize (Hall _ H2). rewrite forallb_forall in Hall.
    assert (In (month momentDate) (upto 12)) as H3 by (apply upto_In; simpl; lia).
    specialize (Hall _ H3).
    unfold seasonal_in_bounds in Hall.
    destruct (seasonal_product (day momentDate) hour (month momentDate)) as [q | | |];
      try discriminate.
    apply andb_true_iff in Hall. destruct Hall as [Hlo Hhi].
    apply Qle_bool_iff in Hlo, Hhi. exists q. auto.
Qed.

(* ------------------------------------------------------------------ *)
(** ** DemandPredictor: variance and degenerate histories *)
(* ------------------------------------------------------------------ *)

Lemma lengthQ_cons {A : Type} (x : A) (l : list A) : lengthQ (x :: l) == lengthQ l + 1.
Proof.
  unfold lengthQ. cbn [length]. rewrite Nat2Z.inj_succ. unfold Z.succ.
  rewrite inject_Z_plus. reflexivity.
Qed.

Lemma sumQ_const (vs : list Q) (c : Q) :
  (forall v, In v vs -> v == c) -> sumQ vs == lengthQ vs * c.
Proof.
  induction vs as [| x vs IH]; intros H.
  - unfold lengthQ; simpl. ring.
  - cbn [sumQ fold_right]. fold (sumQ vs). rewrite lengthQ_cons.
    rewrite IH by (intros v Hv; apply H; right; exact Hv).
    rewrite (H x) by (left; reflexivity). ring.
Qed.

Lemma sumQ_map_zero (f : Q -> Q) (vs : list Q) :
  (forall v, In v vs -> f v == 0) -> sumQ (map f vs) == 0.
Proof.
  induction vs as [| x vs IH]; intros H; simpl; [reflexivity |].
  rewrite IH by (intros v Hv; apply H; right; exact Hv).
  rewrite (H x) by (left; reflexivity). ring.
Qed.

Lemma sumQ_squares_nonneg (f : Q -> Q) (vs : list Q) :
  0 <= sumQ (map (fun v => f v * f v) vs).
Proof.
  induction vs as [| x vs IH]; simpl; [lra |].
  assert (0 <= f x * f x) as H by nra. lra.
Qed.

Lemma mean_const (vs : list Q) (c : Q) :
  vs <> [] -> (forall v, In v vs -> v == c) -> mean vs == c.
Proof.
  intros Hne H. unfold mean. rewrite (sumQ_const vs c H).
  pose proof (lengthQ_pos vs Hne). field. lra.
Qed.

(** X2.  [calculateVariance] on finite numbers returns a finite,
    non-negative number; for a non-empty array it is the population
    variance, the mean of the squared deviations from the arithmetic mean
    (0 for a single value, which the code answers without dividing), and it
    is 0 when all the values are equal. *)
Theorem variance_is_population_variance (vs : list Q) :
  exists var,
    calculateVariance (map Fin vs) = Fin var /\
    0 <= var /\
    (vs <> [] -> var == population_variance vs) /\
    ((forall v w, In v vs -> In w vs -> v == w) -> var == 0).
Proof.
  destruct vs as [| x vs'].
  - exists 0. split; [reflexivity |]. split; [lra |].
    split; [congruence | intros _; reflexivity].
  - set (vs := x :: vs').
    assert (vs <> []) as Hne by (unfold vs; discriminate).
    destruct (calculateVariance_spec vs Hne) as [var [E Hvar]].
    exists var. split; [exact E |].
    pose proof (lengthQ_pos vs Hne) as Hlen.
    assert (0 <= population_variance vs) as Hpos.
    { unfold population_variance. apply Qle_shift_div_l; [exact Hlen |].
      pose proof (sumQ_squares_nonneg (fun v => v - mean vs) vs) as Hsq.
      cbv beta in Hsq. lra. }
    split; [lra |]. split; [intros _; exact Hvar |].
    intros Hc. rewrite Hvar. unfold population_variance.
    assert (mean vs == x) as Hm.
    { apply mean_const; auto. intros v Hv. apply Hc; [exact Hv | left; reflexivity]. }
    rewrite sumQ_map_zero.
    + field. lra.
    + intros v Hv. rewrite Hm, (Hc v x Hv (or_introl eq_refl)). ring.
Qed.

(** X3.  [calculatePredictedVolume] on a non-empty history whose volumes
    are all 0: the base volume is 0, the predicted volume is 0 whatever the
    factors, and the confidence and both bounds are NaN, since the
    confidence divides the variance 0 by the base volume 0. *)
Theorem zero_history_gives_nan (hd : list HistoricalDatum) (s t e w h : Q) :
  hd <> [] ->
  Forall (fun d => exists q, s_volume d = Fin q /\ q == 0) hd ->
  let out := calculatePredictedVolume hd {| seasonal := Fin s; trend := Fin t |}
               {| holidayFactor := Fin h; weather := Fin w; specialEvent := Fin e |} in
  volume out = Fin 0 /\ confidence out = NaN /\
  minVolume out = NaN /\ maxVolume out = NaN.
Proof.
  intros Hne Hz out. subst out.
  assert (Forall (fun d => finite (s_volume d)) hd) as HF.
  { eapply Forall_impl; [| exact Hz]. intros d (q & Hq & _). exists q. exact Hq. }
  assert (forall v, In v (volumes hd) -> v == 0) as Hv0.
  { intros v Hv. unfold volumes in Hv. apply in_map_iff in Hv.
    destruct Hv as (d & <- & Hd). rewrite Forall_forall in Hz.
    destruct (Hz d Hd) as (q & -> & Hq). exact Hq. }
  unfold calculatePredictedVolume.
  destruct hd as [| d0 hd0] eqn:Ehd; [congruence |]. rewrite <- Ehd in *.
  cbv beta iota zeta.
  rewrite (reduce_volumes_Fin hd 0 HF), (map_s_volume_Fin hd HF).
  assert (volumes hd <> []) as Hvne by (rewrite Ehd; discriminate).
  destruct (calculateVariance_spec (volumes hd) Hvne) as [var [-> Hvar]].
  unfold js_length. fold (lengthQ hd). rewrite <- volumes_length.
  pose proof (lengthQ_pos (volumes hd) Hvne) as Hlen.
  set (n := lengthQ (volumes hd)) in *.
  assert (~ n == 0) as Hnz by lra.
  rewrite (ndiv_Fin _ _ Hnz).
  set (b := fold_left Qplus (volumes hd) 0 / n).
  assert (b == 0) as Hb.
  { unfold b. rewrite fold_left_Qplus, (sumQ_const _ 0 Hv0). field. exact Hnz. }
  assert (var == 0) as Hvar0.
  { rewrite Hvar. unfold population_variance. rewrite sumQ_map_zero.
    - fold n. field. exact Hnz.
    - intros v Hv. rewrite (Hv0 v Hv), (mean_const _ 0 Hvne Hv0). ring. }
  assert (ndiv (Fin var) (Fin b) = NaN) as ->.
  { simpl. apply Qeq_bool_iff in Hb. rewrite Hb.
    destruct (Qcompare_spec var 0); try lra. reflexivity. }
  cbn [seasonal trend holidayFactor weather specialEvent nmul nsub nadd nround
       nfloor nceil lift_round nmax nmin ncmp].
  repeat split.
  assert (Qfloor (b * s * t * e * w * h + (1 # 2)) = 0%Z) as ->; [| reflexivity].
  assert (b * s * t * e * w * h + (1 # 2) == 1 # 2) as -> by (rewrite Hb; ring).
  reflexivity.
Qed.

(* ------------------------------------------------------------------ *)
(** ** StaffingCalculator: bounds and monotonicity *)
(* ------------------------------------------------------------------ *)

(** The two predictions for a positive number of agents. *)
Lemma predictions_for_agents (agents workload : Q) (targetSeconds : num) :
  0 < agents -> 0 <= workload ->
  let u := workload / agents in
  exists sl wt,
    predictServiceLevel (Fin agents) (Fin workload) targetSeconds = Fin sl /\
    predictAverageWaitTime (Fin agents) (Fin workload) = Fin wt /\
    0 <= u /\
    ((1 <= u /\ sl == 1 # 10 /\ wt == 300) \/
     (u < 1 /\ wt == u * 60 /\
      ((1 - u < 1 # 10 /\ sl == 1 # 10) \/
       (1 # 10 <= 1 - u <= 99 # 100 /\ sl == 1 - u) \/
       (99 # 100 < 1 - u /\ sl == 99 # 100)))).
Proof.
  intros Ha Hw u.
  assert (~ agents == 0) as Hnz by lra.
  assert (0 <= u) as Hu by (apply Qle_shift_div_l; lra).
  unfold predictServiceLevel, predictAverageWaitTime.
  rewrite (ndiv_Fin _ _ Hnz). fold u.
  destruct (nge (Fin u) (Fin 1)) eqn:E.
  - apply nge_Fin in E. exists (1 # 10), 300.
    repeat split; auto. left. repeat split; auto; reflexivity.
  - assert (u < 1) as Hu1.
    { destruct (Qlt_le_dec u 1) as [H | H]; auto. apply nge_Fin in H. congruence. }
    cbn [nsub nmul].
    destruct (nmax_Fin_cases 0 (u * 60)) as [[H1 E1] | [H1 E1]];
    destruct (nmin_Fin_cases (99 # 100) (1 - u)) as [[H2 E2] | [H2 E2]];
    rewrite E1, E2;
    match goal with
    | |- context [nmax (Fin ?a) (Fin ?b)] =>
        destruct (nmax_Fin_cases a b) as [[H3 E3] | [H3 E3]]; rewrite E3
    end;
    clearbody u;
    do 2 eexists; (split; [reflexivity |]); (split; [reflexivity |]);
    (split; [exact Hu |]); right; (split; [exact Hu1 |]); (split; [lra |]);
    destruct (Qlt_le_dec (1 - u) (1 # 10)); destruct (Qlt_le_dec (99 # 100) (1 - u));
    first [ left; split; lra | right; left; split; lra | right; right; split; lra ].
Qed.

(** X4.  For a positive number of agents and a non-negative workload,
    [predictServiceLevel] returns a number between 0.1 and 0.99 and
    [predictAverageWaitTime] returns either the overload value 300 or a
    number of seconds from 0 up to, not including, 60. *)
Theorem service_level_and_wait_bounds (agents workload : Q) (targetSeconds : num) :
  0 < agents -> 0 <= workload ->
  exists sl wt,
    predictServiceLevel (Fin agents) (Fin workload) targetSeconds = Fin sl /\
    predictAverageWaitTime (Fin agents) (Fin workload) = Fin wt /\
    1 # 10 <= sl <= 99 # 100 /\
    (wt == 300 \/ 0 <= wt < 60).
Proof.
  intros Ha Hw.
  destruct (predictions_for_agents agents workload targetSeconds Ha Hw)
    as (sl & wt & Hsl & Hwt & Hu & Hcases).
  exists sl, wt. split; [exact Hsl |]. split; [exact Hwt |].
  destruct Hcases as [(H1 & H2 & H3) | (H1 & H2 & [[H3 H4] | [[H3 H4] | [H3 H4]]])];
    split; try lra; try (left; lra); right; lra.
Qed.

Lemma utilization_antitone (a1 a2 w : Q) :
  0 < a1 -> a1 <= a2 -> 0 <= w -> w / a2 <= w / a1.
Proof.
  intros H1 H2 Hw.
  assert (0 <= w / a1) as Hu by (apply Qle_shift_div_l; lra).
  apply Qle_shift_div_r; [lra |].
  assert (w / a1 * a1 == w) as E by (field; lra).
  nra.
Qed.

(** X5.  For a non-negative workload, more agents never lower the
    predicted service level and never raise the predicted wait: both
    predictions are monotone in the (positive) number of agents. *)
Theorem more_agents_never_hurt (a1 a2 workload : Q) (targetSeconds : num) :
  0 < a1 -> a1 <= a2 -> 0 <= workload ->
  nle (predictServiceLevel (Fin a1) (Fin workload) targetSeconds)
      (predictServiceLevel (Fin a2) (Fin workload) targetSeconds) = true /\
  nle (predictAverageWaitTime (Fin a2) (Fin workload))
      (predictAverageWaitTime (Fin a1) (Fin workload)) = true.
Proof.
  intros H1 H12 Hw.
  assert (0 < a2) as H2 by lra.
  pose proof (utilization_antitone a1 a2 workload H1 H12 Hw) as Hu.
  destruct (predictions_for_agents a1 workload targetSeconds H1 Hw)
    as (s1 & w1 & -> & -> & Hu1 & C1).
  destruct (predictions_for_agents a2 workload targetSeconds H2 Hw)
    as (s2 & w2 & -> & -> & Hu2 & C2).
  split; apply nle_Fin.
  - destruct C1 as [(A1 & A2 & A3) | (A1 & A2 & [[A3 A4] | [[A3 A4] | [A3 A4]]])];
    destruct C2 as [(B1 & B2 & B3) | (B1 & B2 & [[B3 B4] | [[B3 B4] | [B3 B4]]])];
    lra.
  - destruct C1 as [(A1 & A2 & A3) | (A1 & A2 & [[A3 A4] | [[A3 A4] | [A3 A4]]])];
    destruct C2 as [(B1 & B2 & B3) | (B1 & B2 & [[B3 B4] | [[B3 B4] | [B3 B4]]])];
    lra.
Qed.

Lemma or_default_param (x : option num) (d : Q) :
  finite_opt x -> or_default x (Fin d) = Fin (param x d).
Proof.
  intros H. unfold param. destruct (or_default_Fin x d H) as [q ->]. reflexivity.
Qed.

Lemma param_at_least (x : option num) (d lo : Q) :
  finite_opt x -> at_least lo x -> lo <= d -> lo <= param x d.
Proof.
  intros F H Hd. unfold param.
  destruct (or_default_cases x d F) as [(q & E & _ & ->) | [-> _]]; simpl; auto.
Qed.

Lemma param_positive (x : option num) (d : Q) :
  finite_opt x -> at_least 0 x -> 0 < d -> 0 < param x d.
Proof.
  intros F H Hd. unfold param.
  destruct (or_default_cases x d F) as [(q & E & Hq & ->) | [-> _]]; simpl; auto.
  specialize (H q E). lra.
Qed.

Lemma param_below (x : option num) (d hi : Q) :
  finite_opt x -> below x hi -> d < hi -> param x d < hi.
Proof.
  intros F H Hd. unfold param.
  destruct (or_default_cases x d F) as [(q & E & _ & ->) | [-> _]]; simpl; auto.
Qed.

(** The counts of [calculateRequiredAgents] over the parameters the code
    uses, for a channel of finite parameters whose shrinkage is not 1. *)
Lemma staffing_values (v : Q) (channel : Channel) (skillId : option Z) :
  finite_channel channel ->
  let a := param (average_handle_time channel) 5 in
  let w := param (wrap_up_time channel) 2 in
  let t := param (service_level_target channel) (80 # 100) in
  let s := param (shrinkage_factor channel) (25 # 100) in
  let m := param (min_staffing_level channel) 1 in
  let p := param (preferred_staffing_buffer channel) (10 # 100) in
  ~ s == 1 ->
  let erlangs := v * (a + w) / 60 in
  let base := inject_Z (Qceiling (erlangs / (1 - s))) in
  let scaled := inject_Z (Qceiling (base * (1 + (t - (5 # 10)) * (5 # 10)))) in
  let out := calculateRequiredAgents (predicted v) channel skillId in
  required out = nmax (Fin m) (Fin scaled) /\
  optimal out = nceil (nmul (nmax (Fin m) (Fin scaled)) (Fin (1 + p))) /\
  minimum out = Fin m /\
  predictedServiceLevel out =
    predictServiceLevel (nmax (Fin m) (Fin scaled)) (Fin erlangs)
      (or_default (service_level_threshold channel) (Fin 20)) /\
  predictedWaitTime out =
    predictAverageWaitTime (nmax (Fin m) (Fin scaled)) (Fin erlangs).
Proof.
  intros (F1 & F2 & F3 & F4 & F5 & F6 & F7) a w t s m p Hs erlangs base scaled.
  assert (~ 1 - s == 0) as Hs' by lra.
  unfold calculateRequiredAgents, calculateServiceLevelBuffer, predicted.
  cbn [volume required optimal minimum predictedServiceLevel predictedWaitTime].
  rewrite (or_default_param _ _ F1), (or_default_param _ _ F2),
    (or_default_param _ _ F3), (or_default_param _ _ F5),
    (or_default_param _ _ F6), (or_default_param _ _ F7).
  fold a w t s m p.
  cbn [nadd nmul nsub].
  assert (~ 60 == 0) as H60 by lra.
  rewrite (ndiv_Fin _ _ H60). fold erlangs.
  rewrite (ndiv_Fin _ _ Hs'). rewrite nceil_Fin. fold base.
  cbn [nmul]. rewrite nceil_Fin. fold scaled.
  repeat split; reflexivity.
Qed.

Lemma ceiling_monotone (x y : Q) :
  x <= y -> inject_Z (Qceiling x) <= inject_Z (Qceiling y).
Proof. intros H. rewrite <- Zle_Qle. apply Qceiling_resp_le. exact H. Qed.

Lemma nmax_monotone (m x y : Q) :
  x <= y -> nle (nmax (Fin m) (Fin x)) (nmax (Fin m) (Fin y)) = true.
Proof.
  intros H.
  destruct (nmax_Fin_cases m x) as [[H1 ->] | [H1 ->]];
    destruct (nmax_Fin_cases m y) as [[H2 ->] | [H2 ->]]; apply nle_Fin; lra.
Qed.

Lemma nmax_Fin_value (m x : Q) :
  exists r, nmax (Fin m) (Fin x) = Fin r /\ m <= r /\ x <= r /\ (r == m \/ r == x).
Proof.
  destruct (nmax_Fin_cases m x) as [[H1 ->] | [H1 ->]].
  - exists x. split; [reflexivity |]. repeat split; lra.
  - exists m. split; [reflexivity |]. repeat split; lra.
Qed.

(** X6.  [calculateRequiredAgents] is monotone in the predicted volume:
    for a channel of finite parameters with non-negative handle time,
    wrap-up time, service-level target and staffing buffer and a shrinkage
    factor below 1, a larger volume never needs fewer required or optimal
    agents, and the minimum does not depend on the volume. *)
Theorem staffing_monotone_in_volume
  (v1 v2 : Q) (channel : Channel) (skillId : option Z) :
  finite_channel channel ->
  at_least 0 (average_handle_time channel) ->
  at_least 0 (wrap_up_time channel) ->
  at_least 0 (service_level_target channel) ->
  below (shrinkage_factor channel) 1 ->
  at_least 0 (preferred_staffing_buffer channel) ->
  v1 <= v2 ->
  let out1 := calculateRequiredAgents (predicted v1) channel skillId in
  let out2 := calculateRequiredAgents (predicted v2) channel skillId in
  nle (required out1) (required out2) = true /\
  nle (optimal out1) (optimal out2) = true /\
  minimum out1 = minimum out2.
Proof.
  intros F Ha Hw Ht Hs Hp Hv out1 out2.
  pose proof F as (F1 & F2 & F3 & F4 & F5 & F6 & F7).
  pose proof (param_at_least _ 5 0 F1 Ha ltac:(lra)) as Pa.
  pose proof (param_at_least _ 2 0 F2 Hw ltac:(lra)) as Pw.
  pose proof (param_at_least _ (80 # 100) 0 F3 Ht ltac:(lra)) as Pt.
  pose proof (param_below _ (25 # 100) 1 F5 Hs ltac:(lra)) as Ps.
  pose proof (param_at_least _ (10 # 100) 0 F7 Hp ltac:(lra)) as Pp.
  assert (~ param (shrinkage_factor channel) (25 # 100) == 1) as Hs1 by lra.
  destruct (staffing_values v1 channel skillId F Hs1) as (R1 & O1 & M1 & _).
  destruct (staffing_values v2 channel skillId F Hs1) as (R2 & O2 & M2 & _).
  subst out1 out2. rewrite R1, R2, O1, O2, M1, M2.
  set (a := param (average_handle_time channel) 5) in *.
  set (w := param (wrap_up_time channel) 2) in *.
  set (t := param (service_level_target channel) (80 # 100)) in *.
  set (s := param (shrinkage_factor channel) (25 # 100)) in *.
  set (m := param (min_staffing_level channel) 1) in *.
  set (p := param (preferred_staffing_buffer channel) (10 # 100)) in *.
  set (b1 := inject_Z (Qceiling (v1 * (a + w) / 60 / (1 - s)))).
  set (b2 := inject_Z (Qceiling (v2 * (a + w) / 60 / (1 - s)))).
  set (buf := 1 + (t - (5 # 10)) * (5 # 10)).
  assert (0 <= buf) as Hbuf by (unfold buf; lra).
  assert (b1 <= b2) as Hb.
  { apply ceiling_monotone.
    assert (0 < / (1 - s)) as Hinv by (apply Qinv_lt_0_compat; lra).
    assert (forall X, X / 60 / (1 - s) == X * ((1 # 60) * / (1 - s))) as Hd
      by (intros X; field; lra).
    rewrite !Hd.
    assert (0 <= (1 # 60) * / (1 - s)) as Hk by nra.
    assert (v1 * (a + w) <= v2 * (a + w)) as Hx by nra.
    apply Qmult_le_compat_r; assumption. }
  assert (inject_Z (Qceiling (b1 * buf)) <= inject_Z (Qceiling (b2 * buf))) as Hc.
  { apply ceiling_monotone. nra. }
  split; [apply nmax_monotone; exact Hc |]. split; [| reflexivity].
  destruct (nmax_Fin_value m (inject_Z (Qceiling (b1 * buf)))) as (r1 & E1 & _).
  destruct (nmax_Fin_value m (inject_Z (Qceiling (b2 * buf)))) as (r2 & E2 & _).
  pose proof (nmax_monotone m _ _ Hc) as Hr. rewrite E1, E2 in *.
  apply nle_Fin in Hr. cbn [nmul]. rewrite !nceil_Fin. apply nle_Fin.
  apply ceiling_monotone. nra.
Qed.

(** X7.  The staffing that [calculateRequiredAgents] returns is never
    predicted as overloaded: for a non-negative volume and a channel of
    finite parameters with non-negative handle and wrap-up times, a
    service-level target of at least 0.5, a non-negative minimum staffing
    level and a shrinkage factor s in [0, 1) (0 is read as the default
    0.25, so the s used is positive), the predicted wait is at most
    60 * (1 - s) seconds and the predicted service level is at least
    0.1 and at least s (when s <= 0.99). *)
Theorem required_staffing_is_not_overloaded
  (v : Q) (channel : Channel) (skillId : option Z) :
  finite_channel channel ->
  0 <= v ->
  at_least 0 (average_handle_time channel) ->
  at_least 0 (wrap_up_time channel) ->
  at_least (5 # 10) (service_level_target channel) ->
  at_least 0 (shrinkage_factor channel) ->
  below (shrinkage_factor channel) 1 ->
  at_least 0 (min_staffing_level channel) ->
  let out := calculateRequiredAgents (predicted v) channel skillId in
  let s := param (shrinkage_factor channel) (25 # 100) in
  exists sl wt,
    predictedServiceLevel out = Fin sl /\ predictedWaitTime out = Fin wt /\
    0 < s < 1 /\
    0 <= wt <= 60 * (1 - s) /\
    1 # 10 <= sl <= 99 # 100 /\ (s <= 99 # 100 -> s <= sl).
Proof.
  intros F Hv Ha Hw Ht Hs0 Hs1 Hm out s.
  pose proof F as (F1 & F2 & F3 & F4 & F5 & F6 & F7).
  pose proof (param_at_least _ 5 0 F1 Ha ltac:(lra)) as Pa.
  pose proof (param_at_least _ 2 0 F2 Hw ltac:(lra)) as Pw.
  pose proof (param_at_least _ (80 # 100) (5 # 10) F3 Ht ltac:(lra)) as Pt.
  pose proof (param_below _ (25 # 100) 1 F5 Hs1 ltac:(lra)) as Ps.
  pose proof (param_positive _ (25 # 100) F5 Hs0 ltac:(lra)) as Ps0.
  pose proof (param_positive _ 1 F6 Hm ltac:(lra)) as Pm.
  fold s in Ps, Ps0.
  assert (~ s == 1) as Hne by lra.
  destruct (staffing_values v channel skillId F Hne) as (_ & _ & _ & S & W).
  subst out. rewrite S, W. fold s.
  set (a := param (average_handle_time channel) 5) in *.
  set (w := param (wrap_up_time channel) 2) in *.
  set (t := param (service_level_target channel) (80 # 100)) in *.
  set (m := param (min_staffing_level channel) 1) in *.
  set (erl := v * (a + w) / 60).
  set (base := inject_Z (Qceiling (erl / (1 - s)))).
  set (buf := 1 + (t - (5 # 10)) * (5 # 10)).
  set (scaled := inject_Z (Qceiling (base * buf))).
  assert (0 <= erl) as Herl.
  { unfold erl. apply Qle_shift_div_l; [lra | nra]. }
  assert (erl / (1 - s) <= base) as Hbase by apply Qle_ceiling.
  assert (base * buf <= scaled) as Hscaled by apply Qle_ceiling.
  assert (0 <= erl / (1 - s)) as Hadj by (apply Qle_shift_div_l; lra).
  assert (erl / (1 - s) * (1 - s) == erl) as Hmul by (field; lra).
  assert (1 <= buf) as Hbuf by (unfold buf; lra).
  destruct (nmax_Fin_value m scaled) as (r & -> & Hr1 & Hr2 & _).
  assert (0 < r) as Hr by lra.
  assert (0 <= base * (buf - 1)) as Hgrow by (apply Qmult_le_0_compat; lra).
  assert (erl / (1 - s) <= r) as Hle by lra.
  assert (erl / (1 - s) * (1 - s) <= r * (1 - s)) as Hcap'
    by (apply Qmult_le_compat_r; lra).
  assert (erl <= r * (1 - s)) as Hcap by lra.
  destruct (predictions_for_agents r erl
              (or_default (service_level_threshold channel) (Fin 20)) Hr Herl)
    as (sl & wt & -> & -> & Hu & Hcases).
  assert (erl / r <= 1 - s) as Hutil by (apply Qle_shift_div_r; lra).
  exists sl, wt. split; [reflexivity |]. split; [reflexivity |].
  split; [lra |].
  destruct Hcases as [(A1 & A2 & A3) | (A1 & A2 & [[A3 A4] | [[A3 A4] | [A3 A4]]])];
    repeat split; try lra; intros; lra.
Qed.

(* ------------------------------------------------------------------ *)
(** ** ForecastEngine: what a batch writes *)
(* ------------------------------------------------------------------ *)

Lemma hourly_loop_appends (env : Env) (channel : Channel) (cid : Z) (d : Moment)
  (skill : option Z) (hours : list Z) :
  forall (table acc : list Forecast),
  exists new,
    snd (hourly_loop env channel cid d skill hours table acc) = table ++ new /\
    Forall (fun f => written_for (ymd d) f /\
                     In (forecast_hour f) hours /\
                     isOperatingHour (forecast_hour f) channel = true) new.
Proof.
  induction hours as [| hour rest IH]; intros table acc; simpl.
  - exists []. rewrite app_nil_r. auto.
  - destruct (isOperatingHour hour channel) eqn:Eop; simpl.
    + destruct (Forecast_create env table _) as [e | [row table']] eqn:Ec.
      * exists []. rewrite app_nil_r. auto.
      * apply Forecast_create_inr in Ec. destruct Ec as (Er & Et & _ & _).
        destruct (IH table' (acc ++ [row])) as (new & Hs & Hn).
        exists (row :: new). split.
        -- rewrite Hs, Et, <- app_assoc. reflexivity.
        -- constructor.
           ++ rewrite Er. unfold written_for. simpl. auto 10.
           ++ eapply Forall_impl; [| exact Hn]. simpl. intros f (? & ? & ?). auto.
    + destruct (IH table acc) as (new & Hs & Hn). exists new. split; auto.
      eapply Forall_impl; [| exact Hn]. simpl. intros f (? & ? & ?). auto.
Qed.

Lemma generate_appends (env : Env) (st : Storage) (cid : Z) (d : Moment)
  (skill : option Z) :
  let st' := snd (generateHourlyForecasts env st cid d skill) in
  channel_table st' = channel_table st /\
  exists new,
    forecast_table st' = forecast_table st ++ new /\
    Forall (fun f => written_for (ymd d) f /\
                     exists channel,
                       findByPk (channel_table st) cid = Some channel /\
                       isOperatingHour (forecast_hour f) channel = true) new.
Proof.
  unfold generateHourlyForecasts.
  destruct (findByPk (channel_table st) cid) as [channel |]; cbn [snd].
  - destruct (hourly_loop_appends env channel cid d skill hours_of_day
                (forecast_table st) []) as (new & Hs & Hn).
    generalize dependent hours_of_day. intros hours Hs Hn.
    destruct (hourly_loop env channel cid d skill hours (forecast_table st) [])
      as [outcome table]. cbn [snd] in *. cbn [channel_table forecast_table].
    split; [reflexivity |]. exists new. split; [exact Hs |].
    eapply Forall_impl; [| exact Hn]. cbv beta. intros f (H1 & _ & H3).
    split; [exact H1 |]. exists channel. auto.
  - split; [reflexivity |]. exists []. rewrite app_nil_r. auto.
Qed.

Lemma written_rows_unobserved (date : Z) (new : list Forecast) :
  Forall (written_for date) new ->
  Forall (fun f => actual_volume f = None) new.
Proof. apply Forall_impl. unfold written_for. tauto. Qed.

(** X8.  [generateHourlyForecasts] never changes what
    [getHistoricalData] answers, for any channel, hour and skill, whether
    the batch returns or fails: the rows it writes carry no observed
    volume, which the history query requires; the channel table is left
    as it was. *)
Theorem generation_leaves_history_untouched (env : Env) (st : Storage) (cid : Z)
  (d : Moment) (skill : option Z) (channelId hour : Z) (skillId : option Z) :
  let st' := snd (generateHourlyForecasts env st cid d skill) in
  channel_table st' = channel_table st /\
  getHistoricalData env (forecast_table st') channelId hour skillId
  = getHistoricalData env (forecast_table st) channelId hour skillId.
Proof.
  destruct (generate_appends env st cid d skill) as (Hc & new & Ht & Hn).
  cbv zeta. split; [exact Hc |].
  apply getHistoricalData_observed. rewrite Ht.
  apply observed_app. apply (written_rows_unobserved (ymd d)).
  eapply Forall_impl; [| exact Hn]. cbv beta. tauto.
Qed.

Lemma hours_of_day_In (h : Z) : In h hours_of_day <-> (0 <= h < 24)%Z.
Proof.
  unfold hours_of_day. rewrite in_map_iff. split.
  - intros (k & <- & Hk). apply in_seq in Hk. lia.
  - intros H. exists (Z.to_nat h). split; [lia |]. apply in_seq. lia.
Qed.

Lemma filter_StronglySorted {A : Type} (R : A -> A -> Prop) (p : A -> bool) (l : list A) :
  StronglySorted R l -> StronglySorted R (filter p l).
Proof.
  induction 1 as [| x l Hs IH Hx]; simpl; [constructor |].
  destruct (p x); auto. constructor; auto.
  apply Forall_forall. intros y Hy. apply filter_In in Hy.
  rewrite Forall_forall in Hx. apply Hx. tauto.
Qed.

Lemma upto_sorted (a n : nat) : StronglySorted Z.lt (map Z.of_nat (seq a n)).
Proof.
  revert a. induction n as [| n IH]; intros a; simpl; constructor; auto.
  apply Forall_forall. intros y Hy. apply in_map_iff in Hy.
  destruct Hy as (k & <- & Hk). apply in_seq in Hk. lia.
Qed.

Lemma operating_hours_spec (channel : Channel) :
  StronglySorted Z.lt (operating_hours channel hours_of_day) /\
  (forall h, In h (operating_hours channel hours_of_day) <->
             (0 <= h < 24 /\ hour_of (operating_hours_start channel) <= h
                                < hour_of (operating_hours_end channel))%Z).
Proof.
  unfold operating_hours. split.
  - apply filter_StronglySorted. exact (upto_sorted 0 24).
  - intros h. rewrite filter_In, hours_of_day_In. unfold isOperatingHour.
    rewrite andb_true_iff, Z.leb_le, Z.ltb_lt. tauto.
Qed.

(** X9.  The forecasts returned by [generateHourlyForecasts] for an
    existing channel are one per hour h with 0 <= h < 24 and
    startHour <= h < endHour, in ascending order and without repetition,
    where the two bounds are the hour parts of the channel's operating
    hours; a channel whose end hour is not after its start hour (such as
    one open overnight) gets the empty list and nothing is written. *)
Theorem forecast_hours_of_a_batch (env : Env) (st : Storage) (cid : Z) (d : Moment)
  (skill : option Z) (channel : Channel) (forecasts : list Forecast) :
  findByPk (channel_table st) cid = Some channel ->
  fst (generateHourlyForecasts env st cid d skill) = inr forecasts ->
  let startHour := hour_of (operating_hours_start channel) in
  let endHour := hour_of (operating_hours_end channel) in
  StronglySorted Z.lt (map forecast_hour forecasts) /\
  (forall h, In h (map forecast_hour forecasts) <->
             (0 <= h < 24 /\ startHour <= h < endHour)%Z) /\
  ((endHour <= startHour)%Z ->
   generateHourlyForecasts env st cid d skill = (inr [], st)).
Proof.
  intros Hch. unfold generateHourlyForecasts. rewrite Hch.
  pose proof (hourly_loop_spec env channel cid d skill hours_of_day (forecast_table st) [])
    as H.
  destruct (operating_hours_spec channel) as [Hsorted Hmem].
  generalize dependent hours_of_day. intros hours H Hsorted Hmem.
  destruct (hourly_loop env channel cid d skill hours (forecast_table st) [])
    as [[e | fs] table]; cbn [fst]; intros Hok; [discriminate |].
  injection Hok as ->.
  destruct H as (new & Hf & Ht & Hh & _). cbn [app] in Hf. subst new.
  rewrite Hh. split; [exact Hsorted |]. split; [exact Hmem |].
  intros Hempty.
  assert (forecasts = []) as ->.
  { destruct forecasts as [| f fs]; auto. exfalso.
    assert (In (forecast_hour f) (map forecast_hour (f :: fs))) as Hin by (left; auto).
    rewrite Hh in Hin. apply Hmem in Hin. lia. }
  rewrite app_nil_r in Ht. subst table. destruct st; reflexivity.
Qed.

(* ------------------------------------------------------------------ *)
(** ** ForecastEngine: the periodic refresh *)
(* ------------------------------------------------------------------ *)

Lemma refresh_loop_appends (env : Env) (todayDate tomorrowDate : Moment)
  (channels : list Channel) :
  forall st,
  let st' := snd (refresh_loop env channels todayDate tomorrowDate st) in
  channel_table st' = channel_table st /\
  exists new,
    forecast_table st' = forecast_table st ++ new /\
    Forall (fun f =>
              (written_for (ymd todayDate) f \/ written_for (ymd tomorrowDate) f) /\
              exists active channel,
                In active channels /\
                findByPk (channel_table st) (channel_id active) = Some channel /\
                isOperatingHour (forecast_hour f) channel = true) new.
Proof.
  induction channels as [| channel rest IH]; intros st; simpl.
  - split; [reflexivity |]. exists []. rewrite app_nil_r. auto.
  - destruct (generate_appends env st (channel_id channel) todayDate None)
      as (C1 & new1 & T1 & N1).
    assert (Forall (fun f =>
              (written_for (ymd todayDate) f \/ written_for (ymd tomorrowDate) f) /\
              exists active found,
                (channel = active \/ In active rest) /\
                findByPk (channel_table st) (channel_id active) = Some found /\
                isOperatingHour (forecast_hour f) found = true) new1) as N1'.
    { eapply Forall_impl; [| exact N1]. cbv beta. intros f (Hw & found & Hf & Hop).
      split; [left; exact Hw |]. exists channel, found. auto. }
    destruct (generateHourlyForecasts env st (channel_id channel) todayDate None)
      as [[e1 | fs1] st1]; cbn [snd] in *.
    + split; [exact C1 |]. exists new1. split; [exact T1 | exact N1'].
    + destruct (generate_appends env st1 (channel_id channel) tomorrowDate None)
        as (C2 & new2 & T2 & N2).
      assert (Forall (fun f =>
                (written_for (ymd todayDate) f \/ written_for (ymd tomorrowDate) f) /\
                exists active found,
                  (channel = active \/ In active rest) /\
                  findByPk (channel_table st) (channel_id active) = Some found /\
                  isOperatingHour (forecast_hour f) found = true) new2) as N2'.
      { eapply Forall_impl; [| exact N2]. cbv beta. intros f (Hw & found & Hf & Hop).
        split; [right; exact Hw |]. exists channel, found. rewrite <- C1. auto. }
      destruct (generateHourlyForecasts env st1 (channel_id channel) tomorrowDate None)
        as [[e2 | fs2] st2]; cbn [snd] in *.
      * split; [congruence |]. exists (new1 ++ new2).
        split; [rewrite T2, T1, app_assoc; reflexivity |].
        apply Forall_app. split; assumption.
      * destruct (IH st2) as (C3 & new3 & T3 & N3).
        split; [congruence |]. exists (new1 ++ new2 ++ new3).
        split; [rewrite T3, T2, T1, !app_assoc; reflexivity |].
        apply Forall_app. split; [exact N1' | apply Forall_app; split; [exact N2' |]].
        eapply Forall_impl; [| exact N3]. cbv beta.
        intros f (Hw & active & found & Hin & Hf & Hop).
        split; [exact Hw |]. exists active, found.
        split; [right; exact Hin |]. split; [| exact Hop].
        rewrite <- C1, <- C2. exact Hf.
Qed.

(** X11.  [updateHourlyForecasts] only appends: the forecast table
    afterwards is the table before followed by new rows, each for today or
    tomorrow and for an operating hour of one of the active channels (the
    channel found under its id), with status 'generated', no observed
    volume and neither channel nor skill key ([Forecast.create] drops the
    [channel_id] it is given); no existing row is changed or removed, the
    channel table is untouched and the observed rows (the history) are the
    same.  This holds also when the channel query or a batch fails, the
    failure being caught. *)
Theorem refresh_only_appends_generated_rows (env : Env) (active : Error + list Channel)
  (todayDate tomorrowDate : Moment) (st : Storage) :
  let st' := updateHourlyForecasts env active todayDate tomorrowDate st in
  channel_table st' = channel_table st /\
  (exists new,
     forecast_table st' = forecast_table st ++ new /\
     Forall (fun f =>
               (written_for (ymd todayDate) f \/ written_for (ymd tomorrowDate) f) /\
               exists channels activeChannel channel,
                 active = inr channels /\ In activeChannel channels /\
                 findByPk (channel_table st) (channel_id activeChannel) = Some channel /\
                 isOperatingHour (forecast_hour f) channel = true) new) /\
  observed (forecast_table st') = observed (forecast_table st).
Proof.
  unfold updateHourlyForecasts. destruct active as [e | channels].
  - split; [reflexivity |]. split; [| reflexivity].
    exists []. rewrite app_nil_r. auto.
  - destruct (refresh_loop_appends env todayDate tomorrowDate channels st)
      as (Hc & new & Ht & Hn).
    split; [exact Hc |]. split.
    + exists new. split; [exact Ht |].
      eapply Forall_impl; [| exact Hn]. cbv beta.
      intros f (Hw & a & c & Hin & Hf & Hop). split; [exact Hw |].
      exists channels, a, c. auto.
    + rewrite Ht. apply observed_app.
      eapply Forall_impl; [| exact Hn]. cbv beta. intros f ([Hf | Hf] & _);
        unfold written_for in Hf; tauto.
Qed.

(* ------------------------------------------------------------------ *)
(** ** The Forecast model: hooks and instance methods *)
(* ------------------------------------------------------------------ *)

(** X12.  The [beforeValidate] hook of the Forecast model is idempotent:
    validating a row a second time (as a later [save()] does) changes
    nothing. *)
Theorem beforeValidate_idempotent (forecast : Forecast) :
  beforeValidate (beforeValidate forecast) = beforeValidate forecast.
Proof.
  destruct forecast as [cid sk fd fh pv cl mn mx ra oa ma psl pw sf tf sef wf ef stt av].
  unfold beforeValidate. cbn -[truthy nmax nfloor nceil nmul].
  f_equal.
  - destruct (truthy cl) eqn:E; cbn -[truthy]; [rewrite E |]; reflexivity.
  - destruct (truthy pv && negb (truthy mn))%bool eqn:E; [| rewrite E; reflexivity].
    destruct (truthy pv && negb (truthy (nmax (Fin 0) (nfloor (nmul pv (Fin (7 # 10)))))))%bool;
      reflexivity.
  - destruct (truthy pv && negb (truthy mx))%bool eqn:E; [| rewrite E; reflexivity].
    destruct (truthy pv && negb (truthy (nceil (nmul pv (Fin (13 # 10))))))%bool;
      reflexivity.
Qed.

Lemma truthy_Fin (q : Q) : truthy (Fin q) = true <-> ~ q == 0.
Proof.
  simpl. rewrite negb_true_iff. apply Qeq_bool_false_iff.
Qed.

Lemma truthy_Fin_false (q : Q) : truthy (Fin q) = false <-> q == 0.
Proof.
  simpl. rewrite negb_false_iff. apply Qeq_bool_iff.
Qed.

Lemma filled_min (b : Q) :
  0 < b ->
  exists a, nmax (Fin 0) (nfloor (nmul (Fin b) (Fin (7 # 10)))) = Fin a /\ 0 <= a <= b.
Proof.
  intros Hb. cbn [nmul nfloor lift_round].
  pose proof (Qfloor_le (b * (7 # 10))) as Hf.
  destruct (nmax_Fin_cases 0 (inject_Z (Qfloor (b * (7 # 10))))) as [[H ->] | [H ->]];
    eexists; (split; [reflexivity |]); lra.
Qed.

Lemma filled_max (b : Q) :
  0 < b ->
  exists c, nceil (nmul (Fin b) (Fin (13 # 10))) = Fin c /\ b <= c.
Proof.
  intros Hb. cbn [nmul nceil lift_round].
  pose proof (Qle_ceiling (b * (13 # 10))) as Hc.
  eexists. split; [reflexivity |]. lra.
Qed.

(** X13.  For a row with a positive predicted volume whose bounds are
    each either missing (0, NaN) or in order around the prediction, the
    [beforeValidate] hook leaves the prediction and the bounds that were
    given unchanged and fills the missing ones so that
    0 <= min_volume <= predicted_volume <= max_volume. *)
Theorem hook_fills_missing_bounds (forecast : Forecast) (b : Q) :
  predicted_volume forecast = Fin b -> 0 < b ->
  (truthy (min_volume forecast) = false \/
   exists a, min_volume forecast = Fin a /\ 0 <= a <= b) ->
  (truthy (max_volume forecast) = false \/
   exists c, max_volume forecast = Fin c /\ b <= c) ->
  ordered_bounds (beforeValidate forecast) /\
  predicted_volume (beforeValidate forecast) = Fin b /\
  (truthy (min_volume forecast) = true ->
   min_volume (beforeValidate forecast) = min_volume forecast) /\
  (truthy (max_volume forecast) = true ->
   max_volume (beforeValidate forecast) = max_volume forecast).
Proof.
  intros Hpv Hb Hmin Hmax.
  assert (truthy (Fin b) = true) as Tb by (apply truthy_Fin; lra).
  unfold ordered_bounds, beforeValidate. cbn [min_volume predicted_volume max_volume].
  rewrite Hpv, Tb. cbn [andb].
  assert (exists a, (if negb (truthy (min_volume forecast))
                     then nmax (Fin 0) (nfloor (nmul (Fin b) (Fin (7 # 10))))
                     else min_volume forecast) = Fin a /\ 0 <= a <= b) as (a & Ea & Ha).
  { destruct (truthy (min_volume forecast)) eqn:E; cbn [negb].
    - destruct Hmin as [Hmin | Hmin]; [discriminate | exact Hmin].
    - apply filled_min. exact Hb. }
  assert (exists c, (if negb (truthy (max_volume forecast))
                     then nceil (nmul (Fin b) (Fin (13 # 10)))
                     else max_volume forecast) = Fin c /\ b <= c) as (c & Ec & Hc).
  { destruct (truthy (max_volume forecast)) eqn:E; cbn [negb].
    - destruct Hmax as [Hmax | Hmax]; [discriminate | exact Hmax].
    - apply filled_max. exact Hb. }
  split; [| split; [reflexivity | split; intros ->; reflexivity]].
  exists a, b, c. rewrite Ea, Ec. repeat split; auto; lra.
Qed.

(** The hook keeps bounds that are in order. *)
Lemma beforeValidate_keeps_order (forecast : Forecast) :
  ordered_bounds forecast -> ordered_bounds (beforeValidate forecast).
Proof.
  intros (a & b & c & Ea & Eb & Ec & H0 & H1 & H2).
  unfold ordered_bounds, beforeValidate. cbn [min_volume predicted_volume max_volume].
  rewrite Ea, Eb, Ec.
  destruct (truthy (Fin b)) eqn:Tb; cbn [andb].
  - apply truthy_Fin in Tb. assert (0 < b) as Hb by lra.
    assert (truthy (Fin c) = true) as -> by (apply truthy_Fin; lra). cbn [negb].
    destruct (truthy (Fin a)) eqn:Ta; cbn [negb].
    + exists a, b, c. repeat split; auto.
    + destruct (filled_min b Hb) as (a' & -> & Ha'). exists a', b, c.
      repeat split; auto; lra.
  - exists a, b, c. repeat split; auto.
Qed.

Lemma round_monotone (x y : Q) :
  x <= y -> inject_Z (Qfloor (x + (1 # 2))) <= inject_Z (Qfloor (y + (1 # 2))).
Proof. intros H. rewrite <- Zle_Qle. apply Qfloor_resp_le. lra. Qed.

Lemma round_nonneg (x : Q) : 0 <= x -> 0 <= inject_Z (Qfloor (x + (1 # 2))).
Proof.
  intros H. change 0 with (inject_Z 0). rewrite <- Zle_Qle.
  change 0%Z with (Qfloor 0). apply Qfloor_resp_le. lra.
Qed.

(** X16.  [adjustForSpecialEvent] with a non-negative factor, on a row
    with 0 <= min_volume <= predicted_volume <= max_volume, keeps that
    order, also after the [beforeValidate] hook of the [save()] that
    follows; the row then carries the factor, the override flag and the
    reason. *)
Theorem adjusted_row_keeps_ordered_bounds (forecast : Forecast) (factor : Q)
  (reason : String.string) :
  ordered_bounds forecast -> 0 <= factor ->
  let adjusted := adjustForSpecialEvent forecast (Fin factor) reason in
  let saved := beforeValidate (fst adjusted) in
  ordered_bounds (fst adjusted) /\ ordered_bounds saved /\
  special_event_factor saved = Fin factor /\
  snd adjusted = (true, reason).
Proof.
  intros (a & b & c & Ea & Eb & Ec & H0 & H1 & H2) Hk adjusted saved.
  assert (ordered_bounds (fst adjusted)) as Hord.
  { unfold ordered_bounds, adjusted, adjustForSpecialEvent.
    cbn [fst min_volume predicted_volume max_volume]. rewrite Ea, Eb, Ec.
    cbn [nmul nround lift_round].
    do 3 eexists. repeat split; try reflexivity.
    - apply round_nonneg. nra.
    - apply round_monotone. nra.
    - apply round_monotone. nra. }
  split; [exact Hord |]. split; [apply beforeValidate_keeps_order; exact Hord |].
  split; reflexivity.
Qed.

Lemma nabs_Fin (q : Q) :
  exists e, nabs (Fin q) = Fin e /\ 0 <= e /\ ((0 <= q /\ e == q) \/ (q < 0 /\ e == - q)).
Proof.
  unfold nabs, Qltb. destruct (Qcompare_spec q 0) as [H | H | H];
    eexists; (split; [reflexivity |]); split; lra.
Qed.

(** The accuracy columns and the error percentage of a row whose observed
    and predicted volumes are positive. *)
Lemma error_measures (forecast : Forecast) (a p : Q) :
  actual_volume forecast = Some (Fin a) -> predicted_volume forecast = Fin p ->
  0 < a -> 0 < p ->
  exists acc err pct,
    beforeUpdate forecast =
      Some {| forecast_accuracy := Fin acc; mean_absolute_error := Fin err;
              mean_squared_error := Fin (err * err) |} /\
    getErrorPercentage forecast = Some (Fin pct) /\
    ((p <= a /\ err == a - p /\ acc == p / a) \/
     (a < p /\ err == p - a /\ acc == a / p)) /\
    pct == err / a * 100.
Proof.
  intros Ea Ep Ha Hp.
  assert (truthy (Fin a) = true) as Ta by (apply truthy_Fin; lra).
  assert (truthy (Fin p) = true) as Tp by (apply truthy_Fin; lra).
  unfold beforeUpdate, getErrorPercentage. rewrite Ea, Ep, Ta, Tp. cbn [andb nsub].
  destruct (nabs_Fin (a - p)) as (e & -> & He & Hcase).
  assert (~ a == 0) as Hna by lra. assert (~ p == 0) as Hnp by lra.
  rewrite (ndiv_Fin _ _ Hna).
  destruct (nmax_Fin_cases a p) as [[Hlt ->] | [Hle ->]].
  - rewrite (ndiv_Fin _ _ Hnp). cbn [nsub nmul].
    do 3 eexists. split; [reflexivity |]. split; [reflexivity |].
    split; [| reflexivity]. right. split; [exact Hlt |].
    assert (e == p - a) as Ee by lra. split; [exact Ee |].
    rewrite Ee. field. exact Hnp.
  - rewrite (ndiv_Fin _ _ Hna). cbn [nsub nmul].
    do 3 eexists. split; [reflexivity |]. split; [reflexivity |].
    split; [| reflexivity]. left. split; [exact Hle |].
    assert (e == a - p) as Ee by lra. split; [exact Ee |].
    rewrite Ee. field. exact Hna.
Qed.

Lemma ratio_bounds (x y : Q) : 0 < x -> x <= y -> 0 < x / y <= 1.
Proof.
  intros Hx Hxy. split.
  - apply Qlt_shift_div_l; lra.
  - apply Qle_shift_div_r; lra.
Qed.

(** X14.  The [beforeUpdate] hook on a row with positive observed and
    predicted volumes a and p: the absolute error is |a - p|, the squared
    error its square, and the accuracy is the smaller of a and p divided by
    the larger, a number in (0, 1] that is 1 exactly when a = p. *)
Theorem accuracy_is_smaller_over_larger (forecast : Forecast) (a p : Q) :
  actual_volume forecast = Some (Fin a) -> predicted_volume forecast = Fin p ->
  0 < a -> 0 < p ->
  exists acc err,
    beforeUpdate forecast =
      Some {| forecast_accuracy := Fin acc; mean_absolute_error := Fin err;
              mean_squared_error := Fin (err * err) |} /\
    0 <= err /\ (err == a - p \/ err == p - a) /\
    0 < acc <= 1 /\
    (p <= a -> acc == p / a) /\ (a <= p -> acc == a / p) /\
    (acc == 1 <-> a == p).
Proof.
  intros Ea Ep Ha Hp.
  destruct (error_measures forecast a p Ea Ep Ha Hp)
    as (acc & err & pct & Hu & _ & Hcase & _).
  exists acc, err. split; [exact Hu |].
  destruct Hcase as [(Hle & Ee & Eacc) | (Hlt & Ee & Eacc)].
  - pose proof (ratio_bounds p a Hp Hle) as Hr.
    assert (p / a * a == p) as Hm by (field; lra).
    split; [lra |]. split; [left; exact Ee |]. split; [rewrite Eacc; exact Hr |].
    split; [intros _; exact Eacc |]. split.
    + intros Hge. assert (a == p) as Heq by lra. rewrite Eacc, Heq. reflexivity.
    + rewrite Eacc. split; intros H.
      * rewrite H in Hm. lra.
      * rewrite H. field. lra.
  - pose proof (ratio_bounds a p Ha ltac:(lra)) as Hr.
    assert (a / p * p == a) as Hm by (field; lra).
    split; [lra |]. split; [right; exact Ee |]. split; [rewrite Eacc; exact Hr |].
    split; [intros Hge; lra |]. split; [intros _; exact Eacc |].
    rewrite Eacc. split; intros H.
    + rewrite H in Hm. lra.
    + lra.
Qed.

(** X15.  [getErrorPercentage] against the accuracy set by
    [beforeUpdate], for positive observed and predicted volumes a and p:
    the error percentage is at least 100 * (1 - accuracy), with equality
    when the forecast was not above the observation (p <= a) and strictly
    more when it was (the percentage divides by a, the accuracy by the
    larger of the two). *)
Theorem error_percentage_and_accuracy (forecast : Forecast) (a p : Q) :
  actual_volume forecast = Some (Fin a) -> predicted_volume forecast = Fin p ->
  0 < a -> 0 < p ->
  exists pct acc,
    getErrorPercentage forecast = Some (Fin pct) /\
    option_map forecast_accuracy (beforeUpdate forecast) = Some (Fin acc) /\
    100 * (1 - acc) <= pct /\
    (p <= a -> pct == 100 * (1 - acc)) /\
    (a < p -> 100 * (1 - acc) < pct).
Proof.
  intros Ea Ep Ha Hp.
  destruct (error_measures forecast a p Ea Ep Ha Hp)
    as (acc & err & pct & Hu & Hg & Hcase & Hpct).
  exists pct, acc. split; [exact Hg |]. rewrite Hu. split; [reflexivity |].
  destruct Hcase as [(Hle & Ee & Eacc) | (Hlt & Ee & Eacc)].
  - assert (pct == 100 * (1 - acc)) as Heq.
    { rewrite Hpct, Eacc, Ee. field. lra. }
    split; [lra |]. split; [intros _; exact Heq | intros; lra].
  - assert (100 * (1 - acc) == (p - a) / p * 100) as E1.
    { rewrite Eacc. field. lra. }
    assert (pct == (p - a) / a * 100) as E2 by (rewrite Hpct, Ee; reflexivity).
    assert ((p - a) / p < (p - a) / a) as Hlt2.
    { apply Qlt_shift_div_l; [lra |].
      assert ((p - a) / p * a == (p - a) * (a / p)) as E3 by (field; lra).
      assert (a / p < 1) as Hr by (apply Qlt_shift_div_r; lra).
      assert (0 < a / p) as Hr0 by (apply Qlt_shift_div_l; lra).
      rewrite E3. nra. }
    split; [lra |]. split; [intros; lra | intros _; lra].
Qed.

(* ------------------------------------------------------------------ *)
(** ** [Array.prototype.sort] with a comparator *)
(* ------------------------------------------------------------------ *)

Lemma insert_stable_perm {A : Type} (after : A -> A -> bool) (x : A) (l : list A) :
  Permutation (insert_stable after x l) (x :: l).
Proof.
  induction l as [| y l IH]; simpl; [reflexivity |].
  destruct (after x y); [| reflexivity].
  eapply perm_trans; [apply perm_skip; exact IH | apply perm_swap].
Qed.

Lemma js_sort_perm {A : Type} (after : A -> A -> bool) (l : list A) :
  Permutation (js_sort after l) l.
Proof.
  unfold js_sort. induction l as [| x l IH]; simpl; [reflexivity |].
  eapply perm_trans; [apply insert_stable_perm | apply perm_skip; exact IH].
Qed.

Lemma insert_stable_filter {A : Type} (after : A -> A -> bool) (P : A -> bool)
  (x : A) (l : list A) :
  (forall y, P x = true -> P y = true -> after x y = false) ->
  filter P (insert_stable after x l) = filter P (x :: l).
Proof.
  intros H. induction l as [| y l IH]; [reflexivity |].
  cbn [insert_stable]. destruct (after x y) eqn:E; [| reflexivity].
  cbn [filter] in *. rewrite IH.
  destruct (P x) eqn:Px; [| reflexivity].
  destruct (P y) eqn:Py; [| reflexivity].
  rewrite (H y eq_refl Py) in E. discriminate.
Qed.

(** The sort is stable: elements that the comparator does not order keep
    their order. *)
Lemma js_sort_stable {A : Type} (after : A -> A -> bool) (P : A -> bool) (l : list A) :
  (forall x y, P x = true -> P y = true -> after x y = false) ->
  filter P (js_sort after l) = filter P l.
Proof.
  intros H. unfold js_sort. induction l as [| x l IH]; [reflexivity |].
  cbn [fold_right]. rewrite insert_stable_filter by (intros y; apply H).
  cbn [filter]. rewrite IH. reflexivity.
Qed.

Section Sorting.
Context {A : Type} (after : A -> A -> bool) (P : A -> Prop).
Hypothesis after_asym : forall x y, P x -> P y -> after x y = true -> after y x = false.
Hypothesis before_trans :
  forall x y z, P x -> P y -> P z ->
                after x y = false -> after y z = false -> after x z = false.

Lemma insert_stable_sorted (x : A) (l : list A) :
  P x -> Forall P l ->
  StronglySorted (fun a b => after a b = false) l ->
  StronglySorted (fun a b => after a b = false) (insert_stable after x l).
Proof.
  intros Px Pl. induction 1 as [| y l Hs IH Hy]; simpl.
  - constructor; constructor.
  - inversion Pl as [| ? ? Py Pl']; subst. rewrite Forall_forall in Pl'.
    destruct (after x y) eqn:E.
    + constructor; [apply IH; apply Forall_forall; exact Pl' |].
      apply Forall_forall. intros z Hz. apply insert_stable_In in Hz.
      destruct Hz as [-> | Hz]; [apply after_asym; auto |].
      rewrite Forall_forall in Hy. apply Hy. exact Hz.
    + constructor; [constructor; assumption |].
      constructor; [exact E |].
      apply Forall_forall. intros z Hz. rewrite Forall_forall in Hy.
      apply (before_trans x y z); auto.
Qed.

Lemma js_sort_sorted (l : list A) :
  Forall P l -> StronglySorted (fun a b => after a b = false) (js_sort after l).
Proof.
  unfold js_sort. induction 1 as [| x l Px Pl IH]; simpl; [constructor |].
  apply insert_stable_sorted; auto.
  apply Forall_forall. intros y Hy.
  rewrite Forall_forall in Pl. apply Pl. apply (js_sort_In after y l). exact Hy.
Qed.
End Sorting.

Lemma Forall_True {A : Type} (l : list A) : Forall (fun _ => True) l.
Proof. induction l; constructor; auto. Qed.

Lemma StronglySorted_impl {A : Type} (R S : A -> A -> Prop) (l : list A) :
  (forall x y, R x y -> S x y) -> StronglySorted R l -> StronglySorted S l.
Proof.
  intros H. induction 1 as [| x l Hs IH Hx]; constructor; auto.
  eapply Forall_impl; [| exact Hx]. intros y. apply H.
Qed.

Lemma Qltb_true (x y : Q) : Qltb x y = true <-> x < y.
Proof.
  unfold Qltb. destruct (Qcompare_spec x y) as [H | H | H]; split; intros H';
    try discriminate; try reflexivity; lra.
Qed.

Lemma Qltb_false (x y : Q) : Qltb x y = false <-> y <= x.
Proof.
  unfold Qltb. destruct (Qcompare_spec x y) as [H | H | H]; split; intros H';
    try discriminate; try reflexivity; lra.
Qed.

(* ------------------------------------------------------------------ *)
(** ** ScheduleOptimizer: shift patterns *)
(* ------------------------------------------------------------------ *)

Lemma generateShiftPatterns_unfold reqs constraints :
  generateShiftPatterns reqs constraints =
  js_sort (fun a b => (0 <? priority b - priority a)%Z)
          (map (with_priority (findPeakHours reqs)) (standardShifts ++ partTimeShifts)).
Proof. reflexivity. Qed.

(** X19.  [generateShiftPatterns] returns the eight templates of the
    catalog (five standard, three part-time), whatever the requirements
    and constraints: each once, with as priority its number of peak hours
    from its start hour up to, not including, its end hour, sorted by
    non-increasing priority, templates of equal priority in catalog order;
    without peak hours the result is the catalog in its own order. *)
Theorem shift_patterns_are_the_catalog_by_priority
  (hourlyRequirements : list (Z * HourRequirement)) (constraints : Constraints) :
  let peakHours := findPeakHours hourlyRequirements in
  let catalog := map (with_priority peakHours) (standardShifts ++ partTimeShifts) in
  let patterns := generateShiftPatterns hourlyRequirements constraints in
  Permutation patterns catalog /\
  StronglySorted (fun a b => (priority b <= priority a)%Z) patterns /\
  (forall k, filter (fun p => (priority p =? k)%Z) patterns
             = filter (fun p => (priority p =? k)%Z) catalog) /\
  Forall (fun p => (0 <= priority p <= Z.of_nat (length peakHours))%Z) patterns /\
  (peakHours = [] -> patterns = standardShifts ++ partTimeShifts).
Proof.
  intros peakHours catalog patterns.
  assert (patterns = js_sort (fun a b => (0 <? priority b - priority a)%Z) catalog)
    as Hp by reflexivity.
  assert (Permutation patterns catalog) as Hperm by (rewrite Hp; apply js_sort_perm).
  split; [exact Hperm |]. split; [| split; [| split]].
  - rewrite Hp.
    apply (StronglySorted_impl (fun a b => (0 <? priority b - priority a)%Z = false)).
    + intros x y H. apply Z.ltb_ge in H. lia.
    + apply (js_sort_sorted _ (fun _ => True)); [| | apply Forall_True].
      * intros x y _ _ H. apply Z.ltb_lt in H. apply Z.ltb_ge. lia.
      * intros x y z _ _ _ H1 H2. apply Z.ltb_ge in H1, H2. apply Z.ltb_ge. lia.
  - intros k. rewrite Hp. apply js_sort_stable.
    intros x y Hx Hy. apply Z.eqb_eq in Hx, Hy. apply Z.ltb_ge. lia.
  - apply Forall_forall. intros p Hin.
    apply (Permutation_in _ Hperm) in Hin. unfold catalog in Hin.
    apply in_map_iff in Hin. destruct Hin as (t & <- & _).
    cbn [with_priority priority]. unfold calculateShiftPriority.
    split; [lia |]. apply inj_le. apply filter_length_le.
  - intros Hnil. rewrite Hp. unfold catalog. rewrite Hnil. reflexivity.
Qed.

(* ------------------------------------------------------------------ *)
(** ** ScheduleOptimizer: the order of the agents *)
(* ------------------------------------------------------------------ *)

Lemma sortAgentsBySuitability_sorted (agents : list Agent) :
  StronglySorted (fun a b => suitability b <= suitability a)
                 (sortAgentsBySuitability agents).
Proof.
  unfold sortAgentsBySuitability.
  apply (StronglySorted_impl
           (fun a b => Qltb 0 (suitability b - suitability a) = false)).
  - intros x y H. apply Qltb_false in H. lra.
  - apply (js_sort_sorted _ (fun _ => True)); [| | apply Forall_True].
    + intros x y _ _ H. apply Qltb_true in H. apply Qltb_false. lra.
    + intros x y z _ _ _ H1 H2. apply Qltb_false in H1, H2. apply Qltb_false. lra.
Qed.

(** X20.  [sortAgentsBySuitability] returns the same agents, each as
    often as given, ordered by non-increasing suitability score.  (Among
    agents whose exact scores tie the order is left open: the code adds
    the scores in binary64, which can separate such a tie.) *)
Theorem agents_are_sorted_by_suitability (agents : list Agent) :
  let sorted := sortAgentsBySuitability agents in
  Permutation sorted agents /\
  StronglySorted (fun a b => suitability b <= suitability a) sorted.
Proof.
  cbv zeta. split; [apply js_sort_perm | apply sortAgentsBySuitability_sorted].
Qed.

Lemma findSuitableAgents_singleton (a : Agent) (agents : list Agent) pattern wl constraints :
  In a (findSuitableAgents agents pattern wl constraints) <->
  In a agents /\ eligible pattern wl constraints a.
Proof.
  unfold eligible, findSuitableAgents. rewrite !filter_In. simpl. intuition.
Qed.

(** X21.  The agent [assignAgentsToShifts] selects for a template, the
    first of [findSuitableAgents] over the sorted agents, is one of the
    agents, is eligible for the template under the current workload, and
    no eligible agent has a higher suitability score. *)
Theorem template_goes_to_the_most_suitable_agent (agents : list Agent)
  (pattern : Pattern) (agentWorkload : list (Z * Workload)) (constraints : Constraints)
  (selectedAgent : Agent) (others : list Agent) :
  findSuitableAgents (sortAgentsBySuitability agents) pattern agentWorkload constraints
  = selectedAgent :: others ->
  In selectedAgent agents /\
  eligible pattern agentWorkload constraints selectedAgent /\
  forall a, In a agents -> eligible pattern agentWorkload constraints a ->
            suitability a <= suitability selectedAgent.
Proof.
  intros E.
  assert (forall a, In a (selectedAgent :: others) <->
                    In a agents /\ eligible pattern agentWorkload constraints a) as Hin.
  { intros a. rewrite <- E, findSuitableAgents_singleton.
    unfold sortAgentsBySuitability. rewrite js_sort_In. reflexivity. }
  destruct (proj1 (Hin selectedAgent) (or_introl eq_refl)) as [H1 H2].
  split; [exact H1 |]. split; [exact H2 |].
  intros a Ha He.
  pose proof (filter_StronglySorted _
                (fun agent =>
                   match map_get agentWorkload (a_id agent) with
                   | None => false
                   | Some workload =>
                       let shiftHours := calculateShiftHours (p_start pattern) (p_end pattern) in
                       if gt_field (hoursAssigned workload + shiftHours)
                                   (max_hours_per_week constraints)
                       then false
                       else
                         match lastShiftEnd workload with
                         | Some lastEnd =>
                             let timeBetween := calculateTimeBetween lastEnd (p_start pattern) in
                             if lt_field timeBetween (min_time_between_shifts constraints)
                             then false
                             else true
                         | None => true
                         end
                   end)
                _ (sortAgentsBySuitability_sorted agents)) as Hs.
  change (StronglySorted (fun a b => suitability b <= suitability a)
            (findSuitableAgents (sortAgentsBySuitability agents) pattern agentWorkload
                                constraints)) in Hs.
  rewrite E in Hs. inversion Hs as [| ? ? _ Hall]; subst.
  destruct (proj2 (Hin a) (conj Ha He)) as [<- | Hother]; [lra |].
  rewrite Forall_forall in Hall. apply Hall. exact Hother.
Qed.

(* ------------------------------------------------------------------ *)
(** ** ScheduleOptimizer: hourly requirements and peak hours *)
(* ------------------------------------------------------------------ *)

Lemma add_requirement_keys (hour : Z) (a v : num) (reqs : list (Z * HourRequirement)) (h : Z) :
  In h (map fst (add_requirement hour a v reqs)) <-> h = hour \/ In h (map fst reqs).
Proof.
  induction reqs as [| [k r] rest IH]; simpl.
  - intuition.
  - destruct (Z.eqb_spec hour k) as [-> | Hne]; simpl; [intuition |].
    destruct (Z.ltb_spec hour k); simpl; [intuition |].
    rewrite IH. intuition.
Qed.

Lemma add_requirement_sorted (hour : Z) (a v : num) (reqs : list (Z * HourRequirement)) :
  StronglySorted Z.lt (map fst reqs) ->
  StronglySorted Z.lt (map fst (add_requirement hour a v reqs)).
Proof.
  induction reqs as [| [k r] rest IH]; simpl; intros Hs.
  - constructor; constructor.
  - inversion Hs as [| ? ? Hrest Hk]; subst.
    destruct (Z.eqb_spec hour k) as [-> | Hne]; simpl; [constructor; assumption |].
    destruct (Z.ltb_spec hour k) as [Hlt | Hge]; simpl.
    + constructor; [exact Hs |]. constructor; [exact Hlt |].
      eapply Forall_impl; [| exact Hk]. intros z Hz. lia.
    + constructor; [apply IH; exact Hrest |].
      apply Forall_forall. intros z Hz. apply add_requirement_keys in Hz.
      destruct Hz as [-> | Hz]; [lia |]. rewrite Forall_forall in Hk. apply Hk. exact Hz.
Qed.

Lemma add_requirement_entries (hour : Z) (a v : num) (reqs : list (Z * HourRequirement))
  (h : Z) (r : HourRequirement) :
  StronglySorted Z.lt (map fst reqs) ->
  In (h, r) (add_requirement hour a v reqs) ->
  (h <> hour /\ In (h, r) reqs) \/
  (h = hour /\
   ((exists r0, In (hour, r0) reqs /\
                r = {| totalAgents := nadd (totalAgents r0) a;
                       totalVolume := nadd (totalVolume r0) v |}) \/
    (~ In hour (map fst reqs) /\
     r = {| totalAgents := nadd (Fin 0) a; totalVolume := nadd (Fin 0) v |}))).
Proof.
  induction reqs as [| [k r1] rest IH]; simpl; intros Hs Hin.
  - destruct Hin as [[= <- <-] | []]. right. split; auto.
  - inversion Hs as [| ? ? Hrest Hk]; subst. rewrite Forall_forall in Hk.
    destruct (Z.eqb_spec hour k) as [-> | Hne]; simpl in Hin.
    + destruct Hin as [[= <- <-] | Hin].
      * right. split; auto. left. exists r1. split; auto.
      * left. split; [| right; exact Hin].
        assert (In h (map fst rest)) as Hh by (apply (in_map fst) in Hin; exact Hin).
        apply Hk in Hh. lia.
    + destruct (Z.ltb_spec hour k) as [Hlt | Hge]; simpl in Hin.
      * destruct Hin as [[= <- <-] | [[= <- <-] | Hin]].
        -- right. split; auto. right. split; auto.
           intros [He | Hr]; [congruence |]. apply Hk in Hr. lia.
        -- left. split; [congruence | left; reflexivity].
        -- left. split; [| right; exact Hin].
           assert (In h (map fst rest)) as Hh by (apply (in_map fst) in Hin; exact Hin).
           apply Hk in Hh. lia.
      * destruct Hin as [[= <- <-] | Hin].
        -- left. split; [congruence | left; reflexivity].
        -- destruct (IH Hrest Hin) as [[Hn Hi] | [-> [(r0 & Hi & Er) | [Hn Er]]]].
           ++ left. split; auto.
           ++ right. split; auto. left. exists r0. split; auto.
           ++ right. split; auto. right. split; auto.
              intros [He | Hr]; [congruence | contradiction].
Qed.

Lemma calculateHourlyRequirements_snoc (forecasts : list Forecast) (f : Forecast) :
  calculateHourlyRequirements (forecasts ++ [f]) =
  add_requirement (forecast_hour f)
    (or_default (Some (required_agents f)) (Fin 0))
    (or_default (Some (predicted_volume f)) (Fin 0))
    (calculateHourlyRequirements forecasts).
Proof. unfold calculateHourlyRequirements. rewrite fold_left_app. reflexivity. Qed.

Lemma hour_total_snoc (column : Forecast -> num) (hour : Z) (forecasts : list Forecast)
  (f : Forecast) :
  hour_total column hour (forecasts ++ [f]) =
  if (forecast_hour f =? hour)%Z
  then nadd (hour_total column hour forecasts) (or_default (Some (column f)) (Fin 0))
  else hour_total column hour forecasts.
Proof.
  unfold hour_total. rewrite filter_app. cbn [filter].
  destruct (forecast_hour f =? hour)%Z.
  - rewrite fold_left_app. reflexivity.
  - rewrite app_nil_r. reflexivity.
Qed.

Lemma hour_total_absent (column : Forecast -> num) (hour : Z) (forecasts : list Forecast) :
  ~ In hour (map forecast_hour forecasts) -> hour_total column hour forecasts = Fin 0.
Proof.
  intros H. unfold hour_total.
  assert (filter (fun f => (forecast_hour f =? hour)%Z) forecasts = []) as ->; [| reflexivity].
  induction forecasts as [| f fs IH]; [reflexivity |]. simpl in *.
  destruct (Z.eqb_spec (forecast_hour f) hour); [exfalso; apply H; auto |].
  apply IH. intros Hin. apply H. auto.
Qed.

(** X17.  [calculateHourlyRequirements], for forecasts with non-negative
    hours: the keys of the result are the hours that occur in the
    forecasts, each once and in ascending order, and the entry of an hour
    holds the sums of [required_agents || 0] and of
    [predicted_volume || 0] over the forecasts of that hour.  (The hours
    are taken non-negative, as the rows of the table are: those are the
    keys a JavaScript object enumerates in ascending order.) *)
Theorem hourly_requirements_are_totals_per_hour (forecasts : list Forecast) :
  Forall (fun f => (0 <= forecast_hour f)%Z) forecasts ->
  let requirements := calculateHourlyRequirements forecasts in
  StronglySorted Z.lt (map fst requirements) /\
  (forall hour, In hour (map fst requirements) <-> In hour (map forecast_hour forecasts)) /\
  (forall hour r, In (hour, r) requirements ->
     totalAgents r = hour_total required_agents hour forecasts /\
     totalVolume r = hour_total predicted_volume hour forecasts).
Proof.
  intros _. cbv zeta. induction forecasts as [| f fs IH] using rev_ind.
  - split; [constructor |]. split; [reflexivity |]. intros hour r [].
  - destruct IH as (Hs & Hk & Ht).
    rewrite calculateHourlyRequirements_snoc.
    split; [apply add_requirement_sorted; exact Hs |]. split.
    + intros hour. rewrite add_requirement_keys, map_app, in_app_iff, Hk. simpl.
      intuition.
    + intros hour r Hin. rewrite !hour_total_snoc.
      apply add_requirement_entries in Hin; [| exact Hs].
      destruct Hin as [[Hn Hi] | [-> [(r0 & Hi & ->) | [Hn ->]]]].
      * destruct (Z.eqb_spec (forecast_hour f) hour) as [E | _]; [congruence |].
        apply Ht. exact Hi.
      * rewrite Z.eqb_refl. cbn [totalAgents totalVolume].
        destruct (Ht _ _ Hi) as [-> ->]. split; reflexivity.
      * rewrite Z.eqb_refl. cbn [totalAgents totalVolume].
        rewrite Hk in Hn. rewrite !hour_total_absent by exact Hn. split; reflexivity.
Qed.

Lemma ceil_30_percent (n : nat) :
  (Z.to_nat (Qceiling (inject_Z (Z.of_nat n) * (3 # 10))) <= n)%nat.
Proof.
  assert (Qceiling (inject_Z (Z.of_nat n) * (3 # 10)) <= Z.of_nat n)%Z as H.
  { rewrite <- (Qceiling_Z (Z.of_nat n)) at 2.
    apply Qceiling_resp_le.
    assert (0 <= inject_Z (Z.of_nat n)) as Hn.
    { change 0 with (inject_Z 0). rewrite <- Zle_Qle. lia. }
    lra. }
  lia.
Qed.

Lemma StronglySorted_app_cross {A : Type} (R : A -> A -> Prop) (l1 l2 : list A) :
  StronglySorted R (l1 ++ l2) ->
  forall x y, In x l1 -> In y l2 -> R x y.
Proof.
  induction l1 as [| a l1 IH]; simpl; intros Hs x y Hx Hy; [contradiction |].
  inversion Hs as [| ? ? Hrest Ha]; subst.
  destruct Hx as [-> | Hx]; [| eapply IH; eauto].
  rewrite Forall_forall in Ha. apply Ha. apply in_or_app. auto.
Qed.

(** X18.  [findPeakHours] on requirements with finite totals returns
    ceil(0.3 * n) of the n hours, and they are the busiest: no hour left
    out needs more agents than an hour returned. *)
Theorem peak_hours_are_the_busiest (hourlyRequirements : list (Z * HourRequirement)) :
  Forall (fun entry => finite (totalAgents (snd entry))) hourlyRequirements ->
  let peakHours := findPeakHours hourlyRequirements in
  let count := Z.to_nat (Qceiling (lengthQ hourlyRequirements * (3 # 10))) in
  length peakHours = count /\ (count <= length hourlyRequirements)%nat /\
  exists chosen others,
    Permutation hourlyRequirements (chosen ++ others) /\
    map fst chosen = peakHours /\
    forall c o, In c chosen -> In o others ->
                nle (totalAgents (snd o)) (totalAgents (snd c)) = true.
Proof.
  intros Hfin peakHours count.
  set (after := fun a b : Z * HourRequirement =>
                  ngt (nsub (totalAgents (snd b)) (totalAgents (snd a))) (Fin 0)).
  set (sorted := js_sort after hourlyRequirements).
  assert (Permutation sorted hourlyRequirements) as Hperm by apply js_sort_perm.
  assert (count <= length hourlyRequirements)%nat as Hcount by apply ceil_30_percent.
  assert (peakHours = map fst (firstn count sorted)) as Hpeak by reflexivity.
  split.
  - rewrite Hpeak, length_map, length_firstn, (Permutation_length Hperm). lia.
  - split; [exact Hcount |].
    exists (firstn count sorted), (skipn count sorted).
    split; [rewrite firstn_skipn; symmetry; exact Hperm |].
    split; [symmetry; exact Hpeak |].
    assert (StronglySorted (fun a b => after a b = false) sorted) as Hs.
    { apply (js_sort_sorted after (fun entry => finite (totalAgents (snd entry)))).
      - intros x y [qx Ex] [qy Ey]. unfold after. rewrite Ex, Ey. cbn [nsub].
        intros H. apply ngt_Fin in H. apply ngt_Fin_false. lra.
      - intros x y z [qx Ex] [qy Ey] [qz Ez]. unfold after. rewrite Ex, Ey, Ez.
        cbn [nsub]. intros H1 H2. apply ngt_Fin_false in H1, H2. apply ngt_Fin_false. lra.
      - exact Hfin. }
    rewrite <- (firstn_skipn count sorted) in Hs.
    intros c o Hc Ho.
    pose proof (StronglySorted_app_cross _ _ _ Hs c o Hc Ho) as Hco.
    assert (In c hourlyRequirements) as Hc'.
    { apply (Permutation_in _ Hperm). rewrite <- (firstn_skipn count sorted).
      apply in_or_app. left. exact Hc. }
    assert (In o hourlyRequirements) as Ho'.
    { apply (Permutation_in _ Hperm). rewrite <- (firstn_skipn count sorted).
      apply in_or_app. right. exact Ho. }
    rewrite Forall_forall in Hfin.
    destruct (Hfin _ Hc') as [qc Ec]. destruct (Hfin _ Ho') as [qo Eo].
    unfold after in Hco. rewrite Ec, Eo in *. cbn [nsub] in Hco.
    apply ngt_Fin_false in Hco. apply nle_Fin. lra.
Qed.

(* ------------------------------------------------------------------ *)
(** ** ScheduleOptimizer and the Shift model: shifts that end before they start *)
(* ------------------------------------------------------------------ *)

(** X25.  A shift whose end time is not after its start time (an
    overnight shift such as 22:00 to 06:00): [calculateShiftHours] is not
    positive, so [generateBreaks] returns no break and
    [generateLunchBreak] none, and the [beforeValidate] hook of the Shift
    model rejects the row; [getDurationInHours] of the Shift model, which
    wraps over midnight, gives 24 hours more than [calculateShiftHours]. *)
Theorem overnight_shift_gets_no_breaks_and_is_rejected
  (startTime endTime : Z) (constraints : Constraints) :
  (endTime <= startTime)%Z ->
  calculateShiftHours startTime endTime <= 0 /\
  generateBreaks startTime endTime constraints = [] /\
  generateLunchBreak startTime endTime constraints = None /\
  (forall env shift,
     shift_start_time shift = startTime -> shift_end_time shift = endTime ->
     Shift_create env shift = inl ValidationError /\
     ((endTime < startTime)%Z ->
      getDurationInHours shift == calculateShiftHours startTime endTime + 24)).
Proof.
  intros Hle.
  assert (calculateShiftHours startTime endTime <= 0) as Hh.
  { unfold calculateShiftHours, diff_hours, on_2000_01_01.
    assert (inject_Z endTime <= inject_Z startTime) as H by (rewrite <- Zle_Qle; exact Hle).
    apply Qle_shift_div_r; lra. }
  split; [exact Hh |]. split; [| split].
  - unfold generateBreaks.
    destruct (Qle_bool 4 (calculateShiftHours startTime endTime)) eqn:E; [| reflexivity].
    apply Qle_bool_iff in E. lra.
  - unfold generateLunchBreak.
    destruct (Qle_bool 6 (calculateShiftHours startTime endTime)) eqn:E; [| reflexivity].
    apply Qle_bool_iff in E. lra.
  - intros env shift Hs He. split.
    + unfold Shift_create. cbn [Shift_build shift_start_time shift_end_time].
      rewrite Hs, He.
      destruct (Z.leb_spec endTime startTime); [reflexivity | lia].
    + intros Hlt. unfold getDurationInHours, calculateShiftHours, diff_hours, on_2000_01_01.
      rewrite Hs, He.
      assert (inject_Z endTime < inject_Z startTime) as H by (rewrite <- Zlt_Qlt; exact Hlt).
      apply Qltb_true in H. rewrite H. field.
Qed.

(* ------------------------------------------------------------------ *)
(** ** ScheduleOptimizer: assignments and generated shifts *)
(* ------------------------------------------------------------------ *)

Lemma subsequence_In {A : Type} (l1 l2 : list A) (x : A) :
  subsequence l1 l2 -> In x l1 -> In x l2.
Proof.
  induction 1 as [| y l1 l2 _ IH | y l1 l2 _ IH]; simpl; intuition.
Qed.

Lemma subsequence_length {A : Type} (l1 l2 : list A) :
  subsequence l1 l2 -> (length l1 <= length l2)%nat.
Proof. induction 1; simpl; lia. Qed.

Lemma assign_loop_subsequence (sortedAgents : list Agent) constraints patterns :
  forall wl asg,
  exists new,
    fst (assign_loop sortedAgents constraints patterns wl asg) = asg ++ new /\
    subsequence (map (fun a => (startTime a, endTime a)) new)
                (map (fun p => (p_start p, p_end p)) patterns) /\
    Forall (fun a =>
              shiftType a = (if Qltb 8 (calculateShiftHours (startTime a) (endTime a))
                             then overtime else regular) /\
              primaryChannelId a = None /\ secondaryChannels a = [] /\
              requiredSkills a = [] /\ expectedVolume a = 0) new.
Proof.
  induction patterns as [| pattern rest IH]; intros wl asg; simpl.
  - exists []. rewrite app_nil_r. split; [reflexivity |].
    split; [apply subsequence_nil | apply Forall_nil].
  - destruct (findSuitableAgents sortedAgents pattern wl constraints) as [| sel others].
    + destruct (IH wl asg) as (new & E & Hs & Hf). exists new.
      split; [exact E |]. split; [apply subsequence_skip; exact Hs | exact Hf].
    + match goal with
      | |- context [assign_loop _ _ rest ?wl' (asg ++ [?a])] =>
          destruct (IH wl' (asg ++ [a])) as (new & E & Hs & Hf); exists (a :: new)
      end.
      split; [rewrite E, <- app_assoc; reflexivity |].
      split; [simpl; apply subsequence_take; exact Hs |].
      constructor; [| exact Hf]. simpl. auto.
Qed.

(** X22.  [assignAgentsToShifts] gives each template at most one
    assignment and keeps the order of the templates: the times of the
    assignments are a subsequence of the times of the templates.  Every
    assignment goes to one of the agents passed in and is of type
    'overtime' exactly when the template is longer than 8 hours; without
    agents there is no assignment. *)
Theorem assignments_follow_the_templates (shiftPatterns : list Pattern)
  (availableAgents : list Agent) (constraints : Constraints) :
  let assignments := assignAgentsToShifts shiftPatterns availableAgents constraints in
  subsequence (map (fun a => (startTime a, endTime a)) assignments)
              (map (fun p => (p_start p, p_end p)) shiftPatterns) /\
  (length assignments <= length shiftPatterns)%nat /\
  Forall (fun a =>
            In (agentId a) (map a_id availableAgents) /\
            (shiftType a = overtime <->
             8 < calculateShiftHours (startTime a) (endTime a))) assignments /\
  (availableAgents = [] -> assignments = []).
Proof.
  cbv zeta. unfold assignAgentsToShifts.
  destruct (assign_loop_subsequence (sortAgentsBySuitability availableAgents) constraints
              shiftPatterns (initial_workload availableAgents) []) as (new & E & Hs & Hf).
  cbn [app] in E.
  split; [rewrite E; exact Hs |]. split.
  - rewrite E. apply subsequence_length in Hs. rewrite !length_map in Hs. exact Hs.
  - split.
    + apply Forall_forall. intros a Ha. split.
      * apply (assigned_agent_is_available shiftPatterns availableAgents constraints a).
        exact Ha.
      * rewrite E in Ha. rewrite Forall_forall in Hf. destruct (Hf a Ha) as (Ht & _).
        rewrite Ht.
        destruct (Qltb 8 (calculateShiftHours (startTime a) (endTime a))) eqn:Eq.
        -- apply Qltb_true in Eq. tauto.
        -- apply Qltb_false in Eq. split; [discriminate | lra].
    + intros ->.
      pose proof (assign_loop_agents (sortAgentsBySuitability []) constraints shiftPatterns
                    (initial_workload []) [] (Forall_nil _)) as HF.
      destruct (fst (assign_loop (sortAgentsBySuitability []) constraints shiftPatterns
                       (initial_workload []) [])) as [| a l]; [reflexivity |].
      inversion HF as [| ? ? Ha _]; subst. destruct Ha.
Qed.

Lemma generated_pattern_times (reqs : list (Z * HourRequirement)) constraints :
  incl (map (fun p => (p_start p, p_end p)) (generateShiftPatterns reqs constraints))
       catalog_times.
Proof.
  intros t Ht. apply in_map_iff in Ht. destruct Ht as (p & <- & Hp).
  rewrite generateShiftPatterns_unfold in Hp. apply js_sort_In in Hp.
  apply in_map_iff in Hp. destruct Hp as (c & <- & Hc).
  unfold catalog_times. apply in_map_iff. exists c. split; [reflexivity | exact Hc].
Qed.

Lemma catalog_times_regular (s e : Z) :
  In (s, e) catalog_times -> (s < e)%Z /\ Qltb 8 (calculateShiftHours s e) = false.
Proof.
  unfold catalog_times. simpl.
  intros H. repeat (destruct H as [[= <- <-] | H]; [split; [reflexivity | reflexivity] |]).
  destruct H.
Qed.

Lemma sorted_then_constant (c : Z) (l1 l2 : list Z) :
  StronglySorted Z.le l1 -> Forall (fun d => (d < c)%Z) l1 ->
  Forall (fun d => d = c) l2 -> StronglySorted Z.le (l1 ++ l2).
Proof.
  intros Hs H1 H2. induction Hs as [| d l1 Hs IH Hd]; simpl.
  - induction H2 as [| d l2 Hd Hrest IH]; constructor; auto.
    eapply Forall_impl; [| exact Hrest]. cbv beta. intros z ->. lia.
  - inversion H1 as [| ? ? Hdc H1']; subst. constructor; auto.
    apply Forall_app. split; auto.
    eapply Forall_impl; [| exact H2]. cbv beta. intros z ->. lia.
Qed.

(** The shift objects of one day. *)
Lemma daily_shifts_shape (dateString : Z) (agents : list Agent)
  (forecasts : list Forecast) (timeOffRequests : list TimeOff)
  (constraints : Constraints) :
  Forall (fun shift =>
            shift_date shift = dateString /\
            In (shift_start_time shift, shift_end_time shift) catalog_times /\
            shift_type shift = regular /\
            hourly_rate shift = None)
         (generateDailyShifts dateString agents forecasts timeOffRequests constraints).
Proof.
  unfold generateDailyShifts.
  set (available := filter _ agents).
  destruct available as [| a0 rest] eqn:Eav; [constructor |]. rewrite <- Eav.
  apply Forall_forall. intros shift Hin. apply in_map_iff in Hin.
  destruct Hin as (asg & <- & Hasg).
  cbn [shift_date shift_start_time shift_end_time shift_type hourly_rate].
  destruct (assign_loop_subsequence (sortAgentsBySuitability available) constraints
              (generateShiftPatterns (calculateHourlyRequirements forecasts) constraints)
              (initial_workload available) []) as (new & E & Hs & Hf).
  cbn [app] in E.
  assert (In asg new) as Hnew by (rewrite <- E; exact Hasg).
  assert (In (startTime asg, endTime asg) catalog_times) as Hcat.
  { apply (generated_pattern_times (calculateHourlyRequirements forecasts) constraints).
    eapply subsequence_In; [exact Hs |].
    apply (in_map (fun a => (startTime a, endTime a))). exact Hnew. }
  split; [reflexivity |]. split; [exact Hcat |]. split; [| reflexivity].
  rewrite Forall_forall in Hf. destruct (Hf asg Hnew) as (-> & _).
  destruct (catalog_times_regular _ _ Hcat) as [_ ->]. reflexivity.
Qed.

Lemma daily_loop_shape (agents : list Agent) (forecasts : list Forecast)
  (timeOffRequests : list TimeOff) (constraints : Constraints) (first : Z) (days : nat) :
  forall currentDate endMoment allShifts,
  (first <= currentDate)%Z ->
  Forall (fun shift =>
            (first <= shift_date shift < currentDate)%Z /\
            (shift_date shift <= endMoment)%Z /\
            In (shift_start_time shift, shift_end_time shift) catalog_times /\
            shift_type shift = regular /\
            hourly_rate shift = None) allShifts ->
  StronglySorted Z.le (map shift_date allShifts) ->
  let result := daily_loop days currentDate endMoment agents forecasts timeOffRequests
                           constraints allShifts in
  Forall (fun shift =>
            (first <= shift_date shift <= endMoment)%Z /\
            In (shift_start_time shift, shift_end_time shift) catalog_times /\
            shift_type shift = regular /\
            hourly_rate shift = None) result /\
  StronglySorted Z.le (map shift_date result).
Proof.
  induction days as [| days IH]; intros currentDate endMoment allShifts Hfc Hall Hsorted;
    cbn [daily_loop].
  - split; [| exact Hsorted].
    eapply Forall_impl; [| exact Hall]. cbv beta. intros s H. intuition lia.
  - destruct (Z.leb_spec currentDate endMoment) as [Hle | Hgt].
    + set (daily := generateDailyShifts _ _ _ _ _).
      assert (Forall (fun shift =>
                        shift_date shift = currentDate /\
                        In (shift_start_time shift, shift_end_time shift) catalog_times /\
                        shift_type shift = regular /\
                        hourly_rate shift = None) daily) as Hd
        by apply daily_shifts_shape.
      apply IH.
      * lia.
      * apply Forall_app. split.
        -- eapply Forall_impl; [| exact Hall]. cbv beta. intros s H. intuition lia.
        -- eapply Forall_impl; [| exact Hd]. cbv beta. intros s H. intuition lia.
      * rewrite map_app. clear IH.
        assert (Forall (fun d => (d < currentDate)%Z) (map shift_date allShifts)) as H1.
        { apply Forall_forall. intros d Hin. apply in_map_iff in Hin.
          destruct Hin as (s & <- & Hs). rewrite Forall_forall in Hall.
          apply Hall in Hs. lia. }
        assert (Forall (fun d => d = currentDate) (map shift_date daily)) as H2.
        { apply Forall_forall. intros d Hin. apply in_map_iff in Hin.
          destruct Hin as (s & <- & Hs). rewrite Forall_forall in Hd.
          apply Hd in Hs. tauto. }
        exact (sorted_then_constant currentDate _ _ Hsorted H1 H2).
    + split; [| exact Hsorted].
      eapply Forall_impl; [| exact Hall]. cbv beta. intros s H. intuition lia.
Qed.

Lemma save_loop_result (env : ScheduleEnv) (id : Z) (optimizedShifts : list Shift) :
  forall savedShifts result,
  Forall (fun shift => hourly_rate shift = None) optimizedShifts ->
  save_loop env id optimizedShifts savedShifts = inr result ->
  result = savedShifts ++ map Shift_build optimizedShifts /\
  Forall (fun shift => (shift_start_time shift < shift_end_time shift)%Z)
         optimizedShifts.
Proof.
  induction optimizedShifts as [| shiftData rest IH]; intros saved result Hr; simpl.
  - intros [= <-]. rewrite app_nil_r. auto.
  - inversion Hr as [| ? ? Hrate Hrest]; subst.
    unfold Shift_create.
    cbn [Shift_build with_schedule hourly_rate shift_end_time shift_start_time].
    rewrite Hrate.
    destruct (Z.leb_spec (shift_end_time shiftData) (shift_start_time shiftData));
      [discriminate |].
    destruct (shift_create_fails env _) eqn:Ef; [discriminate |].
    intros Hsave. apply IH in Hsave; [| exact Hrest]. destruct Hsave as [-> Hall].
    rewrite <- app_assoc. split; [reflexivity |]. constructor; auto.
Qed.

(** X26.  A successful [generateOptimizedSchedule] was asked for a period
    whose end date is after its start date (the Schedule model rejects the
    others), and the shifts it returns are ordered by date; each lies
    within the requested period, has the times of a catalog template (so
    it ends after it starts), is of type 'regular', carries neither rate
    nor cost, and carries neither agent nor schedule: [Shift.create] drops
    the [agent_id] and the [schedule_id] it is given, which are not
    attributes of the Shift model.  The schedule has the id given by the
    storage, status 'generated' and the default constraints overridden by
    the given ones. *)
Theorem shifts_of_a_generated_schedule (env : ScheduleEnv) (scheduleData : ScheduleData)
  (schedule : Schedule) (shifts : list Shift) (metrics : Metrics) :
  generateOptimizedSchedule env scheduleData = inr (schedule, shifts, metrics) ->
  (startDate scheduleData < endDate scheduleData)%Z /\
  created_schedule_id env = inr (sch_id schedule) /\
  sch_status schedule = sch_generated /\
  constraints schedule = merge_constraints (sd_constraints scheduleData) /\
  StronglySorted Z.le (map shift_date shifts) /\
  Forall (fun shift =>
            agent_id shift = None /\ schedule_id shift = None /\
            (startDate scheduleData <= shift_date shift <= endDate scheduleData)%Z /\
            In (shift_start_time shift, shift_end_time shift) catalog_times /\
            (shift_start_time shift < shift_end_time shift)%Z /\
            shift_type shift = regular /\
            hourly_rate shift = None /\ total_cost shift = None) shifts.
Proof.
  unfold generateOptimizedSchedule, Schedule_create.
  destruct (Z.leb_spec (endDate scheduleData) (startDate scheduleData)) as [Hle | Hlt];
    [discriminate |].
  destruct (created_schedule_id env) as [e | id]; [discriminate |].
  destruct (found_agents env) as [e | agents]; [discriminate |].
  destruct (found_forecasts env) as [e | forecasts]; [discriminate |].
  destruct (found_time_off env) as [e | timeOffRequests]; [discriminate |].
  rewrite optimizeSchedule_id. cbn [sch_id constraints].
  set (allShifts := daily_loop _ _ _ _ _ _ _ _).
  destruct (daily_loop_shape agents forecasts timeOffRequests
              (merge_constraints (sd_constraints scheduleData))
              (startDate scheduleData)
              (Z.to_nat (endDate scheduleData - startDate scheduleData + 1))
              (startDate scheduleData) (endDate scheduleData) []
              (Z.le_refl _) (Forall_nil _) (SSorted_nil _)) as [Hshape Hsorted].
  fold allShifts in Hshape, Hsorted.
  pose proof (daily_loop_unpriced
                (Z.to_nat (endDate scheduleData - startDate scheduleData + 1))
                (startDate scheduleData) (endDate scheduleData) agents forecasts
                timeOffRequests (merge_constraints (sd_constraints scheduleData)) []
                (Forall_nil _)) as Hunpriced.
  fold allShifts in Hunpriced.
  destruct (save_loop env id allShifts []) as [e | savedShifts] eqn:Es; [discriminate |].
  destruct (schedule_update_fails env); [discriminate |].
  intros H. injection H as <- <- _. cbn [sch_id sch_status constraints].
  apply save_loop_result in Es.
  2:{ eapply Forall_impl; [| exact Hshape]. cbv beta. tauto. }
  destruct Es as [-> Hok]. cbn [app].
  split; [exact Hlt |].
  split; [reflexivity |]. split; [reflexivity |]. split; [reflexivity |]. split.
  - rewrite map_map. cbn [Shift_build shift_date]. exact Hsorted.
  - apply Forall_forall. intros s Hin. apply in_map_iff in Hin.
    destruct Hin as (s0 & <- & Hs0).
    rewrite Forall_forall in Hshape, Hunpriced, Hok.
    specialize (Hshape s0 Hs0). specialize (Hunpriced s0 Hs0). specialize (Hok s0 Hs0).
    cbn [Shift_build schedule_id shift_date agent_id shift_start_time shift_end_time
         shift_type hourly_rate total_cost].
    split; [reflexivity |]. split; [reflexivity |]. tauto.
Qed.

(* ------------------------------------------------------------------ *)
(** ** The further properties on concrete inputs *)
(* ------------------------------------------------------------------ *)

Lemma zero_history_gives_nan_witness :
  [sample 0; sample 0] <> [] /\
  let out := calculatePredictedVolume [sample 0; sample 0] no_adjustment no_external in
  volume out = Fin 0 /\ confidence out = NaN /\
  minVolume out = NaN /\ maxVolume out = NaN.
Proof.
  split; [discriminate |].
  apply (zero_history_gives_nan [sample 0; sample 0] 1 1 1 1 1); [discriminate |].
  repeat constructor; exists 0; split; reflexivity.
Defined.

Lemma service_level_and_wait_bounds_witness :
  0 < 5 /\ 0 <= 4 /\
  exists sl wt,
    predictServiceLevel (Fin 5) (Fin 4) (Fin 20) = Fin sl /\
    predictAverageWaitTime (Fin 5) (Fin 4) = Fin wt /\
    1 # 10 <= sl <= 99 # 100 /\ (wt == 300 \/ 0 <= wt < 60).
Proof.
  split; [lra |]. split; [lra |].
  apply (service_level_and_wait_bounds 5 4 (Fin 20)); lra.
Defined.

Lemma more_agents_never_hurt_witness :
  0 < 4 /\ 4 <= 5 /\ 0 <= 3 /\
  nle (predictServiceLevel (Fin 4) (Fin 3) (Fin 20))
      (predictServiceLevel (Fin 5) (Fin 3) (Fin 20)) = true /\
  nle (predictAverageWaitTime (Fin 5) (Fin 3))
      (predictAverageWaitTime (Fin 4) (Fin 3)) = true.
Proof.
  split; [lra |]. split; [lra |]. split; [lra |].
  apply (more_agents_never_hurt 4 5 3 (Fin 20)); lra.
Defined.

Lemma scenario_channel_finite (minStaffing buffer : Q) :
  finite_channel (scenario_channel minStaffing buffer).
Proof. repeat split; simpl; eexists; reflexivity. Qed.

Lemma staffing_monotone_in_volume_witness :
  20 <= 30 /\
  let out1 := calculateRequiredAgents (predicted 20) (scenario_channel 2 (10 # 100)) None in
  let out2 := calculateRequiredAgents (predicted 30) (scenario_channel 2 (10 # 100)) None in
  nle (required out1) (required out2) = true /\
  nle (optimal out1) (optimal out2) = true /\
  minimum out1 = minimum out2.
Proof.
  split; [lra |].
  apply (staffing_monotone_in_volume 20 30 (scenario_channel 2 (10 # 100)) None).
  - apply scenario_channel_finite.
  - intros q [= <-]. lra.
  - intros q [= <-]. lra.
  - intros q [= <-]. lra.
  - intros q [= <-]. lra.
  - intros q [= <-]. lra.
  - lra.
Defined.

Lemma required_staffing_is_not_overloaded_witness :
  0 <= 20 /\
  exists sl wt,
    predictedServiceLevel
      (calculateRequiredAgents (predicted 20) (scenario_channel 2 (10 # 100)) None)
    = Fin sl /\
    predictedWaitTime
      (calculateRequiredAgents (predicted 20) (scenario_channel 2 (10 # 100)) None)
    = Fin wt /\
    0 <= wt <= 45 /\ 25 # 100 <= sl.
Proof.
  split; [lra |].
  destruct (required_staffing_is_not_overloaded 20 (scenario_channel 2 (10 # 100)) None)
    as (sl & wt & Hsl & Hwt & Hs & Hw & Hrange & Hlow).
  - apply scenario_channel_finite.
  - lra.
  - intros q [= <-]. lra.
  - intros q [= <-]. lra.
  - intros q [= <-]. lra.
  - intros q [= <-]. lra.
  - intros q [= <-]. lra.
  - intros q [= <-]. lra.
  - exists sl, wt. split; [exact Hsl |]. split; [exact Hwt |].
    change (param (shrinkage_factor (scenario_channel 2 (10 # 100))) (25 # 100))
      with (25 # 100) in *.
    split; [lra |]. apply Hlow. lra.
Defined.

Lemma forecast_hours_of_a_batch_witness :
  exists forecasts,
    fst (generateHourlyForecasts (reliable false) scenario_storage 1 a_monday None)
    = inr forecasts /\
    StronglySorted Z.lt (map forecast_hour forecasts) /\
    (forall h, In h (map forecast_hour forecasts) <-> (0 <= h < 24 /\ 8 <= h < 20)%Z).
Proof.
  destruct (fst (generateHourlyForecasts (reliable false) scenario_storage 1 a_monday None))
    as [e | forecasts] eqn:E.
  - vm_compute in E. discriminate E.
  - exists forecasts. split; [reflexivity |].
    destruct (forecast_hours_of_a_batch (reliable false) scenario_storage 1 a_monday None
                (scenario_channel 2 (10 # 100)) forecasts eq_refl E) as (H1 & H2 & _).
    split; [exact H1 | exact H2].
Defined.

Lemma accepting_storage_returns_every_hour_witness :
  exists forecasts,
    fst (generateHourlyForecasts (reliable false) scenario_storage 1 a_monday None)
    = inr forecasts /\
    map forecast_hour forecasts
    = operating_hours (scenario_channel 2 (10 # 100)) hours_of_day.
Proof.
  exact (accepting_storage_returns_every_hour (reliable false) scenario_storage 1
           a_monday None (scenario_channel 2 (10 # 100))
           eq_refl (fun _ => eq_refl) eq_refl).
Defined.

Lemma hook_fills_missing_bounds_witness :
  0 < 10 /\
  ordered_bounds (beforeValidate (bare_row 19730 10 10)) /\
  min_volume (beforeValidate (bare_row 19730 10 10)) = Fin 7 /\
  max_volume (beforeValidate (bare_row 19730 10 10)) = Fin 13.
Proof.
  split; [lra |].
  destruct (hook_fills_missing_bounds (bare_row 19730 10 10) 10 eq_refl)
    as (H & _); [lra | left; reflexivity | left; reflexivity |].
  split; [exact H |]. split; reflexivity.
Defined.

Lemma accuracy_is_smaller_over_larger_witness :
  0 < 18 /\ 0 < 20 /\
  exists acc err,
    beforeUpdate (observed_row 19720 10 18) =
      Some {| forecast_accuracy := Fin acc; mean_absolute_error := Fin err;
              mean_squared_error := Fin (err * err) |} /\
    acc == 9 # 10 /\ err == 2.
Proof.
  split; [lra |]. split; [lra |].
  destruct (accuracy_is_smaller_over_larger (observed_row 19720 10 18) 18 20
              eq_refl eq_refl)
    as (acc & err & E & He & Hcase & Hacc & Hpa & Hap & _); [lra | lra |].
  exists acc, err. split; [exact E |].
  split; [rewrite Hap by lra; reflexivity |].
  destruct Hcase as [H | H]; lra.
Defined.

Lemma error_percentage_and_accuracy_witness :
  0 < 18 /\ 0 < 20 /\
  exists pct acc,
    getErrorPercentage (observed_row 19720 10 18) = Some (Fin pct) /\
    option_map forecast_accuracy (beforeUpdate (observed_row 19720 10 18))
    = Some (Fin acc) /\
    100 * (1 - acc) < pct.
Proof.
  split; [lra |]. split; [lra |].
  destruct (error_percentage_and_accuracy (observed_row 19720 10 18) 18 20
              eq_refl eq_refl)
    as (pct & acc & E1 & E2 & _ & _ & Hlt); [lra | lra |].
  exists pct, acc. split; [exact E1 |]. split; [exact E2 |]. apply Hlt. lra.
Defined.

Lemma observed_row_ordered (dateNumber hour : Z) (actual : Q) :
  ordered_bounds (observed_row dateNumber hour actual).
Proof.
  exists 16, 20, 24. repeat split; try reflexivity; lra.
Qed.

Lemma adjusted_row_keeps_ordered_bounds_witness :
  0 <= 3 # 2 /\
  ordered_bounds
    (beforeValidate
       (fst (adjustForSpecialEvent (observed_row 19720 10 18) (Fin (3 # 2)) String.EmptyString)))
  /\
  predicted_volume
    (fst (adjustForSpecialEvent (observed_row 19720 10 18) (Fin (3 # 2)) String.EmptyString))
  = Fin 30.
Proof.
  split; [lra |].
  destruct (adjusted_row_keeps_ordered_bounds (observed_row 19720 10 18) (3 # 2)
              String.EmptyString (observed_row_ordered 19720 10 18))
    as (_ & H & _); [lra |].
  split; [exact H | reflexivity].
Defined.

Lemma hourly_requirements_are_totals_per_hour_witness :
  Forall (fun f => (0 <= forecast_hour f)%Z)
         [observed_row 19720 10 18; observed_row 19720 11 22; observed_row 19721 10 25] /\
  map (fun entry => (fst entry, totalAgents (snd entry)))
      (calculateHourlyRequirements
         [observed_row 19720 10 18; observed_row 19720 11 22; observed_row 19721 10 25])
  = [(10%Z, Fin 10); (11%Z, Fin 5)] /\
  StronglySorted Z.lt
    (map fst (calculateHourlyRequirements
                [observed_row 19720 10 18; observed_row 19720 11 22;
                 observed_row 19721 10 25])).
Proof.
  assert (Forall (fun f => (0 <= forecast_hour f)%Z)
            [observed_row 19720 10 18; observed_row 19720 11 22;
             observed_row 19721 10 25]) as H.
  { repeat constructor; simpl; lia. }
  split; [exact H |]. split; [reflexivity |].
  exact (proj1 (hourly_requirements_are_totals_per_hour _ H)).
Defined.

Lemma peak_hours_are_the_busiest_witness :
  findPeakHours
    (calculateHourlyRequirements
       [observed_row 19720 10 18; observed_row 19720 11 22; observed_row 19721 10 25])
  = [10%Z] /\
  length
    (findPeakHours
       (calculateHourlyRequirements
          [observed_row 19720 10 18; observed_row 19720 11 22; observed_row 19721 10 25]))
  = Z.to_nat (Qceiling (2 * (3 # 10))).
Proof.
  split; [reflexivity |].
  refine (proj1 (peak_hours_are_the_busiest
                   (calculateHourlyRequirements
                      [observed_row 19720 10 18; observed_row 19720 11 22;
                       observed_row 19721 10 25]) _)).
  repeat constructor; simpl; eexists; reflexivity.
Defined.

Lemma template_goes_to_the_most_suitable_agent_witness :
  findSuitableAgents (sortAgentsBySuitability [agent 2 3; agent 1 4])
    (template (hhmm 8 0) (hhmm 16 0) type_morning)
    (initial_workload [agent 2 3; agent 1 4]) getDefaultConstraints
  = [agent 1 4; agent 2 3] /\
  forall a, In a [agent 2 3; agent 1 4] ->
            eligible (template (hhmm 8 0) (hhmm 16 0) type_morning)
                     (initial_workload [agent 2 3; agent 1 4]) getDefaultConstraints a ->
            suitability a <= suitability (agent 1 4).
Proof.
  assert (findSuitableAgents (sortAgentsBySuitability [agent 2 3; agent 1 4])
            (template (hhmm 8 0) (hhmm 16 0) type_morning)
            (initial_workload [agent 2 3; agent 1 4]) getDefaultConstraints
          = [agent 1 4; agent 2 3]) as E by reflexivity.
  split; [exact E |].
  exact (proj2 (proj2 (template_goes_to_the_most_suitable_agent _ _ _ _ _ _ E))).
Defined.

Lemma assigned_hours_within_limit_witness :
  max_hours_per_week getDefaultConstraints = Some 40 /\
  within_limit 40
    (assignAgentsToShifts (standardShifts ++ partTimeShifts) [agent 1 4]
                          getDefaultConstraints).
Proof.
  split; [reflexivity |].
  exact (assigned_hours_within_limit (standardShifts ++ partTimeShifts) [agent 1 4]
           getDefaultConstraints 40 eq_refl).
Defined.

(** An agent on approved leave for the day is scheduled all the same. *)
Example agent_on_approved_leave_gets_shifts :
  map (fun shift => (agent_id shift, shift_start_time shift, shift_end_time shift))
      (generateDailyShifts 19730 [agent 1 4] [] [approved_leave 1 19730]
                           getDefaultConstraints)
  = [(Some 1, hhmm 8 0, hhmm 16 0); (Some 1, hhmm 9 0, hhmm 17 0);
     (Some 1, hhmm 10 0, hhmm 18 0); (Some 1, hhmm 12 0, hhmm 20 0);
     (Some 1, hhmm 14 0, hhmm 22 0)]%Z.
Proof. vm_compute. reflexivity. Qed.

Lemma overnight_shift_gets_no_breaks_and_is_rejected_witness :
  (hhmm 6 0 <= hhmm 22 0)%Z /\
  generateBreaks (hhmm 22 0) (hhmm 6 0) getDefaultConstraints = [] /\
  generateLunchBreak (hhmm 22 0) (hhmm 6 0) getDefaultConstraints = None /\
  calculateShiftHours (hhmm 22 0) (hhmm 6 0) == - (16).
Proof.
  assert (hhmm 6 0 <= hhmm 22 0)%Z as H by (unfold hhmm; lia).
  split; [exact H |].
  destruct (overnight_shift_gets_no_breaks_and_is_rejected (hhmm 22 0) (hhmm 6 0)
              getDefaultConstraints H) as (_ & Hb & Hl & _).
  split; [exact Hb |]. split; [exact Hl | reflexivity].
Defined.

Lemma shifts_of_a_generated_schedule_witness :
  exists schedule shifts metrics,
    generateOptimizedSchedule accepting_store two_days = inr (schedule, shifts, metrics) /\
    length shifts = 16%nat /\
    StronglySorted Z.le (map shift_date shifts) /\
    Forall (fun shift =>
              agent_id shift = None /\ schedule_id shift = None /\
              (19730 <= shift_date shift <= 19731)%Z /\
              (shift_start_time shift < shift_end_time shift)%Z) shifts.
Proof.
  destruct (generateOptimizedSchedule accepting_store two_days)
    as [e | [[schedule shifts] metrics]] eqn:E.
  - vm_compute in E. discriminate E.
  - exists schedule, shifts, metrics. split; [reflexivity |].
    destruct (shifts_of_a_generated_schedule _ _ _ _ _ E) as (_ & _ & _ & _ & Hs & Hall).
    split; [vm_compute in E; injection E as _ <- _; reflexivity |].
    split; [exact Hs |].
    eapply Forall_impl; [| exact Hall]. cbv beta. intros s H. tauto.
Defined.

Lemma generated_total_cost_is_zero_witness :
  exists schedule shifts metrics,
    generateOptimizedSchedule accepting_store two_days = inr (schedule, shifts, metrics) /\
    num_eq (totalCost metrics) (Fin 0).
Proof.
  destruct (generateOptimizedSchedule accepting_store two_days)
    as [e | [[schedule shifts] metrics]] eqn:E.
  - vm_compute in E. discriminate E.
  - exists schedule, shifts, metrics. split; [reflexivity |].
    exact (generated_total_cost_is_zero _ _ _ _ _ E).
Defined.
